(** * MyEdge Portfolio: the per-user record store and its request handlers

    A shallow embedding of [src/worker.js]: the Durable Object class
    [UserDurableObject] (getData, setData, updateData, deleteData,
    updateBookmarks, deepMerge), the weather fetcher with its fallback chain,
    and the request handlers handleGenerate, handleGetUser and handleRefresh.

    Values are JSON values: everything the program stores or exchanges goes
    through [JSON.stringify] / [request.json()] or the structured clone of the
    storage API.  Numbers are the integers the program computes with
    (millisecond timestamps, array positions); a property whose value is
    [undefined] is modelled as an absent property, which is what every reader
    of a record in this program observes.  External services (GitHub, the
    generative backend, the news and weather upstreams, the clock, the random
    source) are arguments of the functions that consult them. *)

From Stdlib Require Import String Ascii List ZArith NArith Bool Lia.
Import ListNotations.

Local Open Scope string_scope.
Local Open Scope Z_scope.

#[local] Set Warnings "-register-all".

(* ================================================================== *)
(** ** JSON values and the JavaScript operations the program applies   *)
(* ================================================================== *)

(** The values of JSON.  Numbers are integers: the numbers of the program
    are doubles, and fractions, integers beyond 2^53 and the infinities that
    an overlong numeral parses to are left out of the model. *)
Inductive value : Type :=
| JNull
| JBool (b : bool)
| JNum (n : Z)
| JStr (s : string)
| JArr (items : list value)
| JObj (fields : list (string * value)).

(** An object is its list of own properties, in insertion order.  (An
    engine lists integer-like keys first; the properties below read records
    through [get] and [lookup], which do not depend on the order.) *)
Definition object : Type := list (string * value).

(** [o[k]], [None] standing for [undefined]. *)
Fixpoint get (o : object) (k : string) : option value :=
  match o with
  | [] => None
  | (k', v) :: o' => if String.eqb k' k then Some v else get o' k
  end.

(** [o[k] = v]: an existing property keeps its position, a new one is
    appended. *)
Fixpoint set (o : object) (k : string) (v : value) : object :=
  match o with
  | [] => [(k, v)]
  | (k', v') :: o' =>
      if String.eqb k' k then (k, v) :: o' else (k', v') :: set o' k v
  end.

Definition keys (o : object) : list string := map fst o.

(** JavaScript truthiness; [None] is [undefined]. *)
Definition truthy (v : option value) : bool :=
  match v with
  | None => false
  | Some JNull => false
  | Some (JBool b) => b
  | Some (JNum n) => negb (n =? 0)
  | Some (JStr s) => negb (String.eqb s "")
  | Some (JArr _) => true
  | Some (JObj _) => true
  end.

(** [a || d]. *)
Definition or_default (a : option value) (d : value) : value :=
  match a with
  | Some v => if truthy a then v else d
  | None => d
  end.

(** [typeof v === 'object' && v && !Array.isArray(v)]. *)
Definition is_plain_object (v : value) : bool :=
  match v with
  | JObj _ => true
  | _ => false
  end.


(** [v.k] for a value that is neither null nor undefined.  The program reads
    named record fields only (never [length] or an index), and those are
    undefined on arrays, strings, numbers and booleans. *)
Definition member (v : value) (k : string) : option value :=
  match v with
  | JObj o => get o k
  | _ => None
  end.

(** [v?.k]. *)
Definition opt_member (v : option value) (k : string) : option value :=
  match v with
  | Some JNull | None => None
  | Some x => member x k
  end.

(** *** Number to string in a radix: [n.toString(radix)] *)

Definition alphabet : list ascii :=
  list_ascii_of_string "0123456789abcdefghijklmnopqrstuvwxyz".

Definition digit_char (d : N) : ascii := nth (N.to_nat d) alphabet "z"%char.

(** Most significant digit first; [fuel] bounds the number of digits. *)
Fixpoint digits_fuel (radix : N) (fuel : nat) (n : N) : list N :=
  match fuel with
  | O => []
  | S f =>
      if (n <? radix)%N then [n]
      else digits_fuel radix f (n / radix)%N ++ [(n mod radix)%N]
  end.

(** A number has no more digits in a radix of at least 2 than in binary. *)
Definition digits (radix n : N) : list N :=
  digits_fuel radix (S (N.to_nat (N.log2 n))) n.

Definition N_toString (radix n : N) : string :=
  string_of_list_ascii (map digit_char (digits radix n)).

(** [z.toString(radix)] for an integer [z]. *)
Definition toString (radix : N) (z : Z) : string :=
  if z <? 0 then "-" ++ N_toString radix (Z.abs_N z)
  else N_toString radix (Z.to_N z).

(** The decimal text of an array position, as in [String(index)]. *)
Definition index_key (i : nat) : string := N_toString 10 (N.of_nat i).

(** *** Object spread: [{...v}] *)

Fixpoint indexed (i : nat) (l : list value) : object :=
  match l with
  | [] => []
  | x :: l' => (index_key i, x) :: indexed (S i) l'
  end.

(** The own enumerable properties of a value: an object's fields, an array's
    elements under their positions, a string's characters under theirs (a
    character of the model is one [ascii]), nothing for the other values. *)
Definition spread (v : value) : object :=
  match v with
  | JObj o => o
  | JArr l => indexed 0 l
  | JStr s => indexed 0 (map (fun c => JStr (String c "")) (list_ascii_of_string s))
  | JNull | JBool _ | JNum _ => []
  end.

(** *** Paths into nested objects *)

Definition path : Type := list string.

Fixpoint lookup (v : value) (p : path) : option value :=
  match p with
  | [] => Some v
  | k :: p' =>
      match v with
      | JObj o =>
          match get o k with
          | Some v' => lookup v' p'
          | None => None
          end
      | _ => None
      end
  end.

(** A JavaScript object has each key once; a parsed JSON document never
    repeats one. *)
Fixpoint nodup_keys (ks : list string) : bool :=
  match ks with
  | [] => true
  | k :: ks' => negb (existsb (String.eqb k) ks') && nodup_keys ks'
  end.

Fixpoint wf_value (v : value) : bool :=
  match v with
  | JObj o =>
      nodup_keys (map fst o) &&
      (fix all (l : object) : bool :=
         match l with
         | [] => true
         | (_, x) :: l' => wf_value x && all l'
         end) o
  | JArr l =>
      (fix all (l : list value) : bool :=
         match l with
         | [] => true
         | x :: l' => wf_value x && all l'
         end) l
  | _ => true
  end.

Definition wf_object (o : object) : bool := wf_value (JObj o).

(* ================================================================== *)
(** ** Exceptions, responses, configuration                            *)
(* ================================================================== *)

(** A computation that returns or throws an [Error] with a message. *)
Inductive outcome (A : Type) : Type :=
| Return (a : A)
| Throw (message : string).

Arguments Return {A} a.
Arguments Throw {A} message.

Definition bind {A B : Type} (m : outcome A) (f : A -> outcome B) : outcome B :=
  match m with
  | Return a => f a
  | Throw e => Throw e
  end.

Notation "x <- m ;; k" := (bind m (fun x => k))
  (at level 61, m at next level, right associativity).

(** [try { body } catch (e) { handler(e) }]. *)
Definition try_catch {A : Type} (body : outcome A) (handler : string -> outcome A)
  : outcome A :=
  match body with
  | Return a => Return a
  | Throw e => handler e
  end.

(** A response: its status and its body.  A JSON body is the value given to
    [JSON.stringify]; a plain-text body is a [JStr]. *)
Record Response : Type := mkResponse { status : Z; body : value }.

(** [jsonResponse(data, status = 200)]. *)
Definition jsonResponse (data : value) (st : Z) : Response := mkResponse st data.

Module CONFIG.
Definition CACHE_TTL_TEXT : Z := 24 * 60 * 60 * 1000.
Definition CACHE_TTL_IMAGE : Z := 7 * 24 * 60 * 60 * 1000.
Definition CACHE_TTL_NEWS : Z := 2 * 60 * 60 * 1000.
Definition CACHE_TTL_WEATHER : Z := 30 * 60 * 1000.
Definition DEFAULT_CITY : string := "Los Angeles".
End CONFIG.

(* ================================================================== *)
(** ** class UserDurableObject                                         *)
(* ================================================================== *)

(** The object's storage: the record under the key ['userData'], if any.
    Every record [setData] writes is an object and [deepMerge] returns
    objects, so a stored record is an object. *)
Definition storage : Type := option object.

(** *** The merge and the prototype of its result

    [deepMerge] writes with [result[key] = ...].  For the key [__proto__]
    that is no ordinary write unless [result] has an own property of that
    name: it goes to the setter every object inherits, which makes an object
    or array the prototype of [result], takes the prototype away for [null]
    and does nothing for any other value; [result] gets no own property.
    From then on [result[key]] finds in the new prototype what [result]
    itself does not have. *)

(** The objects on the prototype chain of a result that can hold data,
    nearest first, each as its own enumerable properties.  What a chain ends
    in ([Object.prototype], [Array.prototype]) and an array's [length] hold
    methods and numbers: found by [result[key]] they spread to nothing in
    [{...(result[key] || {})}], exactly like a missing property. *)
Definition chain : Type := list object.

(** The first object of the chain that has the property decides. *)
Fixpoint inherited (proto : chain) (k : string) : option value :=
  match proto with
  | [] => None
  | layer :: proto' =>
      match get layer k with
      | Some v => Some v
      | None => inherited proto' k
      end
  end.

(** [result[key]]: the own property, else the inherited one; the inherited
    [__proto__] is the getter that answers with the prototype itself. *)
Definition read (result : object) (proto : chain) (key : string)
  : option value :=
  match get result key with
  | Some v => Some v
  | None =>
      if String.eqb key "__proto__" then
        match proto with
        | layer :: _ => Some (JObj layer)
        | [] => None
        end
      else inherited proto key
  end.

(** [result[key] = x], where [px] is the prototype chain of [x] when [x] is
    an object that a merge has just built. *)
Definition write (result : object) (proto : chain) (key : string)
    (x : value) (px : chain) : object * chain :=
  match get result "__proto__" with
  | None =>
      if String.eqb key "__proto__" then
        match x with
        | JObj own => (result, own :: px)
        | JArr _ => (result, [spread x])
        | JNull => (result, [])
        | JBool _ | JNum _ | JStr _ => (result, proto)
        end
      else (set result key x, proto)
  | Some _ => (set result key x, proto)
  end.

(** What [deepMerge] assigns to [result[key]] when the payload holds [new]
    there and [result[key]] reads [old]: the recursive merge when [new] is a
    non-array object, [new] itself otherwise; with it, the prototype chain
    the recursive merge left its result with.  The inner loop is the
    [for (const key in source)] of the recursive call, started on the spread
    of [result[key] || {}], a fresh object. *)
Fixpoint merged (old : option value) (new : value) {struct new}
  : value * chain :=
  match new with
  | JObj source =>
      let r :=
        (fix loop (result : object) (proto : chain) (src : object) {struct src}
           : object * chain :=
           match src with
           | [] => (result, proto)
           | (key, v) :: rest =>
               let m := merged (read result proto key) v in
               let w := write result proto key (fst m) (snd m) in
               loop (fst w) (snd w) rest
           end) (spread (or_default old (JObj []))) [] source in
      (JObj (fst r), snd r)
  | _ => (new, [])
  end.

(** The [for (const key in source)] loop of [deepMerge] over the entries of
    [source], updating [result] and its prototype chain. *)
Fixpoint merge_from (result : object) (proto : chain) (src : object)
    {struct src} : object * chain :=
  match src with
  | [] => (result, proto)
  | (key, v) :: rest =>
      let m := merged (read result proto key) v in
      let w := write result proto key (fst m) (snd m) in
      merge_from (fst w) (snd w) rest
  end.

(** The value assigned, as storage and serialisation keep it: its own
    properties. *)
Definition merged_entry (old : option value) (new : value) : value :=
  fst (merged old new).

(** The loop on a fresh object, and the own properties it ends with. *)
Definition merge_loop (result : object) (src : object) : object :=
  fst (merge_from result [] src).

(** [deepMerge(target, source)]: [result = {...target}], then the loop over
    the enumerable properties of [source].  [deepMerge] is the own
    properties of the result, [deepMerge_prototype] the chain it is left
    with, which only [updateData]'s write to [timestamps] can still see. *)
Definition deepMerge (target : value) (source : value) : object :=
  merge_loop (spread target) (spread source).

Definition deepMerge_prototype (target : value) (source : value) : chain :=
  snd (merge_from (spread target) [] (spread source)).

(** [getData()]. *)
Definition getData (st : storage) : Response :=
  match st with
  | None => jsonResponse (JObj [("exists", JBool false)]) 200
  | Some data =>
      jsonResponse (JObj [("exists", JBool true); ("data", JObj data)]) 200
  end.

(** A property whose value may be [undefined]. *)
Definition field (k : string) (v : option value) : object :=
  match v with
  | Some x => [(k, x)]
  | None => []
  end.

(** [setData(request)], with [now] the reading of [Date.now()].  Reading a
    property of a [null] body throws. *)
Definition setData (now : Z) (req : value) (st : storage)
  : outcome Response * storage :=
  match req with
  | JNull => (Throw "TypeError: Cannot read properties of null", st)
  | _ =>
      let b := member req in
      let ts := b "timestamps" in
      let userData : object :=
       (field "username" (b "username") ++
        [("city", or_default (b "city") (JStr CONFIG.DEFAULT_CITY));
         ("interests", or_default (b "interests") (JArr []));
         ("userBio", or_default (b "userBio") (JStr ""))] ++
        field "slug" (b "slug") ++
        [("github", or_default (b "github") JNull);
         ("repos", or_default (b "repos") (JArr []));
         ("aiBio", or_default (b "aiBio") JNull);
         ("aiProjectDescriptions", or_default (b "aiProjectDescriptions") (JObj []));
         ("aiQuote", or_default (b "aiQuote") JNull);
         ("aiBackgroundUrl", or_default (b "aiBackgroundUrl") JNull);
         ("aiCardImageUrl", or_default (b "aiCardImageUrl") JNull);
         ("skills", or_default (b "skills") (JArr []));
         ("bookmarks", or_default (b "bookmarks") (JArr []));
         ("timestamps", JObj
            [("created", JNum now);
             ("updated", JNum now);
             ("textGenerated", or_default (opt_member ts "textGenerated") (JNum now));
             ("imageGenerated", or_default (opt_member ts "imageGenerated") JNull);
             ("newsUpdated", or_default (opt_member ts "newsUpdated") JNull);
             ("weatherUpdated", or_default (opt_member ts "weatherUpdated") JNull)]);
         ("cachedNews", or_default (b "cachedNews") JNull);
         ("cachedWeather", or_default (b "cachedWeather") JNull)])%list in
      (Return (jsonResponse
                 (JObj [("success", JBool true); ("data", JObj userData)]) 200),
       Some userData)
  end.

(** [userData.timestamps.updated = now], for a [userData] with the
    prototype chain [proto].  The module is strict-mode code: the assignment
    throws when [userData.timestamps] is undefined, null or a primitive.  On
    an array it adds a property that is not an index, which neither JSON
    serialisation nor any reader in the program sees, so the array is left
    as it is; and on an object or array that [userData] only inherits, the
    write lands in the prototype and [userData] itself is unchanged. *)
Definition touch_updated (now : Z) (proto : chain) (userData : object)
  : outcome object :=
  match get userData "timestamps" with
  | Some (JObj ts) =>
      Return (set userData "timestamps" (JObj (set ts "updated" (JNum now))))
  | Some (JArr _) => Return userData
  | Some JNull => Throw "TypeError: Cannot set properties of null"
  | Some _ => Throw "TypeError: Cannot create property 'updated'"
  | None =>
      match inherited proto "timestamps" with
      | Some (JObj _) | Some (JArr _) => Return userData
      | None => Throw "TypeError: Cannot set properties of undefined"
      | Some JNull => Throw "TypeError: Cannot set properties of null"
      | Some _ => Throw "TypeError: Cannot create property 'updated'"
      end
  end.

Definition not_found_response : Response :=
  mkResponse 404 (JObj [("error", JStr "User not found")]).

(** [updateData(request)]. *)
Definition updateData (now : Z) (updates : value) (st : storage)
  : outcome Response * storage :=
  match st with
  | None => (Return not_found_response, st)
  | Some userData =>
      match touch_updated now (deepMerge_prototype (JObj userData) updates)
              (deepMerge (JObj userData) updates) with
      | Throw e => (Throw e, st)
      | Return userData' =>
          (Return (jsonResponse
                     (JObj [("success", JBool true); ("data", JObj userData')]) 200),
           Some userData')
      end
  end.

(** [deleteData()]. *)
Definition deleteData (st : storage) : Response * storage :=
  (jsonResponse (JObj [("success", JBool true)]) 200, None).

(** The link emoji used as the default bookmark icon. *)
Definition DEFAULT_ICON : string := "🔗".

(** One step of the [.map((bm, index) => ...)] of [updateBookmarks]; [now] is
    the clock reading taken when the element is visited. *)
Definition reindex_bookmark (now : Z) (index : nat) (bm : value) : outcome value :=
  match bm with
  | JNull => Throw "TypeError: Cannot read properties of null"
  | _ =>
      Return (JObj
        ([("id", or_default (member bm "id")
                   (JStr (toString 36 now ++ index_key index)))] ++
         field "name" (member bm "name") ++
         field "url" (member bm "url") ++
         [("icon", or_default (member bm "icon") (JStr DEFAULT_ICON));
          ("order", JNum (Z.of_nat index))])%list)
  end.

(** The whole map, from position [index] on; [clock i] is the reading of
    [Date.now()] at the element of position [i]. *)
Fixpoint reindex_from (clock : nat -> Z) (index : nat) (bms : list value)
  : outcome (list value) :=
  match bms with
  | [] => Return []
  | bm :: rest =>
      b <- reindex_bookmark (clock index) index bm ;;
      bs <- reindex_from clock (S index) rest ;;
      Return (b :: bs)
  end.

(** [(bookmarks || []).map(...)]: a truthy value that is not an array has no
    [map] method. *)
Definition reindex (clock : nat -> Z) (bookmarks : option value)
  : outcome (list value) :=
  match bookmarks with
  | Some (JArr bms) => reindex_from clock 0 bms
  | _ =>
      if truthy bookmarks
      then Throw "TypeError: (bookmarks || []).map is not a function"
      else Return []
  end.

(** [updateBookmarks(request)]; the last clock reading, after the map, is
    [clock n] for [n] the number of bookmarks. *)
Definition updateBookmarks (clock : nat -> Z) (req : value) (st : storage)
  : outcome Response * storage :=
  match req with
  | JNull => (Throw "TypeError: Cannot destructure property 'bookmarks'", st)
  | _ =>
      match st with
      | None => (Return not_found_response, st)
      | Some userData =>
          let result :=
            bms <- reindex clock (member req "bookmarks") ;;
            userData' <- touch_updated (clock (length bms)) []
                           (set userData "bookmarks" (JArr bms)) ;;
            Return (bms, userData') in
          match result with
          | Throw e => (Throw e, st)
          | Return (bms, userData') =>
              (Return (jsonResponse
                         (JObj [("success", JBool true); ("bookmarks", JArr bms)])
                         200),
               Some userData')
          end
      end
  end.

(** The routes of the object. *)
Inductive do_route : Type :=
| DoGet
| DoSet (req : value)
| DoUpdate (req : value)
| DoDelete
| DoUpdateBookmarks (req : value).

(** [fetch(request)] of the object: the dispatch and its [try]/[catch], which
    turns a thrown error into a 500 response carrying the message. *)
Definition do_fetch (clock : nat -> Z) (r : do_route) (st : storage)
  : Response * storage :=
  let '(res, st') :=
    match r with
    | DoGet => (Return (getData st), st)
    | DoSet req => setData (clock O) req st
    | DoUpdate req => updateData (clock O) req st
    | DoDelete => let '(resp, st') := deleteData st in (Return resp, st')
    | DoUpdateBookmarks req => updateBookmarks clock req st
    end in
  match res with
  | Return resp => (resp, st')
  | Throw e => (mkResponse 500 (JObj [("error", JStr e)]), st')
  end.

(* ================================================================== *)
(** ** String operations of the handlers                               *)
(* ================================================================== *)

(** [toLowerCase] on the letters A to Z; bytes of other characters (digits,
    punctuation, the UTF-8 bytes of CJK city names) are unchanged.  A string
    is its UTF-8 bytes, and a letter outside ASCII that has a lowercase form
    (É) stays as it is here where the code lowercases it: the model is that
    of the code on text whose cased letters are ASCII. *)
Definition lower_ascii (c : ascii) : ascii :=
  let n := nat_of_ascii c in
  if ((65 <=? n) && (n <=? 90))%nat then ascii_of_nat (n + 32) else c.

Fixpoint toLowerCase (s : string) : string :=
  match s with
  | EmptyString => EmptyString
  | String c s' => String (lower_ascii c) (toLowerCase s')
  end.

Definition is_space (c : ascii) : bool :=
  let n := nat_of_ascii c in
  ((n =? 32) || ((9 <=? n) && (n <=? 13)))%nat.

Fixpoint trim_start (s : string) : string :=
  match s with
  | EmptyString => EmptyString
  | String c s' => if is_space c then trim_start s' else s
  end.

Fixpoint rev_string (s acc : string) : string :=
  match s with
  | EmptyString => acc
  | String c s' => rev_string s' (String c acc)
  end.

(** [s.trim()] for ASCII white space; the white space outside ASCII that
    the code also trims (U+00A0, U+3000, ...) is left in place. *)
Definition trim (s : string) : string :=
  rev_string (trim_start (rev_string (trim_start s) "")) "".

(** [s.includes(sub)]. *)
Fixpoint includes (s sub : string) : bool :=
  if String.prefix sub s then true
  else match s with
       | EmptyString => false
       | String _ s' => includes s' sub
       end.

(** [s.split(sep)[0]]: the text before the first separator. *)
Fixpoint first_segment (sep : ascii) (s : string) : string :=
  match s with
  | EmptyString => EmptyString
  | String c s' =>
      if Ascii.eqb c sep then EmptyString else String c (first_segment sep s')
  end.

(** [s.replace(pat, '')]: the first occurrence of [pat] removed. *)
Fixpoint remove_first (pat s : string) : string :=
  if String.prefix pat s
  then String.substring (String.length pat) (String.length s - String.length pat) s
  else match s with
       | EmptyString => EmptyString
       | String c s' => String c (remove_first pat s')
       end.

(** [generateSlug(username)].  [Math.random().toString(36)] is the text
    [0.d1d2d3...] of base-36 digits; [fraction] lists the digits after the
    point (none when the draw is 0), and [substring(2, 8)] keeps at most the
    first six. *)
Definition generateSlug (fraction : list N) (username : string) : string :=
  toLowerCase username ++ "-" ++
  string_of_list_ascii (map digit_char (firstn 6 fraction)).

(** *** Text in the path of a URL

    The worker routes on [new URL(request.url).pathname] and hands that
    text, never decoded, to the handlers.  The URL parser percent-encodes
    spaces, quotes, angle brackets, braces, backquotes and every character
    outside ASCII, ends the path at [?] and [#], turns [\] into [/] and
    resolves the segments [.] and [..]; so a slug that holds any of these
    never arrives as it is stored.  ASCII letters, digits, [-], [_] and [~]
    arrive unchanged, and such text is called plain here. *)
Definition url_plain_char (c : ascii) : bool :=
  let n := nat_of_ascii c in
  (((48 <=? n) && (n <=? 57)) || ((65 <=? n) && (n <=? 90)) ||
   ((97 <=? n) && (n <=? 122)) ||
   (n =? 45) || (n =? 95) || (n =? 126))%nat.

Fixpoint url_plain (s : string) : bool :=
  match s with
  | EmptyString => true
  | String c s' => url_plain_char c && url_plain s'
  end.

(* ================================================================== *)
(** ** The weather fetcher and its fallback chain                      *)
(* ================================================================== *)

(** What a [fetch(url)] followed by [res.json()] can give: the call rejects,
    or a response arrives whose body parses as JSON or does not. *)
Inductive http_result : Type :=
| NetworkError (message : string)
| HttpResponse (ok : bool) (code : Z) (json : option value).

Definition INTERNATIONAL_CITIES : list string :=
  ["los angeles"; "la"; "new york"; "nyc"; "san francisco"; "sf";
   "seattle"; "tokyo"; "london"; "paris"; "singapore"; "sydney";
   "toronto"; "vancouver"; "berlin"; "dubai"; "bangkok"; "seoul";
   "洛杉矶"; "纽约"; "旧金山"; "西雅图"; "东京"; "伦敦"; "巴黎";
   "新加坡"; "悉尼"; "多伦多"; "温哥华"; "柏林"; "迪拜"; "曼谷"; "首尔"].

(** [v[0]] for a value that is neither null nor undefined. *)
Definition index0 (v : value) : option value :=
  match v with
  | JArr (x :: _) => Some x
  | JStr (String c _) => Some (JStr (String c ""))
  | JObj o => get o "0"
  | _ => None
  end.

(** [v?.[0]]. *)
Definition opt_index0 (v : option value) : option value :=
  match v with
  | Some JNull | None => None
  | Some x => index0 x
  end.

(** A number that may be [NaN]; [JSON.stringify] writes [NaN] as [null]. *)
Definition number (n : option Z) : value :=
  match n with
  | Some z => JNum z
  | None => JNull
  end.

(** [n || d] for a number [n] that may be [NaN]. *)
Definition number_or (n : option Z) (d : Z) : Z :=
  match n with
  | Some z => if z =? 0 then d else z
  | None => d
  end.

(** [a || b] where both may be undefined. *)
Definition or_else (a b : option value) : option value :=
  if truthy a then a else b.

Section Weather.

(** The city-code table, the numeric parsers of the language and the
    description and icon tables are parameters: the fallback chain does not
    depend on what they hold.  [parseInt(x)] and [Math.round(parseFloat(x))]
    first convert [x] to a string, which throws a TypeError for an object
    whose conversion methods are not callable (a reply can hold
    [{"toString": 1}]); when they return, [None] is [NaN].  Numerals beyond
    the range of a double are left out. *)
Variable XIAOMI_CITY_IDS : string -> option string.
Variable parseInt : option value -> outcome (option Z).
Variable round_parseFloat : value -> outcome (option Z).
Variable getXiaomiWeatherDesc : Z -> string.
Variable getXiaomiWeatherEmoji : Z -> string.
Variable getWeatherEmojiFromWttr : option Z -> string.

(** The two upstreams: the reply to the request for a city code, and the
    reply to the request for a free-form city (a rejected [fetch] stands
    also for a city that [encodeURIComponent] cannot encode). *)
Variable xiaomi_api : string -> http_result.
Variable wttr_api : string -> http_result.

(** [fetchXiaomiWeather(city)]: the artifact, or [None] for [null]. *)
Definition fetchXiaomiWeather (city : string) : outcome (option value) :=
  let cityLower := trim (toLowerCase city) in
  match (match XIAOMI_CITY_IDS cityLower with
         | Some id => Some id
         | None => XIAOMI_CITY_IDS (trim city)
         end) with
  | None => Return None
  | Some cityId =>
      match xiaomi_api cityId with
      | NetworkError e => Throw e
      | HttpResponse false _ _ => Return None
      | HttpResponse true _ None => Throw "SyntaxError: Unexpected token"
      | HttpResponse true _ (Some data) =>
          if negb (truthy (Some data)) || negb (truthy (member data "current"))
          then Return None
          else
            let current := or_default (member data "current") JNull in
            let temperature := opt_member (member current "temperature") "value" in
            let aqi := member data "aqi" in
            code <- parseInt (member current "weather") ;;
            let weatherCode := number_or code 0 in
            temp <- round_parseFloat (or_default temperature (JStr "22")) ;;
            feels <- round_parseFloat
                  (or_default (or_else (opt_member (member current "feelsLike") "value")
                                       temperature)
                              (JStr "22")) ;;
            humidity <- parseInt (Some
                  (or_default (opt_member (member current "humidity") "value")
                              (JStr "50"))) ;;
            wind <- round_parseFloat
                  (or_default (opt_member (opt_member (member current "wind") "speed")
                                          "value")
                              (JStr "10")) ;;
            Return (Some (JObj
              [("city", JStr city);
               ("temp", number temp);
               ("feels", number feels);
               ("humidity", number humidity);
               ("wind", number wind);
               ("desc", JStr (getXiaomiWeatherDesc weatherCode));
               ("icon", JStr (getXiaomiWeatherEmoji weatherCode));
               ("aqi", or_default (opt_member aqi "aqi") JNull);
               ("pm25", or_default (opt_member aqi "pm25") JNull);
               ("pm10", or_default (opt_member aqi "pm10") JNull);
               ("uvIndex", or_default (member current "uvIndex") JNull);
               ("pressure", or_default (opt_member (member current "pressure") "value") JNull);
               ("visibility", or_default (opt_member (member current "visibility") "value") JNull);
               ("pubTime", or_default (member current "pubTime") JNull);
               ("source", JStr "xiaomi")]))
      end
  end.

(** The static default of the last [catch]. *)
Definition fallback_weather (city : string) : value :=
  JObj [("city", JStr city);
        ("temp", JNum 22);
        ("feels", JNum 23);
        ("humidity", JNum 50);
        ("wind", JNum 10);
        ("desc", JStr "数据获取中");
        ("icon", JStr "🌤️");
        ("source", JStr "fallback")].

(** The body of the second [try] of [fetchWeather]: the wttr.in request. *)
Definition fetchWttr (city : string) : outcome value :=
  match wttr_api city with
  | NetworkError e => Throw e
  | HttpResponse false code _ => Throw ("wttr.in returned " ++ toString 10 code)
  | HttpResponse true _ None => Throw "SyntaxError: Unexpected token"
  | HttpResponse true _ (Some JNull) =>
      Throw "TypeError: Cannot read properties of null"
  | HttpResponse true _ (Some data) =>
      let current := opt_index0 (member data "current_condition") in
      if negb (truthy current) then Throw "Invalid wttr.in response"
      else
        let cur := or_default current JNull in
        temp <- parseInt (member cur "temp_C") ;;
        feels <- parseInt (member cur "FeelsLikeC") ;;
        humidity <- parseInt (member cur "humidity") ;;
        wind <- parseInt (member cur "windspeedKmph") ;;
        code <- parseInt (member cur "weatherCode") ;;
        Return (JObj
          [("city", or_default
               (opt_member (opt_index0 (opt_member
                  (opt_index0 (member data "nearest_area")) "areaName")) "value")
               (JStr city));
           ("temp", JNum (number_or temp 22));
           ("feels", JNum (number_or feels 23));
           ("humidity", JNum (number_or humidity 50));
           ("wind", JNum (number_or wind 10));
           ("desc", or_default
               (opt_member (opt_index0 (member cur "weatherDesc")) "value")
               (JStr "晴"));
           ("icon", JStr (getWeatherEmojiFromWttr code));
           ("source", JStr "wttr.in")])
  end.

Definition isInternational (city : string) : bool :=
  let cityLower := trim (toLowerCase city) in
  existsb (fun c => includes cityLower c || includes c cityLower)
          INTERNATIONAL_CITIES.

(** The first [try] of [fetchWeather]: the primary's artifact when it
    returned one, [None] when the chain goes on to the secondary. *)
Definition tryXiaomi (city : string) : outcome (option value) :=
  try_catch (fetchXiaomiWeather city) (fun _ => Return None).

(** [fetchWeather(env, city)]; [city] is whatever the caller holds (a stored
    record's [city] field, a request parameter): [city.toLowerCase()] throws
    on anything but a string. *)
Definition fetchWeather (city : option value) : outcome value :=
  match city with
  | Some (JStr c) =>
      primary <- (if negb (isInternational c) then tryXiaomi c else Return None) ;;
      match primary with
      | Some xiaomiWeather => Return xiaomiWeather
      | None =>
          try_catch (fetchWttr c) (fun _ => Return (fallback_weather c))
      end
  | _ => Throw "TypeError: city.toLowerCase is not a function"
  end.

End Weather.

(* ================================================================== *)
(** ** The worker: bindings, upstreams and request handlers            *)
(* ================================================================== *)

(** The Durable Object namespace [env.USER_DO]: [idFromName(name)] addresses
    one object, whose storage is [ns name]. *)
Definition namespace : Type := string -> storage.

Definition with_storage (ns : namespace) (name : string) (st : storage)
  : namespace :=
  fun name' => if String.eqb name name' then st else ns name'.

(** A request to the object named [name]. *)
Definition stub_fetch (clock : nat -> Z) (name : string) (r : do_route)
    (ns : namespace) : Response * namespace :=
  let '(resp, st') := do_fetch clock r (ns name) in
  (resp, with_storage ns name st').

(** The generative backend during one request: what the three concurrent text
    generations (biography, project descriptions, quote) give when joined,
    and the two image references [generateAndStoreImages] returns (it
    catches its own failures). *)
Record AIBinding : Type := mkAI {
  generated_text : outcome (value * value * value);
  generated_images : value * value
}.

(** The bindings of the worker: [env.AI] and [env.R2_BUCKET] may be absent. *)
Record Env : Type := mkEnv {
  AI : option AIBinding;
  R2_BUCKET : bool
}.

Definition getDefaultBookmarks : value :=
  let bm (id name url icon : string) (order : Z) : value :=
    JObj [("id", JStr id); ("name", JStr name); ("url", JStr url);
          ("icon", JStr icon); ("order", JNum order)] in
  JArr [bm "1" "Google" "https://google.com" "🔍" 0;
        bm "2" "GitHub" "https://github.com" "🐙" 1;
        bm "3" "Twitter" "https://twitter.com" "🐦" 2;
        bm "4" "YouTube" "https://youtube.com" "📺" 3].

(** [a - b > c] on numbers that may be [NaN]: false when one is. *)
Definition older_than (now : Z) (t : option Z) (ttl : Z) : bool :=
  match t with
  | Some z => now - z >? ttl
  | None => false
  end.

(** [v.k] where [v] may be null or undefined, in which case it throws. *)
Definition property (v : option value) (k : string) : outcome (option value) :=
  match v with
  | None | Some JNull =>
      Throw ("TypeError: Cannot read properties of undefined (reading '" ++ k ++ "')")
  | Some x => Return (member x k)
  end.

(** [Object.assign(target, source)]: a shallow copy of each property. *)
Definition assign (target source : object) : object :=
  fold_left (fun t kv => set t (fst kv) (snd kv)) source target.

(** The top-level [try]/[catch] of the worker's [fetch]. *)
Definition worker_catch (r : outcome Response) : Response :=
  match r with
  | Return resp => resp
  | Throw e => mkResponse 500 (JObj [("error", JStr e)])
  end.

Section Handlers.

(** Language coercion and external collaborators.  [ToNumber] is the
    numeric value of a string, array or object used as an operand of [-]
    ([None] for [NaN]); the remaining parameters are those of the weather
    fetcher, the GitHub profile source, the news aggregator and
    [extractSkills]. *)
Variable ToNumber : value -> option Z.
Variable XIAOMI_CITY_IDS : string -> option string.
Variable parseInt : option value -> outcome (option Z).
Variable round_parseFloat : value -> outcome (option Z).
Variable getXiaomiWeatherDesc : Z -> string.
Variable getXiaomiWeatherEmoji : Z -> string.
Variable getWeatherEmojiFromWttr : option Z -> string.
Variable xiaomi_api : string -> http_result.
Variable wttr_api : string -> http_result.
Variable fetchGitHubData : string -> outcome value.
Variable fetchRealNews : option value -> outcome (list value).
Variable extractSkills : option value -> outcome value.

Definition weather (city : option value) : outcome value :=
  fetchWeather XIAOMI_CITY_IDS parseInt round_parseFloat getXiaomiWeatherDesc
    getXiaomiWeatherEmoji getWeatherEmojiFromWttr xiaomi_api wttr_api city.

(** The numeric value of an operand of [now - x]. *)
Definition to_number (v : option value) : option Z :=
  match v with
  | None => None
  | Some JNull => Some 0
  | Some (JBool b) => Some (if b then 1 else 0)
  | Some (JNum n) => Some n
  | Some x => ToNumber x
  end.

(** [!userData[cache] || now - userData.timestamps[stamp] > ttl]. *)
Definition isStale (now : Z) (userData : object) (cache stamp : string)
    (ttl : Z) : outcome bool :=
  if negb (truthy (get userData cache)) then Return true
  else
    t <- property (get userData "timestamps") stamp ;;
    Return (older_than now (to_number t) ttl).

(** [updates.timestamps = { ...updates.timestamps, [stamp]: now }]. *)
Definition stamp_update (updates : object) (stamp : string) (now : Z) : object :=
  set updates "timestamps"
    (JObj (set (match get updates "timestamps" with
                | Some t => spread t
                | None => []
                end) stamp (JNum now))).

(** The freshness-gated refresh shared by the read paths: the [updates]
    object built from the stale categories. *)
Definition stale_updates (now : Z) (userData : object) : outcome object :=
  staleWeather <- isStale now userData "cachedWeather" "weatherUpdated"
                    CONFIG.CACHE_TTL_WEATHER ;;
  updates1 <- (if staleWeather : bool then
                 w <- weather (get userData "city") ;;
                 Return (stamp_update (set [] "cachedWeather" w)
                                      "weatherUpdated" now)
               else Return []) ;;
  staleNews <- isStale now userData "cachedNews" "newsUpdated"
                 CONFIG.CACHE_TTL_NEWS ;;
  (if staleNews : bool then
     n <- fetchRealNews (get userData "interests") ;;
     Return (stamp_update (set updates1 "cachedNews" (JArr n))
                          "newsUpdated" now)
   else Return updates1).

(** [handleGetUser(request, env, apiPath)]: [now] is the handler's reading
    of the clock, [do_clock] the object's.  The object's reply to [/get] has
    [exists: true] and carries the record exactly when one is stored, so the
    handlers' test of that reply is the case analysis on [ns name]. *)
Definition handleGetUser (now : Z) (do_clock : nat -> Z) (apiPath : string)
    (ns : namespace) : outcome Response * namespace :=
  let slug := remove_first "/user/" apiPath in
  let username := first_segment "-" slug in
  if String.eqb username "" then
    (Return (jsonResponse (JObj [("error", JStr "Invalid slug")]) 400), ns)
  else
    let name := toLowerCase username in
    match ns name with
    | None =>
        (Return (jsonResponse (JObj [("error", JStr "User not found")]) 404), ns)
    | Some userData =>
        match get userData "slug" with
        | Some (JStr s) =>
            if String.eqb s slug then
              match stale_updates now userData with
              | Throw e => (Throw e, ns)
              | Return [] =>
                  (Return (jsonResponse (JObj [("data", JObj userData)]) 200), ns)
              | Return updates =>
                  let '(_, ns') :=
                    stub_fetch do_clock name (DoUpdate (JObj updates)) ns in
                  (Return (jsonResponse
                             (JObj [("data", JObj (assign userData updates))]) 200),
                   ns')
              end
            else
              (Return (jsonResponse (JObj [("error", JStr "User not found")]) 404),
               ns)
        | _ =>
            (Return (jsonResponse (JObj [("error", JStr "User not found")]) 404), ns)
        end
    end.

(** [clientGithubData && clientGithubData.user && clientGithubData.repos]
    selects the client's data, otherwise the profile source is asked. *)
Definition github_data (client : option value) (username : string)
  : outcome value :=
  match client with
  | Some c =>
      if truthy client && truthy (member c "user") && truthy (member c "repos")
      then Return c
      else fetchGitHubData username
  | None => fetchGitHubData username
  end.

(** [generateAllAIContent(env, githubData, userBio, interests)]: the bundle
    [(bio, projectDescriptions, quote, skills)]. *)
Definition generateAllAIContent (env : Env) (githubData : value)
  : outcome (value * value * value * value) :=
  skills <- extractSkills (member githubData "repos") ;;
  match AI env with
  | None => Throw "Workers AI is required. Please ensure: 1) AI binding is configured in wrangler.toml with [ai] section, 2) Your Cloudflare account has Workers AI enabled, 3) You have redeployed after adding the binding."
  | Some ai =>
      try_catch
        (t <- generated_text ai ;;
         let '(bio, projectDescriptions, quote) := t in
         Return (bio, projectDescriptions, quote, skills))
        (fun e =>
           if includes e "model" then
             Throw ("AI model error: " ++ e ++
                    ". Please check if the model name is correct.")
           else if includes e "binding" then
             Throw ("AI binding error: " ++ e ++
                    ". Please verify your wrangler.toml configuration.")
           else Throw ("AI content generation failed: " ++ e))
  end.

(** The image step shared by generation and forced refresh:
    [generateAndStoreImages] runs only when both bindings are present. *)
Definition images (env : Env) : option (value * value) :=
  match AI env with
  | Some ai => if R2_BUCKET env then Some (generated_images ai) else None
  | None => None
  end.

(** [handleGenerate(request, env)].  [fraction] is the random draw of
    [generateSlug], [clock] the handler's successive clock readings,
    [do_clock] the object's. *)
Definition handleGenerate (clock do_clock : nat -> Z) (fraction : list N)
    (env : Env) (method : string) (req : value) (ns : namespace)
  : outcome Response * namespace :=
  if negb (String.eqb method "POST") then
    (Return (mkResponse 405 (JStr "Method Not Allowed")), ns)
  else
    match req with
    | JNull => (Throw "TypeError: Cannot destructure property 'username'", ns)
    | _ =>
        let city := member req "city" in
        let interests := member req "interests" in
        let userBio := member req "userBio" in
        if negb (truthy (member req "username")) then
          (Return (jsonResponse
                     (JObj [("error", JStr "GitHub username is required")]) 400),
           ns)
        else
          match member req "username" with
          | Some (JStr username) =>
              let name := toLowerCase username in
              match ns name with
              | Some _ =>
                  let '(updateRes, ns') :=
                    stub_fetch do_clock name
                      (DoUpdate (JObj (field "city" city ++
                                       field "interests" interests ++
                                       field "userBio" userBio)%list)) ns in
                  (slug <- property (member (body updateRes) "data") "slug" ;;
                   Return (jsonResponse
                     (JObj ([("isNew", JBool false)] ++ field "slug" slug ++
                            field "data" (member (body updateRes) "data"))%list)
                     200),
                   ns')
              | None =>
                  let generated :=
                    githubData <- github_data (member req "githubData") username ;;
                    let slug := generateSlug fraction username in
                    aiContent <- generateAllAIContent env githubData ;;
                    let '(bio, projectDescriptions, quote, skills) := aiContent in
                    news <- fetchRealNews interests ;;
                    w <- weather (Some (or_default city (JStr CONFIG.DEFAULT_CITY))) ;;
                    let '(backgroundUrl, cardImageUrl) :=
                      match images env with
                      | Some urls => urls
                      | None => (JNull, JNull)
                      end in
                    let hasBackground := truthy (Some backgroundUrl) in
                    let tick := if hasBackground then 1%nat else 0%nat in
                    Return (slug,
                      ([("username", JStr username);
                        ("city", or_default city (JStr CONFIG.DEFAULT_CITY));
                        ("interests", or_default interests (JArr []));
                        ("userBio", or_default userBio (JStr ""));
                        ("slug", JStr slug)] ++
                       field "github" (member githubData "user") ++
                       field "repos" (member githubData "repos") ++
                       [("aiBio", bio);
                        ("aiProjectDescriptions", projectDescriptions);
                        ("aiQuote", quote);
                        ("aiBackgroundUrl", backgroundUrl);
                        ("aiCardImageUrl", cardImageUrl);
                        ("skills", skills);
                        ("bookmarks", getDefaultBookmarks);
                        ("cachedNews", JArr news);
                        ("cachedWeather", w);
                        ("timestamps", JObj
                           [("textGenerated", JNum (clock 0%nat));
                            ("imageGenerated",
                             if hasBackground then JNum (clock 1%nat) else JNull);
                            ("newsUpdated", JNum (clock (1 + tick)%nat));
                            ("weatherUpdated", JNum (clock (2 + tick)%nat))])])%list)
                  in
                  match generated with
                  | Return (slug, userData) =>
                      let '(_, ns') :=
                        stub_fetch do_clock name (DoSet (JObj userData)) ns in
                      (Return (jsonResponse
                                 (JObj [("isNew", JBool true);
                                        ("slug", JStr slug);
                                        ("data", JObj userData)]) 200),
                       ns')
                  | Throw e =>
                      (Return (jsonResponse (JObj [("error", JStr e)]) 500), ns)
                  end
              end
          | _ => (Throw "TypeError: username.toLowerCase is not a function", ns)
          end
    end.

(** [handleRefresh(request, env)]. *)
Definition handleRefresh (clock do_clock : nat -> Z) (env : Env)
    (method : string) (req : value) (ns : namespace)
  : outcome Response * namespace :=
  if negb (String.eqb method "POST") then
    (Return (mkResponse 405 (JStr "Method Not Allowed")), ns)
  else
    match req with
    | JNull => (Throw "TypeError: Cannot destructure property 'username'", ns)
    | _ =>
        if negb (truthy (member req "username")) then
          (Return (jsonResponse
                     (JObj [("error", JStr "Username is required")]) 400), ns)
        else
          match member req "username" with
          | Some (JStr username) =>
              let name := toLowerCase username in
              match ns name with
              | None =>
                  (Return (jsonResponse
                             (JObj [("error", JStr "User not found")]) 404), ns)
              | Some userData =>
                  let refreshed :=
                    githubData <- github_data (member req "githubData") username ;;
                    aiContent <- generateAllAIContent env githubData ;;
                    let '(bio, projectDescriptions, quote, skills) := aiContent in
                    news <- fetchRealNews (get userData "interests") ;;
                    w <- weather (get userData "city") ;;
                    let forced :=
                      if truthy (member req "forceAll") then images env else None in
                    Return
                      (field "github" (member githubData "user") ++
                       field "repos" (member githubData "repos") ++
                       [("aiBio", bio);
                        ("aiProjectDescriptions", projectDescriptions);
                        ("aiQuote", quote);
                        ("skills", skills);
                        ("cachedNews", JArr news);
                        ("cachedWeather", w);
                        ("timestamps", JObj
                           ([("textGenerated", JNum (clock 0%nat));
                             ("newsUpdated", JNum (clock 1%nat));
                             ("weatherUpdated", JNum (clock 2%nat))] ++
                            match forced with
                            | Some _ => [("imageGenerated", JNum (clock 3%nat))]
                            | None => []
                            end))] ++
                       match forced with
                       | Some (backgroundUrl, cardImageUrl) =>
                           [("aiBackgroundUrl", backgroundUrl);
                            ("aiCardImageUrl", cardImageUrl)]
                       | None => []
                       end)%list
                  in
                  match refreshed with
                  | Throw e => (Throw e, ns)
                  | Return updates =>
                      let '(_, ns1) :=
                        stub_fetch do_clock name (DoUpdate (JObj updates)) ns in
                      let '(updatedRes, ns2) := stub_fetch do_clock name DoGet ns1 in
                      (Return (jsonResponse
                                 (JObj ([("success", JBool true)] ++
                                        field "data" (member (body updatedRes) "data"))%list)
                                 200),
                       ns2)
                  end
              end
          | _ => (Throw "TypeError: username.toLowerCase is not a function", ns)
          end
    end.

(** [handleUpdateBookmarks(request, env)]: the object's reply is returned
    as it is. *)
Definition handleUpdateBookmarks (do_clock : nat -> Z) (method : string)
    (req : value) (ns : namespace) : outcome Response * namespace :=
  if negb (String.eqb method "POST") then
    (Return (mkResponse 405 (JStr "Method Not Allowed")), ns)
  else
    match req with
    | JNull => (Throw "TypeError: Cannot destructure property 'username'", ns)
    | _ =>
        if negb (truthy (member req "username")) then
          (Return (jsonResponse
                     (JObj [("error", JStr "Username is required")]) 400), ns)
        else
          match member req "username" with
          | Some (JStr username) =>
              let '(resp, ns') :=
                stub_fetch do_clock (toLowerCase username)
                  (DoUpdateBookmarks
                     (JObj (field "bookmarks" (member req "bookmarks")))) ns in
              (Return resp, ns')
          | _ => (Throw "TypeError: username.toLowerCase is not a function", ns)
          end
    end.

End Handlers.

(* ================================================================== *)
(** ** Vocabulary of the properties                                    *)
(* ================================================================== *)



(** The paths at or below [timestamps.updated]. *)
Definition under_updated (p : path) : bool :=
  match p with
  | k1 :: k2 :: _ => String.eqb k1 "timestamps" && String.eqb k2 "updated"
  | _ => false
  end.

(** The paths whose value the bump of [timestamps.updated] changes: the
    [timestamps] object itself and what lies at or below [updated]. *)
Definition bumped (p : path) : bool :=
  match p with
  | [k] => String.eqb k "timestamps"
  | _ => under_updated p
  end.



(** The generative backend is unavailable: the binding is missing, or the
    joined text generations fail. *)
Definition generation_unavailable (env : Env) : Prop :=
  AI env = None \/
  exists ai e, AI env = Some ai /\ generated_text ai = Throw e.

Fixpoint has_hyphen (s : string) : bool :=
  match s with
  | EmptyString => false
  | String c s' => Ascii.eqb c "-" || has_hyphen s'
  end.

(** Every stored record carries a slug made by [generateSlug] for the
    identity it is stored under: the identity, a hyphen, and a suffix of
    base-36 digits.  [handleGenerate] creates records so, and no update
    payload the handlers build has a [slug] entry. *)
Definition slugs_generated (ns : namespace) : Prop :=
  forall name R,
    ns name = Some R ->
    exists suffix,
      get R "slug" = Some (JStr (name ++ "-" ++ suffix)) /\
      has_hyphen suffix = false.

(** A generative backend that answers. *)
Definition sample_env : Env :=
  mkEnv (Some (mkAI (Return (JStr "bio", JObj [],
                             JObj [("text", JStr "q"); ("author", JStr "a")]))
                    (JNull, JNull)))
        false.

(** Induction on a value that reaches the elements of arrays and the fields
    of objects. *)
Section ValueInduction.

Variable P : value -> Prop.
Hypothesis P_null : P JNull.
Hypothesis P_bool : forall b, P (JBool b).
Hypothesis P_num : forall n, P (JNum n).
Hypothesis P_str : forall s, P (JStr s).
Hypothesis P_arr : forall items, Forall P items -> P (JArr items).
Hypothesis P_obj :
  forall fields, Forall (fun kv => P (snd kv)) fields -> P (JObj fields).

Fixpoint value_nested_ind (v : value) : P v :=
  match v with
  | JNull => P_null
  | JBool b => P_bool b
  | JNum n => P_num n
  | JStr s => P_str s
  | JArr items =>
      P_arr items
        ((fix each (l : list value) : Forall P l :=
            match l with
            | [] => Forall_nil P
            | x :: l' => Forall_cons x (value_nested_ind x) (each l')
            end) items)
  | JObj fields =>
      P_obj fields
        ((fix each (l : object) : Forall (fun kv => P (snd kv)) l :=
            match l with
            | [] => Forall_nil _
            | kv :: l' => Forall_cons kv (value_nested_ind (snd kv)) (each l')
            end) fields)
  end.

End ValueInduction.

(** *** Sample data *)

(** The record [setData] stores for a first generation of user octocat at
    time 1000. *)
Definition sample_body : value :=
  JObj [("username", JStr "octocat");
        ("city", JStr "Beijing");
        ("interests", JArr [JStr "Tech"]);
        ("slug", JStr "octocat-k3x9a1");
        ("github", JObj [("login", JStr "octocat"); ("followers", JNum 42)]);
        ("aiBio", JStr "bio");
        ("aiQuote", JObj [("text", JStr "code is poetry"); ("author", JStr "anon")]);
        ("bookmarks", getDefaultBookmarks);
        ("cachedNews", JArr [JObj [("title", JStr "headline")]]);
        ("cachedWeather", JObj [("temp", JNum 20); ("aqi", JNum 35);
                                ("source", JStr "xiaomi")]);
        ("timestamps", JObj [("textGenerated", JNum 1000);
                             ("newsUpdated", JNum 1000);
                             ("weatherUpdated", JNum 1000)])].

Definition sample_record : object :=
  Eval vm_compute in
    match snd (setData 1000 sample_body None) with
    | Some r => r
    | None => []
    end.

Definition sample_timestamps : object :=
  Eval vm_compute in
    match get sample_record "timestamps" with
    | Some (JObj t) => t
    | _ => []
    end.

(** A namespace holding the sample record and nothing else. *)
Definition sample_namespace : namespace :=
  with_storage (fun _ => None) "octocat" (Some sample_record).

(** Upstreams for the examples: GitHub answers, the news sources return
    nothing, both weather services are unreachable. *)
Definition sample_github (_ : string) : outcome value :=
  Return (JObj [("user", JObj [("login", JStr "octocat")]); ("repos", JArr [])]).

Definition sample_news (_ : option value) : outcome (list value) := Return [].

Definition sample_skills (_ : option value) : outcome value := Return (JArr []).

Definition unreachable (_ : string) : http_result := NetworkError "fetch failed".

Definition no_number (_ : value) : option Z := None.

Definition no_float (_ : value) : outcome (option Z) := Return None.

Definition no_parse (_ : option value) : outcome (option Z) := Return None.

Definition no_code (_ : string) : option string := None.

(** A city-code table with one entry, and a primary upstream that answers
    with a current observation. *)
Definition sample_city_ids (name : string) : option string :=
  if String.eqb name "beijing" then Some "101010100" else None.

Definition sample_xiaomi (_ : string) : http_result :=
  HttpResponse true 200
    (Some (JObj [("current", JObj [("weather", JStr "1")])])).

(* ================================================================== *)
(** ** Vocabulary of the further properties                            *)
(* ================================================================== *)

(** The shape of a record stored under [name]: an object under
    [timestamps], and a slug made of the identity, a hyphen and a suffix
    without hyphen. *)
Definition record_shape (name : string) (R : object) : Prop :=
  (exists ts, get R "timestamps" = Some (JObj ts)) /\
  (exists suffix,
     get R "slug" = Some (JStr (name ++ "-" ++ suffix)) /\
     has_hyphen suffix = false).

Definition store_invariant (ns : namespace) : Prop :=
  forall name R, ns name = Some R -> record_shape name R.

(** Every record of [ns] is still stored in [ns'], with its slug and its
    username. *)
Definition persists (ns ns' : namespace) : Prop :=
  forall name R,
    ns name = Some R ->
    exists R',
      ns' name = Some R' /\
      get R' "slug" = get R "slug" /\
      get R' "username" = get R "username".

(** A request keeps the records and their shape. *)
Definition step_ok (ns ns' : namespace) : Prop :=
  persists ns ns' /\ (store_invariant ns -> store_invariant ns').

(** Every record of [ns] is still stored in [ns'], with the same value
    under [k]. *)
Definition keeps_field (k : string) (ns ns' : namespace) : Prop :=
  forall name R,
    ns name = Some R ->
    exists R', ns' name = Some R' /\ get R' k = get R k.

(** What the user entered: the fields no refresh rewrites. *)
Definition USER_FIELDS : list string :=
  ["city"; "interests"; "userBio"; "bookmarks"].

(** A bookmark request for the sample user, and the array the re-indexing
    makes of its bookmarks at clock reading 9000. *)
Definition sample_bookmark_request : value :=
  JObj [("username", JStr "Octocat");
        ("bookmarks", JArr [JObj [("name", JStr "Docs");
                                  ("url", JStr "https://docs.github.com")]])].

Definition sample_reindexed : list value :=
  Eval vm_compute in
    match reindex (fun _ => 9000) (member sample_bookmark_request "bookmarks") with
    | Return bms => bms
    | Throw _ => []
    end.


(* ================================================================== *)
(** ** The news aggregator                                             *)
(* ================================================================== *)

Module News.

Section Aggregator.

(** The key under which a title is deduplicated,
    [title.toLowerCase().substring(0, 50)]: the deduplication uses nothing
    of it but the equality of two keys. *)
Variable title_key : string -> string.

(** The four sources.  Each of [fetchHackerNews], [fetchDevToNews],
    [fetchGitHubTrending] and [fetchFinanceNews] catches its own failures
    and returns an array, empty when it failed; these are the arrays they
    return when asked ([fetchDevToNews] is given the interests). *)
Variable fetchHackerNews : list value.
Variable fetchDevToNews : list value -> list value.
Variable fetchGitHubTrending : list value.
Variable fetchFinanceNews : list value.

(** [item.title.toLowerCase().substring(0, 50)]. *)
Definition item_key (item : value) : outcome string :=
  title <- property (Some item) "title" ;;
  match title with
  | Some (JStr t) => Return (title_key t)
  | None =>
      Throw "TypeError: Cannot read properties of undefined (reading 'toLowerCase')"
  | Some JNull =>
      Throw "TypeError: Cannot read properties of null (reading 'toLowerCase')"
  | Some _ => Throw "TypeError: item.title.toLowerCase is not a function"
  end.

(** The [filter] of [deduplicateNews], with the set [seen] so far. *)
Fixpoint filter_unseen (seen : list string) (news : list value)
  : outcome (list value) :=
  match news with
  | [] => Return []
  | item :: rest =>
      key <- item_key item ;;
      if existsb (String.eqb key) seen then filter_unseen seen rest
      else
        kept <- filter_unseen (key :: seen) rest ;;
        Return (item :: kept)
  end.

(** [deduplicateNews(news)]. *)
Definition deduplicateNews (news : list value) : outcome (list value) :=
  filter_unseen [] news.

(** [topics.includes(i)]. *)
Definition is_one_of (topics : list string) (i : value) : bool :=
  match i with
  | JStr s => existsb (String.eqb s) topics
  | _ => false
  end.

(** The [try] block of [fetchRealNews]: what [allNews] holds after it.
    On anything but an array [interests.some] is not a function, and the
    [catch] leaves [allNews] empty. *)
Definition gather (interests : option value) : list value :=
  match interests with
  | Some (JArr l) =>
      ((if existsb (is_one_of ["Tech"; "AI"; "Startup"]) l
        then fetchHackerNews else []) ++
       (if existsb (is_one_of ["Tech"; "Design"; "AI"]) l
        then fetchDevToNews l else []) ++
       (if existsb (is_one_of ["Tech"]) l then fetchGitHubTrending else []) ++
       (if existsb (is_one_of ["Finance"]) l then fetchFinanceNews else []))%list
  | _ => []
  end.

(** [fetchRealNews(interests)]. *)
Definition fetchRealNews (interests : option value) : outcome (list value) :=
  uniqueNews <- deduplicateNews (gather interests) ;;
  Return (firstn 8 uniqueNews).

End Aggregator.

End News.

(** [out] is [l] with some elements left out, the order kept. *)
Inductive subsequence {A : Type} : list A -> list A -> Prop :=
| subsequence_nil : subsequence [] []
| subsequence_skip (x : A) (out l : list A) :
    subsequence out l -> subsequence out (x :: l)
| subsequence_keep (x : A) (out l : list A) :
    subsequence out l -> subsequence (x :: out) (x :: l).

(** News items for the examples: the third repeats the title of the first. *)
Definition sample_items : list value :=
  [JObj [("title", JStr "Rocq 9.1 released"); ("source", JStr "Hacker News")];
   JObj [("title", JStr "Edge computing"); ("source", JStr "Dev.to")];
   JObj [("title", JStr "Rocq 9.1 released"); ("source", JStr "Dev.to")]].


(* ================================================================== *)
(** ** The portfolio page                                              *)
(* ================================================================== *)

(** [CONFIG.SOCIAL_BOTS]. *)
Definition SOCIAL_BOTS : list string :=
  ["twitterbot"; "facebookexternalhit"; "linkedinbot";
   "discordbot"; "slackbot"; "telegrambot"; "whatsapp";
   "wechat"; "micromessenger"; "googlebot"; "bingbot";
   "pinterest"; "tumblr"; "vkshare"; "w3c_validator";
   "redditbot"; "applebot"; "embedly"; "quora link preview";
   "showyoubot"; "outbrain"; "rogerbot"; "developers.google.com"].

(** What [handlePortfolioPage] answers with: the plain 400 reply, the
    not-found page, or the document a renderer made of a record. *)
Inductive page : Type :=
| InvalidURL
| NotFoundPage
| Document (html : string).

(** The answer made of a renderer's result: its document, or the exception
    it threw. *)
Definition rendered (result : outcome string) : outcome page :=
  html <- result ;; Return (Document html).

(** The slug of a page path: [path.replace('/p/', '')] or
    [path.replace('/@', '')], [None] when the path has neither prefix. *)
Definition page_slug (path : string) : option string :=
  if String.prefix "/p/" path then Some (remove_first "/p/" path)
  else if String.prefix "/@" path then Some (remove_first "/@" path)
  else None.

(** [CONFIG.SOCIAL_BOTS.some(bot => userAgent.includes(bot))] on the
    lowercased [User-Agent] header, [None] when the request has none. *)
Definition isBot (userAgent : option string) : bool :=
  let ua := toLowerCase (match userAgent with
                         | Some s => s
                         | None => ""
                         end) in
  existsb (fun bot => includes ua bot) SOCIAL_BOTS.

Section Pages.

Variable ToNumber : value -> option Z.
Variable XIAOMI_CITY_IDS : string -> option string.
Variable parseInt : option value -> outcome (option Z).
Variable round_parseFloat : value -> outcome (option Z).
Variable getXiaomiWeatherDesc : Z -> string.
Variable getXiaomiWeatherEmoji : Z -> string.
Variable getWeatherEmojiFromWttr : option Z -> string.
Variable xiaomi_api : string -> http_result.
Variable wttr_api : string -> http_result.
Variable fetchRealNews : option value -> outcome (list value).

(** The two renderers, [servePortfolioPage(data, request)] and
    [serveSocialPreviewPage(data, request)], as functions of the record:
    the request is that of the call.  They are templates over the fields of
    the record and are not modelled; they throw on a record whose fields are
    not of the types the templates use, a truthy [aiCardImageUrl] that is
    not a string for one ([data.aiCardImageUrl.startsWith]). *)
Variable servePortfolioPage : object -> outcome string.
Variable serveSocialPreviewPage : object -> outcome string.

(** [handlePortfolioPage(request, env, path)]: [userAgent] is the request's
    [User-Agent] header, [now] the handler's reading of the clock,
    [do_clock] the object's. *)
Definition handlePortfolioPage (now : Z) (do_clock : nat -> Z)
    (userAgent : option string) (path : string) (ns : namespace)
  : outcome page * namespace :=
  match page_slug path with
  | None => (Return InvalidURL, ns)
  | Some slug =>
      if String.eqb slug "" then (Return InvalidURL, ns)
      else
        let username := first_segment "-" slug in
        let name := toLowerCase username in
        match ns name with
        | None => (Return NotFoundPage, ns)
        | Some userData =>
            let slug_differs :=
              match get userData "slug" with
              | Some (JStr s) => negb (String.eqb s slug)
              | _ => true
              end in
            if slug_differs && negb (String.eqb username slug) then
              (Return NotFoundPage, ns)
            else if isBot userAgent then
              (rendered (serveSocialPreviewPage userData), ns)
            else
              match stale_updates ToNumber XIAOMI_CITY_IDS parseInt
                      round_parseFloat getXiaomiWeatherDesc
                      getXiaomiWeatherEmoji getWeatherEmojiFromWttr
                      xiaomi_api wttr_api fetchRealNews now userData with
              | Throw e => (Throw e, ns)
              | Return [] => (rendered (servePortfolioPage userData), ns)
              | Return updates =>
                  let '(_, ns') :=
                    stub_fetch do_clock name (DoUpdate (JObj updates)) ns in
                  (rendered (servePortfolioPage (assign userData updates)), ns')
              end
        end
  end.

End Pages.


(* ================================================================== *)
(** ** Generated images and the R2 bucket                              *)
(* ================================================================== *)

Section Images.

(** What the image model returns, and what a stored object holds. *)
Variable image : Type.

(** An object of the bucket: its body and the content type of its
    [httpMetadata], if it has one. *)
Record r2_object : Type := mkR2 {
  r2_body : image;
  r2_contentType : option string
}.

(** The bucket [env.R2_BUCKET]: the latest object put under a key is the one
    a [get] finds. *)
Definition bucket : Type := list (string * r2_object).

Fixpoint r2_get (b : bucket) (key : string) : option r2_object :=
  match b with
  | [] => None
  | (k, o) :: b' => if String.eqb k key then Some o else r2_get b' key
  end.

(** The two runs of the image model, for the background prompt and for the
    card prompt (both prompts are fixed by the arguments of the function),
    and the keys for which a [put] is rejected, with the error. *)
Variable backgroundResponse : outcome image.
Variable cardResponse : outcome image.
Variable put_rejected : string -> option string.

(** [env.R2_BUCKET.put(key, body, { httpMetadata: { contentType } })]. *)
Definition r2_put (b : bucket) (key : string) (body : image)
    (contentType : string) : outcome bucket :=
  match put_rejected key with
  | Some e => Throw e
  | None => Return ((key, mkR2 body (Some contentType)) :: b)
  end.

(** [generateAndStoreImages(env, username, user, skills, bio)]: the pair
    [(backgroundUrl, cardImageUrl)] and the bucket afterwards.  [clock]
    gives the successive readings of [Date.now()].  [skills] is an array of
    strings and [bio] a string, as [extractSkills] and [generateAIBio]
    return them, so that [skills.slice(0, 3).join(', ')], evaluated before
    the [try], does not throw.  An exception while the card prompt is built
    inside the [try] (a [user.name] that does not convert to a string) is
    caught like a rejected run: it counts as a [cardResponse] that
    throws. *)
Definition generateAndStoreImages (clock : nat -> Z) (username : string)
    (user : option value) (b : bucket) : (value * value) * bucket :=
  let caught (backgroundUrl : value) (b' : bucket) :=
    ((backgroundUrl,
      if truthy (opt_member user "avatar_url")
      then or_default (opt_member user "avatar_url") JNull
      else JNull),
     b') in
  match backgroundResponse with
  | Throw _ => caught JNull b
  | Return background =>
      let bgKey :=
        "backgrounds/" ++ username ++ "-bg-" ++ toString 10 (clock 0%nat) ++ ".png" in
      match r2_put b bgKey background "image/png" with
      | Throw _ => caught JNull b
      | Return b1 =>
          let backgroundUrl := JStr ("/assets/" ++ bgKey) in
          match cardResponse with
          | Throw _ => caught backgroundUrl b1
          | Return card =>
              let cardKey :=
                "cards/" ++ username ++ "-card-" ++ toString 10 (clock 1%nat)
                ++ ".png" in
              match r2_put b1 cardKey card "image/png" with
              | Throw _ => caught backgroundUrl b1
              | Return b2 => ((backgroundUrl, JStr ("/assets/" ++ cardKey)), b2)
              end
          end
      end
  end.

(** What [serveR2Asset] answers: 404 with the text "R2 not configured", 404
    with "Not Found", or 200 with the body and content type of the object
    (cached for a week). *)
Inductive asset_reply : Type :=
| R2NotConfigured
| AssetNotFound
| Asset (body : image) (contentType : string).

(** [serveR2Asset(env, path)]; the bucket binding may be absent. *)
Definition serveR2Asset (b : option bucket) (path : string) : asset_reply :=
  let key := remove_first "/assets/" path in
  match b with
  | None => R2NotConfigured
  | Some b =>
      match r2_get b key with
      | None => AssetNotFound
      | Some object =>
          Asset (r2_body object)
                (match r2_contentType object with
                 | Some c => if String.eqb c "" then "application/octet-stream" else c
                 | None => "application/octet-stream"
                 end)
      end
  end.

End Images.

Arguments mkR2 {image} r2_body r2_contentType.
Arguments r2_body {image} r.
Arguments r2_contentType {image} r.
Arguments r2_get {image} b key.
Arguments r2_put {image} put_rejected b key body contentType.
Arguments generateAndStoreImages {image} backgroundResponse cardResponse
  put_rejected clock username user b.
Arguments R2NotConfigured {image}.
Arguments AssetNotFound {image}.
Arguments Asset {image} body contentType.
Arguments serveR2Asset {image} b path.


(* ================================================================== *)
(** ** Project descriptions                                            *)
(* ================================================================== *)

(** *** Conversion to a string

    [String(v)], as a template literal and [Array.prototype.join] apply it
    to a value that came out of [JSON.parse].  An object converts through
    the [toString] it inherits, unless it has an own property of that name,
    which in JSON is never a function: the conversion then falls on
    [valueOf], which gives no primitive, and throws.  An array converts by
    joining its elements with a comma, [null] as the empty text. *)
Fixpoint ToString (v : value) : outcome string :=
  match v with
  | JNull => Return "null"
  | JBool b => Return (if b then "true" else "false")
  | JNum z => Return (toString 10 z)
  | JStr s => Return s
  | JArr items =>
      (fix join_items (l : list value) : outcome string :=
         match l with
         | [] => Return ""
         | x :: rest =>
             s <- match x with JNull => Return "" | _ => ToString x end ;;
             match rest with
             | [] => Return s
             | _ => t <- join_items rest ;; Return (s ++ "," ++ t)
             end
         end) items
  | JObj o =>
      match get o "toString" with
      | None => Return "[object Object]"
      | Some _ => Throw "TypeError: Cannot convert object to primitive value"
      end
  end.

(** [l.join(sep)]. *)
Fixpoint join (sep : string) (l : list value) : outcome string :=
  match l with
  | [] => Return ""
  | x :: rest =>
      s <- match x with JNull => Return "" | _ => ToString x end ;;
      match rest with
      | [] => Return s
      | _ => t <- join sep rest ;; Return (s ++ sep ++ t)
      end
  end.

(** [`${v}`] for a property that may be missing. *)
Definition template (v : option value) : outcome string :=
  match v with
  | None => Return "undefined"
  | Some x => ToString x
  end.

Definition LF : string := String (ascii_of_nat 10) "".

Section ProjectDescriptions.

(** [s.trim()], and the replies of the text model: [run i prompt] is what
    [ai.run] gives for [prompt], the prompt of the [i]-th repository
    described. *)
Variable trim_text : string -> string.
Variable run : nat -> string -> outcome value.

(** [repo.topics?.join(', ') || '无']: the call throws when [topics] is
    neither missing, null nor an array. *)
Definition topics_text (repo : value) : outcome string :=
  match member repo "topics" with
  | None | Some JNull => Return "无"
  | Some (JArr l) =>
      s <- join ", " l ;;
      Return (if String.eqb s "" then "无" else s)
  | Some _ => Throw "TypeError: repo.topics?.join is not a function"
  end.

(** The prompt, built before the [try]: its six conversions, in the order
    of the template. *)
Definition prompt (repo : value) : outcome string :=
  name <- template (member repo "name") ;;
  language <- ToString (or_default (member repo "language") (JStr "多语言")) ;;
  stars <- template (member repo "stargazers_count") ;;
  forks <- template (member repo "forks_count") ;;
  description <- ToString (or_default (member repo "description") (JStr "无描述")) ;;
  topics <- topics_text repo ;;
  Return
    ("作为技术文案专家，为这个 GitHub 项目写一句独特的亮点描述（25-50字），要突出其技术价值和创新点，不要使用套话。"
     ++ LF ++ LF ++
     "项目信息：" ++ LF ++
     "- 名称：" ++ name ++ LF ++
     "- 语言：" ++ language ++ LF ++
     "- Star：" ++ stars ++ LF ++
     "- Fork：" ++ forks ++ LF ++
     "- 描述：" ++ description ++ LF ++
     "- 主题：" ++ topics ++ LF ++ LF ++
     "要求：" ++ LF ++
     "1. 描述要具体，突出项目特色" ++ LF ++
     "2. 可以用 emoji 开头" ++ LF ++
     "3. 使用中文" ++ LF ++
     "4. 直接输出描述，不要有引号或额外标点").

(** [o[k] = v] for a string [v]: an assignment to [__proto__] makes no
    property. *)
Definition assign_property (o : object) (k : string) (v : value) : object :=
  if String.eqb k "__proto__" then o else set o k v.

(** The fallback text: a star and the repository's own description. *)
Definition default_description (repo : value) : outcome value :=
  d <- ToString (or_default (member repo "description") (JStr "优质开源项目")) ;;
  Return (JStr ("⭐ " ++ d)).

(** The [try] of the loop body and its [catch]:
    [response.response?.trim() || fallback]; a rejected run, a null reply
    and a reply whose [response] is not a string all end in the
    fallback. *)
Definition description (i : nat) (repo : value) (prompt : string)
  : outcome value :=
  match run i prompt with
  | Throw _ => default_description repo
  | Return JNull => default_description repo
  | Return response =>
      match member response "response" with
      | Some (JStr s) =>
          if String.eqb (trim_text s) "" then default_description repo
          else Return (JStr (trim_text s))
      | _ => default_description repo
      end
  end.

(** [repos.filter(r => !r.fork)]. *)
Fixpoint own_repos (repos : list value) : outcome (list value) :=
  match repos with
  | [] => Return []
  | r :: rest =>
      fork <- property (Some r) "fork" ;;
      own <- own_repos rest ;;
      Return (if truthy fork then own else r :: own)
  end.

(** The [for] loop, from the [i]-th repository on. *)
Fixpoint describe_each (i : nat) (repos : list value) (descriptions : object)
  : outcome object :=
  match repos with
  | [] => Return descriptions
  | repo :: rest =>
      p <- prompt repo ;;
      d <- description i repo p ;;
      key <- template (member repo "name") ;;
      describe_each (S i) rest (assign_property descriptions key d)
  end.

(** [generateAIProjectDescriptions(ai, repos)]. *)
Definition generateAIProjectDescriptions (repos : option value) : outcome value :=
  match repos with
  | Some (JArr l) =>
      own <- own_repos l ;;
      descriptions <- describe_each 0 (firstn 6 own) [] ;;
      Return (JObj descriptions)
  | _ => Throw "TypeError: repos.filter is not a function"
  end.

End ProjectDescriptions.

(** *** What can be described

    A value that converts to a string: no object with an own [toString],
    at the top or among the elements of an array. *)
Fixpoint convertible (v : value) : bool :=
  match v with
  | JArr items =>
      (fix all (l : list value) : bool :=
         match l with
         | [] => true
         | x :: rest => convertible x && all rest
         end) items
  | JObj o => match get o "toString" with None => true | Some _ => false end
  | _ => true
  end.

(** A repository whose prompt can be built: the fields the template prints
    convert, and [topics] is missing, null or an array of values that
    convert. *)
Definition promptable (repo : value) : bool :=
  match member repo "name" with Some v => convertible v | None => true end &&
  convertible (or_default (member repo "language") (JStr "多语言")) &&
  match member repo "stargazers_count" with
  | Some v => convertible v
  | None => true
  end &&
  match member repo "forks_count" with Some v => convertible v | None => true end &&
  convertible (or_default (member repo "description") (JStr "无描述")) &&
  match member repo "topics" with
  | None | Some JNull => true
  | Some (JArr l) => forallb convertible l
  | Some _ => false
  end.

(** Repositories for the examples: an original one and a fork. *)
Definition sample_repos : list value :=
  [JObj [("name", JStr "hello"); ("fork", JBool false);
         ("description", JStr "A first repository")];
   JObj [("name", JStr "linux"); ("fork", JBool true)]].

(** A repository whose name cannot be printed. *)
Definition unprintable_repo : value :=
  JObj [("name", JObj [("toString", JNum 1)]); ("fork", JBool false)].


(* ================================================================== *)
(** ** The GitHub profile source                                       *)
(* ================================================================== *)

Module GitHub.

(** A response of the GitHub API: its status, its [X-RateLimit-Reset]
    header and what [res.json()] gives. *)
Record response : Type := mkResponse {
  status : Z;
  rateLimitReset : option string;
  json : outcome value
}.

(** [res.ok]. *)
Definition ok (res : response) : bool :=
  (200 <=? status res) && (status res <=? 299).

(** The double quote of the not-found message. *)
Definition quote : string := String (Ascii.ascii_of_nat 34) "".

Section Source.

(** The local time text of a reset header,
    [new Date(parseInt(reset) * 1000).toLocaleTimeString()], and what the
    two concurrent requests for a username give when joined: the two
    responses, or the error of a rejected [fetch]. *)
Variable toLocaleTimeString : string -> string.
Variable github_api : string -> outcome (response * response).

(** [fetchGitHubData(username, env)]. *)
Definition fetchGitHubData (username : string) : outcome value :=
  try_catch
    (both <- github_api username ;;
     let '(userRes, reposRes) := both in
     if status userRes =? 403 then
       let resetTime :=
         match rateLimitReset userRes with
         | Some reset =>
             if String.eqb reset "" then "未知" else toLocaleTimeString reset
         | None => "未知"
         end in
       Throw ("GitHub API 速率限制，请稍后重试（重置时间: " ++ resetTime ++
              "）。建议配置 GITHUB_TOKEN 以提高限制。")
     else if status userRes =? 404 then
       Throw ("GitHub 用户 " ++ quote ++ username ++ quote ++ " 不存在")
     else if negb (ok userRes) then
       Throw ("GitHub API 错误: " ++ toString 10 (status userRes))
     else
       user <- json userRes ;;
       repos <- json reposRes ;;
       Return (JObj [("user", user); ("repos", repos)]))
    (fun message =>
       if includes message "速率限制" || includes message "不存在"
       then Throw message
       else Throw ("GitHub API 请求失败: " ++ message)).

End Source.

End GitHub.


(* ================================================================== *)
(** ** Relative times                                                  *)
(* ================================================================== *)

Section TimeAgo.

(** The decimal text of an integer in a template literal, and the date
    text [new Date(timestamp).toLocaleDateString('zh-CN')], where [None]
    is the invalid date. *)
Variable number_text : Z -> string.
Variable toLocaleDateString : option Z -> string.

(** [formatTimeAgo(timestamp)] at the clock reading [now]; the timestamp is
    a whole number of milliseconds, or [None] for [NaN], against which every
    comparison fails. *)
Definition formatTimeAgo (now : Z) (timestamp : option Z) : string :=
  match timestamp with
  | None => toLocaleDateString None
  | Some t =>
      let diff := now - t in
      let minutes := diff / 60000 in
      let hours := diff / 3600000 in
      let days := diff / 86400000 in
      if minutes <? 60 then number_text minutes ++ "分钟前"
      else if hours <? 24 then number_text hours ++ "小时前"
      else if days <? 7 then number_text days ++ "天前"
      else toLocaleDateString (Some t)
  end.

End TimeAgo.

(** A GitHub that answers 404 for the user. *)
Definition sample_missing_user (_ : string)
  : outcome (GitHub.response * GitHub.response) :=
  Return (GitHub.mkResponse 404 None (Return (JObj [("message", JStr "Not Found")])),
          GitHub.mkResponse 404 None (Return (JObj [("message", JStr "Not Found")]))).

(* ================================================================== *)
(** ** Vocabulary of the weather chain: what the upstreams answer      *)
(* ================================================================== *)

(** A computation that ends in an exception. *)
Definition throws {A : Type} (m : outcome A) : Prop := exists e, m = Throw e.

(** A computation that returns. *)
Definition returns {A : Type} (m : outcome A) : Prop := exists x, m = Return x.

Section WeatherUpstreams.

Variable XIAOMI_CITY_IDS : string -> option string.
Variable parseInt : option value -> outcome (option Z).
Variable round_parseFloat : value -> outcome (option Z).
Variable xiaomi_api : string -> http_result.
Variable wttr_api : string -> http_result.

(** The code under which the primary knows a city: that of the lowercased
    and trimmed name, else that of the trimmed name. *)
Definition city_code (city : string) : option string :=
  match XIAOMI_CITY_IDS (trim (toLowerCase city)) with
  | Some id => Some id
  | None => XIAOMI_CITY_IDS (trim city)
  end.

(** A reply of the primary that yields no artifact: the request is
    rejected, the status is not a success, the body is not JSON, the JSON is
    falsy or has no truthy [current], or one of the five readings cannot be
    converted to a string. *)
Definition xiaomi_unusable (reply : http_result) : Prop :=
  match reply with
  | NetworkError _ => True
  | HttpResponse false _ _ => True
  | HttpResponse true _ None => True
  | HttpResponse true _ (Some data) =>
      truthy (Some data) = false \/
      truthy (member data "current") = false \/
      exists current,
        member data "current" = Some current /\
        (throws (parseInt (member current "weather")) \/
         throws (round_parseFloat
           (or_default (opt_member (member current "temperature") "value")
                       (JStr "22"))) \/
         throws (round_parseFloat
           (or_default (or_else (opt_member (member current "feelsLike") "value")
                                (opt_member (member current "temperature") "value"))
                       (JStr "22"))) \/
         throws (parseInt (Some
           (or_default (opt_member (member current "humidity") "value")
                       (JStr "50")))) \/
         throws (round_parseFloat
           (or_default (opt_member (opt_member (member current "wind") "speed")
                                   "value")
                       (JStr "10"))))
  end.

(** The primary fails or is bypassed: the city is classified as
    international, or has no code, or the reply to the request for its code
    yields no artifact. *)
Definition primary_fails_or_bypassed (city : string) : Prop :=
  isInternational city = true \/
  city_code city = None \/
  exists cityId,
    city_code city = Some cityId /\ xiaomi_unusable (xiaomi_api cityId).

(** The secondary succeeds: its reply has a success status and a JSON body
    [data] other than [null] whose [current_condition[0]] is a truthy
    [current], and the five readings of [current] convert, to [temp],
    [feels], [humidity], [wind] and [code] ([None] for [NaN]). *)
Definition wttr_usable (reply : http_result) (data current : value)
    (temp feels humidity wind code : option Z) : Prop :=
  (exists status, reply = HttpResponse true status (Some data)) /\
  data <> JNull /\
  opt_index0 (member data "current_condition") = Some current /\
  truthy (Some current) = true /\
  parseInt (member current "temp_C") = Return temp /\
  parseInt (member current "FeelsLikeC") = Return feels /\
  parseInt (member current "humidity") = Return humidity /\
  parseInt (member current "windspeedKmph") = Return wind /\
  parseInt (member current "weatherCode") = Return code.

(** The secondary fails: the request is rejected, the status is not a
    success, the body is not JSON, the JSON is [null] or has no truthy
    [current_condition[0]], or one of the five readings cannot be converted
    to a string. *)
Definition wttr_unusable (reply : http_result) : Prop :=
  match reply with
  | NetworkError _ => True
  | HttpResponse false _ _ => True
  | HttpResponse true _ None => True
  | HttpResponse true _ (Some data) =>
      data = JNull \/
      truthy (opt_index0 (member data "current_condition")) = false \/
      exists current,
        opt_index0 (member data "current_condition") = Some current /\
        (throws (parseInt (member current "temp_C")) \/
         throws (parseInt (member current "FeelsLikeC")) \/
         throws (parseInt (member current "humidity")) \/
         throws (parseInt (member current "windspeedKmph")) \/
         throws (parseInt (member current "weatherCode")))
  end.

End WeatherUpstreams.

(** A [parseInt] for the samples: decimal digits with an optional sign, a
    stored number as it is, [NaN] for anything else that converts to a
    string, and the TypeError for an object with an own [toString], which
    in JSON is never callable. *)
Fixpoint decimal_digits (acc : Z) (s : string) : option Z :=
  match s with
  | EmptyString => Some acc
  | String c s' =>
      let n := Z.of_nat (nat_of_ascii c) - 48 in
      if (0 <=? n) && (n <=? 9) then decimal_digits (10 * acc + n) s'
      else None
  end.

Definition sample_parseInt (x : option value) : outcome (option Z) :=
  match x with
  | Some (JStr EmptyString) => Return None
  | Some (JStr (String "-" s)) =>
      Return (match s with
              | EmptyString => None
              | _ => option_map Z.opp (decimal_digits 0 s)
              end)
  | Some (JStr s) => Return (decimal_digits 0 s)
  | Some (JNum z) => Return (Some z)
  | Some (JObj o) =>
      match get o "toString" with
      | Some _ => Throw "TypeError: Cannot convert object to primitive value"
      | None => Return None
      end
  | _ => Return None
  end.

(** A reply of the secondary with a current observation. *)
Definition sample_wttr_data : value :=
  JObj [("current_condition",
         JArr [JObj [("temp_C", JStr "18"); ("FeelsLikeC", JStr "17");
                     ("humidity", JStr "60"); ("windspeedKmph", JStr "0");
                     ("weatherCode", JStr "113");
                     ("weatherDesc", JArr [JObj [("value", JStr "Sunny")]])]]);
        ("nearest_area",
         JArr [JObj [("areaName", JArr [JObj [("value", JStr "Tokyo")]])]])].

Definition sample_wttr (_ : string) : http_result :=
  HttpResponse true 200 (Some sample_wttr_data).

(** A reply of the secondary whose temperature cannot be converted. *)
Definition broken_wttr (_ : string) : http_result :=
  HttpResponse true 200
    (Some (JObj [("current_condition",
                  JArr [JObj [("temp_C", JObj [("toString", JNum 1)])]])])).

(** A renderer for the samples: it fails as the templates do on a truthy
    [aiCardImageUrl] that is not a string, and else answers with a title and
    the city of the record. *)
Definition sample_renderer (title : string) (data : object) : outcome string :=
  match get data "aiCardImageUrl" with
  | Some (JStr _) => Return title
  | image =>
      if truthy image
      then Throw "TypeError: data.aiCardImageUrl.startsWith is not a function"
      else Return (title ++ match get data "city" with
                            | Some (JStr city) => " " ++ city
                            | _ => ""
                            end)
  end.

(** The sample record with an avatar that is not a string in place of the
    card: the image step stores [githubData.avatar_url] as it came. *)
Definition sample_unrenderable : object :=
  set sample_record "aiCardImageUrl" (JNum 1).

(* ================================================================== *)
(** ** Properties                                                      *)
(* ================================================================== *)

(** *** Reading and writing properties *)

Lemma get_set_same (o : object) (k : string) (v : value) :
  get (set o k v) k = Some v.
Proof.
  induction o as [|[k' v'] o IH]; simpl.
  - now rewrite String.eqb_refl.
  - destruct (String.eqb k' k) eqn:E; simpl.
    + now rewrite String.eqb_refl.
    + now rewrite E.
Qed.

Lemma get_set_other (o : object) (k k' : string) (v : value) :
  k <> k' -> get (set o k v) k' = get o k'.
Proof.
  intros Hne.
  induction o as [|[k0 v0] o IH]; simpl.
  - destruct (String.eqb_spec k k'); [contradiction | reflexivity].
  - destruct (String.eqb_spec k0 k) as [->|Hk0]; simpl.
    + destruct (String.eqb_spec k k'); [contradiction | reflexivity].
    + now rewrite IH.
Qed.

Lemma get_none_not_in (o : object) (k : string) :
  get o k = None <-> ~ In k (keys o).
Proof.
  induction o as [|[k' v'] o IH]; simpl.
  - tauto.
  - destruct (String.eqb_spec k' k) as [->|Hne].
    + split; [discriminate | intros H; exfalso; apply H; now left].
    + rewrite IH. split.
      * intros H [H1|H1]; [contradiction | exact (H H1)].
      * intros H H1. apply H. now right.
Qed.

Lemma nodup_keys_cons (k : string) (ks : list string) :
  nodup_keys (k :: ks) = true -> ~ In k ks /\ nodup_keys ks = true.
Proof.
  simpl. intros H. apply andb_true_iff in H as [H1 H2]. split; [|exact H2].
  intros Hin. apply negb_true_iff in H1.
  assert (existsb (String.eqb k) ks = true) as E.
  { apply existsb_exists. exists k. split; [exact Hin | apply String.eqb_refl]. }
  congruence.
Qed.

(** *** The merge, key by key *)

Lemma merged_object (old : option value) (source : object) :
  merged old (JObj source) =
  (JObj (fst (merge_from (spread (or_default old (JObj []))) [] source)),
   snd (merge_from (spread (or_default old (JObj []))) [] source)).
Proof. reflexivity. Qed.

Lemma merged_entry_object (old : option value) (source : object) :
  merged_entry old (JObj source) =
  JObj (merge_loop (spread (or_default old (JObj []))) source).
Proof. reflexivity. Qed.

Lemma merged_entry_other (old : option value) (new : value) :
  is_plain_object new = false -> merged_entry old new = new.
Proof. destruct new; simpl; intros H; try reflexivity; discriminate. Qed.

Lemma merge_from_cons (result : object) (proto : chain) (key : string)
    (v : value) (rest : object) :
  merge_from result proto ((key, v) :: rest) =
  merge_from
    (fst (write result proto key (merged_entry (read result proto key) v)
            (snd (merged (read result proto key) v))))
    (snd (write result proto key (merged_entry (read result proto key) v)
            (snd (merged (read result proto key) v))))
    rest.
Proof. reflexivity. Qed.

(** A write leaves the other own properties alone. *)
Lemma get_write_other (result : object) (proto : chain) (key k : string)
    (x : value) (px : chain) :
  key <> k -> get (fst (write result proto key x px)) k = get result k.
Proof.
  intros Hne. unfold write.
  destruct (get result "__proto__");
    [|destruct (String.eqb key "__proto__"); [now destruct x|]];
    cbn [fst]; now apply get_set_other.
Qed.

(** A write to an own property, or to any key but [__proto__], is the
    ordinary one. *)
Lemma write_ordinary (result : object) (proto : chain) (key : string)
    (x : value) (px : chain) :
  key <> "__proto__" \/ get result key <> None ->
  write result proto key x px = (set result key x, proto).
Proof.
  intros H. unfold write.
  destruct (get result "__proto__") eqn:E; [reflexivity|].
  destruct (String.eqb_spec key "__proto__") as [->|_]; [|reflexivity].
  destruct H as [H|H]; [now elim H | now elim H].
Qed.

(** A write to [__proto__] on an object that has no such own property
    leaves the own properties as they are. *)
Lemma write_proto (result : object) (proto : chain) (x : value) (px : chain) :
  get result "__proto__" = None ->
  fst (write result proto "__proto__" x px) = result.
Proof.
  intros H. unfold write. rewrite H. cbn [String.eqb Ascii.eqb Bool.eqb].
  now destruct x.
Qed.

(** One turn of the loop at a key other than [__proto__], on a result that
    has the prototype it was born with. *)
Lemma merge_from_cons_plain (result : object) (key : string) (v : value)
    (rest : object) :
  key <> "__proto__" ->
  merge_from result [] ((key, v) :: rest) =
  merge_from (set result key (merged_entry (get result key) v)) [] rest.
Proof.
  intros Hk. rewrite merge_from_cons.
  assert (read result [] key = get result key) as ->.
  { unfold read. destruct (get result key); [reflexivity|].
    destruct (String.eqb_spec key "__proto__"); [contradiction | reflexivity]. }
  now rewrite write_ordinary by now left.
Qed.

(** A key the payload does not mention keeps its value. *)
Lemma get_merge_from_absent (src result : object) (proto : chain) (k : string) :
  get src k = None -> get (fst (merge_from result proto src)) k = get result k.
Proof.
  revert result proto.
  induction src as [|[k' v'] src IH]; intros result proto H; [reflexivity|].
  cbn [get] in H. rewrite merge_from_cons.
  destruct (String.eqb_spec k' k) as [->|Hne]; [discriminate|].
  rewrite IH by exact H. now apply get_write_other.
Qed.

Lemma get_merge_loop_absent (src result : object) (k : string) :
  get src k = None -> get (merge_loop result src) k = get result k.
Proof. apply get_merge_from_absent. Qed.

(** The merge gives its result no own property [__proto__]. *)
Lemma get_merge_from_proto (src result : object) (proto : chain) :
  get result "__proto__" = None ->
  get (fst (merge_from result proto src)) "__proto__" = None.
Proof.
  revert result proto.
  induction src as [|[k v] src IH]; intros result proto H; [exact H|].
  rewrite merge_from_cons. apply IH.
  destruct (String.eqb_spec k "__proto__") as [->|Hne].
  - now rewrite write_proto.
  - now rewrite get_write_other.
Qed.

(** A key of the payload that the target has as an own property receives
    the entry merged from that property. *)
Lemma get_merge_from_own (src result : object) (proto : chain) (k : string)
    (v r : value) :
  nodup_keys (keys src) = true ->
  get src k = Some v ->
  get result k = Some r ->
  get (fst (merge_from result proto src)) k = Some (merged_entry (Some r) v).
Proof.
  revert result proto.
  induction src as [|[k' v'] src IH]; intros result proto Hnd H Hr;
    [discriminate|].
  change (nodup_keys (k' :: keys src) = true) in Hnd.
  apply nodup_keys_cons in Hnd as [Hnotin Hnd].
  cbn [get] in H. rewrite merge_from_cons.
  destruct (String.eqb_spec k' k) as [->|Hne].
  - injection H as <-.
    rewrite get_merge_from_absent by now apply get_none_not_in.
    rewrite write_ordinary by (right; congruence).
    cbn [fst]. rewrite get_set_same. unfold read. now rewrite Hr.
  - apply IH; [exact Hnd | exact H|].
    now rewrite get_write_other.
Qed.

(** A key of the payload other than [__proto__] receives a merged entry. *)
Lemma get_merge_from_written (src result : object) (proto : chain)
    (k : string) (v : value) :
  nodup_keys (keys src) = true ->
  get src k = Some v ->
  k <> "__proto__" ->
  exists old,
    get (fst (merge_from result proto src)) k = Some (merged_entry old v).
Proof.
  revert result proto.
  induction src as [|[k' v'] src IH]; intros result proto Hnd H Hk;
    [discriminate|].
  change (nodup_keys (k' :: keys src) = true) in Hnd.
  apply nodup_keys_cons in Hnd as [Hnotin Hnd].
  cbn [get] in H. rewrite merge_from_cons.
  destruct (String.eqb_spec k' k) as [->|Hne].
  - injection H as <-. exists (read result proto k).
    rewrite get_merge_from_absent by now apply get_none_not_in.
    rewrite write_ordinary by now left.
    cbn [fst]. apply get_set_same.
  - now apply IH.
Qed.

(** With a payload that has no key [__proto__], a key of the payload
    receives the entry merged from the value the target held. *)
Lemma get_merge_loop_present (src result : object) (k : string) (v : value) :
  nodup_keys (keys src) = true ->
  get src "__proto__" = None ->
  get src k = Some v ->
  get (merge_loop result src) k = Some (merged_entry (get result k) v).
Proof.
  unfold merge_loop. revert result.
  induction src as [|[k' v'] src IH]; intros result Hnd Hproto H;
    [discriminate|].
  change (nodup_keys (k' :: keys src) = true) in Hnd.
  apply nodup_keys_cons in Hnd as [Hnotin Hnd].
  cbn [get] in H, Hproto. rewrite merge_from_cons.
  destruct (String.eqb_spec k' "__proto__") as [->|Hk']; [discriminate|].
  assert (read result [] k' = get result k') as Hread.
  { unfold read. destruct (get result k'); [reflexivity|].
    destruct (String.eqb_spec k' "__proto__"); [contradiction | reflexivity]. }
  rewrite write_ordinary by now left. cbn [fst snd].
  destruct (String.eqb_spec k' k) as [->|Hne].
  - injection H as <-.
    rewrite get_merge_from_absent by now apply get_none_not_in.
    now rewrite get_set_same, Hread.
  - rewrite (IH _ Hnd Hproto H). now rewrite get_set_other.
Qed.

(** Without a key [__proto__] in the payload the result keeps the prototype
    it was born with. *)
Lemma merge_from_prototype (src result : object) :
  get src "__proto__" = None -> snd (merge_from result [] src) = [].
Proof.
  revert result.
  induction src as [|[k v] src IH]; intros result H; [reflexivity|].
  cbn [get] in H. rewrite merge_from_cons.
  destruct (String.eqb_spec k "__proto__") as [->|Hk]; [discriminate|].
  rewrite write_ordinary by now left. cbn [fst snd]. now apply IH.
Qed.

Lemma wf_object_nodup (o : object) :
  wf_object o = true -> nodup_keys (keys o) = true.
Proof.
  unfold wf_object. simpl. intros H. now apply andb_true_iff in H as [H _].
Qed.

Lemma wf_object_get (o : object) (k : string) (v : value) :
  wf_object o = true -> get o k = Some v -> wf_value v = true.
Proof.
  unfold wf_object. simpl. intros H. apply andb_true_iff in H as [_ H].
  induction o as [|[k' v'] o IH]; simpl in *; [discriminate|].
  apply andb_true_iff in H as [H1 H2].
  destruct (String.eqb k' k).
  - intros E. injection E as <-. exact H1.
  - now apply IH.
Qed.






Lemma bumped_under_updated (p : path) : bumped p = false -> under_updated p = false.
Proof.
  destruct p as [|k1 [|k2 p]]; simpl; auto.
Qed.


(* ------------------------------------------------------------------ *)
(** *** C1: merge correctness of the partial update                    *)
(* ------------------------------------------------------------------ *)


(** A second input the amendment answers to: with the payload
    [{aiQuote: null}] the two conclusions of the claim exclude each other.
    The code writes the scalar, and the record's nested keys [aiQuote.text]
    and [aiQuote.author], which the payload does not contain, are gone. *)
Lemma scalar_replaces_object :
  lookup (JObj sample_record) ["aiQuote"; "text"] = Some (JStr "code is poetry") /\
  match snd (updateData 2000 (JObj [("aiQuote", JNull)]) (Some sample_record)) with
  | Some R' =>
      lookup (JObj R') ["aiQuote"] = Some JNull /\
      lookup (JObj R') ["aiQuote"; "text"] = None
  | None => False
  end.
Proof. vm_compute. repeat split. Qed.

(** A third: an assignment to the key [__proto__] goes to the prototype and
    gives the result no own property; the payload [{__proto__: 5}] is not
    stored, and a payload [{__proto__: {city: "x"}}] changes what the record
    inherits, not the record. *)
Lemma proto_entry_is_not_stored :
  deepMerge (JObj sample_record) (JObj [("__proto__", JNum 5)]) = sample_record /\
  deepMerge (JObj sample_record)
    (JObj [("__proto__", JObj [("city", JStr "x")])]) = sample_record /\
  deepMerge_prototype (JObj sample_record)
    (JObj [("__proto__", JObj [("city", JStr "x")])]) = [[("city", JStr "x")]].
Proof. vm_compute. repeat split. Qed.



(** The properties of the handlers hold whatever the language coercions
    and the external collaborators answer. *)
Section HandlerProperties.

Variable ToNumber : value -> option Z.
Variable XIAOMI_CITY_IDS : string -> option string.
Variable parseInt : option value -> outcome (option Z).
Variable round_parseFloat : value -> outcome (option Z).
Variable getXiaomiWeatherDesc : Z -> string.
Variable getXiaomiWeatherEmoji : Z -> string.
Variable getWeatherEmojiFromWttr : option Z -> string.
Variable xiaomi_api : string -> http_result.
Variable wttr_api : string -> http_result.
Variable fetchGitHubData : string -> outcome value.
Variable fetchRealNews : option value -> outcome (list value).
Variable extractSkills : option value -> outcome value.

Let generate := handleGenerate XIAOMI_CITY_IDS parseInt round_parseFloat
  getXiaomiWeatherDesc getXiaomiWeatherEmoji getWeatherEmojiFromWttr
  xiaomi_api wttr_api fetchGitHubData fetchRealNews extractSkills.

Let refresh := handleRefresh XIAOMI_CITY_IDS parseInt round_parseFloat
  getXiaomiWeatherDesc getXiaomiWeatherEmoji getWeatherEmojiFromWttr
  xiaomi_api wttr_api fetchGitHubData fetchRealNews extractSkills.

Let getUser := handleGetUser ToNumber XIAOMI_CITY_IDS parseInt round_parseFloat
  getXiaomiWeatherDesc getXiaomiWeatherEmoji getWeatherEmojiFromWttr
  xiaomi_api wttr_api fetchRealNews.

(* ------------------------------------------------------------------ *)
(** *** C2: when the merge recurses                                    *)
(* ------------------------------------------------------------------ *)

(** What the merge leaves at a key of a payload that has no key
    [__proto__]: the new value as it is when that is a scalar, null or an
    array; the recursive merge into the old value, or into the empty object
    when the old value is falsy, when the new value is a non-array object.
    The old value is not tested for being a non-array object. *)
Lemma deepMerge_entry (target : value) (source : object) (k : string) (v : value) :
  wf_object source = true ->
  get source "__proto__" = None ->
  get source k = Some v ->
  get (deepMerge target (JObj source)) k =
    Some (merged_entry (get (spread target) k) v) /\
  (is_plain_object v = false ->
   get (deepMerge target (JObj source)) k = Some v) /\
  (forall sub,
     v = JObj sub ->
     get (deepMerge target (JObj source)) k =
     Some (JObj (deepMerge (or_default (get (spread target) k) (JObj []))
                   (JObj sub)))).
Proof.
  intros Hwf Hproto Hk.
  assert (get (deepMerge target (JObj source)) k =
          Some (merged_entry (get (spread target) k) v)) as E.
  { unfold deepMerge. simpl (spread (JObj source)).
    apply get_merge_loop_present; auto using wf_object_nodup. }
  rewrite E. split; [reflexivity|]. split.
  - intros Hv. now rewrite merged_entry_other.
  - intros sub ->. now rewrite merged_entry_object.
Qed.

(** C2.  The code departs from the rule where the stored value is an array
    (or a non-empty string) and the payload's value a non-array object: the
    rule has the new value replace the old one wholesale, the code spreads
    the old value into the merge target, [result[key] || {}] not testing what
    kind of value it holds.  The sample record stores
    [interests = ["Tech"]]; merging [{interests: {x: 1}}] leaves
    [{0: "Tech", x: 1}] there, not [{x: 1}], and a generate request for the
    existing user octocat with that [interests] stores exactly this. *)
Lemma array_under_object_is_merged :
  get sample_record "interests" = Some (JArr [JStr "Tech"]) /\
  get (deepMerge (JObj sample_record)
                 (JObj [("interests", JObj [("x", JNum 1)])])) "interests"
  = Some (JObj [("0", JStr "Tech"); ("x", JNum 1)]) /\
  match snd (handleGenerate no_code no_parse no_float (fun _ => "")
               (fun _ => "") (fun _ => "") unreachable unreachable sample_github
               sample_news sample_skills (fun _ => 3000) (fun _ => 3000) []
               sample_env "POST"
               (JObj [("username", JStr "octocat");
                      ("interests", JObj [("x", JNum 1)])])
               sample_namespace) "octocat" with
  | Some R' =>
      get R' "interests" = Some (JObj [("0", JStr "Tech"); ("x", JNum 1)])
  | None => False
  end.
Proof. vm_compute. repeat split. Qed.

(* ------------------------------------------------------------------ *)
(** *** C3: create on an identity that already has a record            *)
(* ------------------------------------------------------------------ *)

(** An update whose payload has no [timestamps] entry succeeds on a stored
    record, and changes at top level only the payload's keys and
    [timestamps]. *)
Lemma updateData_frame (now : Z) (U R ts : object) :
  get U "timestamps" = None ->
  get R "timestamps" = Some (JObj ts) ->
  exists R',
    updateData now (JObj U) (Some R) =
      (Return (jsonResponse (JObj [("success", JBool true); ("data", JObj R')]) 200),
       Some R') /\
    (forall k, k <> "timestamps" -> get U k = None -> get R' k = get R k).
Proof.
  intros HU HR.
  unfold updateData, deepMerge, touch_updated. simpl spread.
  rewrite (get_merge_loop_absent U R "timestamps" HU), HR.
  eexists. split; [reflexivity|].
  intros k Hk HUk.
  rewrite get_set_other by congruence.
  now apply get_merge_loop_absent.
Qed.

(** The payload of the update path of [handleGenerate] has no other keys
    than [city], [interests] and [userBio]. *)
Lemma generate_payload_keys (c i b : option value) (k : string) :
  k <> "city" -> k <> "interests" -> k <> "userBio" ->
  get (field "city" c ++ field "interests" i ++ field "userBio" b)%list k = None.
Proof.
  intros Hc Hi Hb.
  destruct c, i, b; cbn [field app get];
    repeat match goal with
           | |- context [String.eqb ?a k] =>
               destruct (String.eqb_spec a k); [congruence|]
           end; reflexivity.
Qed.

(** Each of the three keys holds in the payload what the request holds. *)
Lemma generate_payload_get (c i b : option value) (k : string) :
  In k ["city"; "interests"; "userBio"] ->
  get (field "city" c ++ field "interests" i ++ field "userBio" b)%list k =
  if String.eqb k "city" then c
  else if String.eqb k "interests" then i else b.
Proof.
  cbn [In]. intros [<-|[<-|[<-|[]]]]; destruct c, i, b; reflexivity.
Qed.

Lemma generate_payload_nodup (c i b : option value) :
  nodup_keys
    (keys (field "city" c ++ field "interests" i ++ field "userBio" b)%list)
  = true.
Proof. destruct c, i, b; reflexivity. Qed.

(** An update whose payload has neither a [timestamps] nor a [__proto__]
    entry: each entry of the payload is merged into the stored value of its
    key, [timestamps.updated] is set, and nothing else changes. *)
Lemma updateData_payload (now : Z) (U R ts : object) :
  nodup_keys (keys U) = true ->
  get U "timestamps" = None ->
  get U "__proto__" = None ->
  get R "timestamps" = Some (JObj ts) ->
  exists R',
    updateData now (JObj U) (Some R) =
      (Return (jsonResponse (JObj [("success", JBool true); ("data", JObj R')]) 200),
       Some R') /\
    (forall k v, get U k = Some v ->
                 get R' k = Some (merged_entry (get R k) v)) /\
    get R' "timestamps" = Some (JObj (set ts "updated" (JNum now))) /\
    (forall k, k <> "timestamps" -> get U k = None -> get R' k = get R k).
Proof.
  intros Hnd HU Hproto HR.
  unfold updateData, deepMerge, touch_updated. simpl spread.
  rewrite (get_merge_loop_absent U R "timestamps" HU), HR.
  eexists. split; [reflexivity|]. split; [|split].
  - intros k v Hk.
    assert (k <> "timestamps") as Hne by congruence.
    rewrite get_set_other by congruence.
    now apply get_merge_loop_present.
  - apply get_set_same.
  - intros k Hk HUk.
    rewrite get_set_other by congruence.
    now apply get_merge_loop_absent.
Qed.

(** C3, as stated, fails: [setData], the create operation of the store, has
    no existence check.  Called on the object that holds the sample record,
    it answers 200 and replaces the record: the stored biography is gone. *)
Lemma create_on_existing_overwrites :
  let '(resp, st') :=
    do_fetch (fun _ => 2000)
      (DoSet (JObj [("username", JStr "octocat"); ("slug", JStr "octocat-zzzzzz")]))
      (Some sample_record) in
  status resp = 200 /\
  member (body resp) "error" = None /\
  match st' with
  | Some R' => get sample_record "aiBio" = Some (JStr "bio") /\
               get R' "aiBio" = Some JNull /\
               get R' "slug" = Some (JStr "octocat-zzzzzz")
  | None => False
  end.
Proof. vm_compute. repeat split; reflexivity. Qed.

(** C3, amended.  A generate request for an identity that has a record never
    reaches create: it is answered 200 with [isNew = false] and the record
    [R'] it leaves stored, in which
    - each of [city], [interests] and [userBio] that the request holds has
      the request's value, deep-merged into the stored one (so the value
      itself when it is a scalar, null or an array), and each of the three
      that the request does not hold stays as stored;
    - [timestamps] is the stored object with [updated] set to the time of
      the update;
    - the slug and every other top-level field stay as stored.
    No conflict is reported.  The store-level create itself succeeds
    whatever the object holds, and stores the same record as on an empty
    object. *)
Theorem generate_existing_routes_to_update
    (clock do_clock : nat -> Z) (fraction : list N) (env : Env)
    (req : value) (ns : namespace) (username : string) (R ts : object) :
  member req "username" = Some (JStr username) ->
  username <> "" ->
  ns (toLowerCase username) = Some R ->
  get R "timestamps" = Some (JObj ts) ->
  (exists R',
     generate clock do_clock fraction env "POST" req ns =
       (Return (jsonResponse
                  (JObj ([("isNew", JBool false)] ++ field "slug" (get R "slug") ++
                         [("data", JObj R')])%list) 200),
        with_storage ns (toLowerCase username) (Some R')) /\
     (forall k, In k ["city"; "interests"; "userBio"] ->
                get R' k = match member req k with
                           | Some v => Some (merged_entry (get R k) v)
                           | None => get R k
                           end) /\
     (forall k v, In k ["city"; "interests"; "userBio"] ->
                  member req k = Some v -> is_plain_object v = false ->
                  get R' k = Some v) /\
     get R' "timestamps" = Some (JObj (set ts "updated" (JNum (do_clock O)))) /\
     get R' "slug" = get R "slug" /\
     (forall k, k <> "city" -> k <> "interests" -> k <> "userBio" ->
                k <> "timestamps" -> get R' k = get R k)) /\
  (forall now request st,
     request <> JNull ->
     exists resp R0,
       setData now request st = (Return resp, Some R0) /\
       status resp = 200 /\
       setData now request None = (Return resp, Some R0)).
Proof.
  intros Hname Hnonempty Hns Hts. split.
  - destruct req as [| | | | |o]; try discriminate.
    cbn [member] in Hname |- *.
    destruct (updateData_payload (do_clock O)
                (field "city" (get o "city") ++ field "interests" (get o "interests") ++
                 field "userBio" (get o "userBio"))%list R ts)
      as (R' & Hupd & Hset & Hstamp & Hframe).
    { apply generate_payload_nodup. }
    { apply generate_payload_keys; discriminate. }
    { apply generate_payload_keys; discriminate. }
    { exact Hts. }
    exists R'.
    assert (get R' "slug" = get R "slug") as Hslug.
    { apply Hframe; [discriminate|]. apply generate_payload_keys; discriminate. }
    assert (forall k, In k ["city"; "interests"; "userBio"] ->
                      get R' k = match get o k with
                                 | Some v => Some (merged_entry (get R k) v)
                                 | None => get R k
                                 end) as Hthree.
    { intros k Hk.
      pose proof (generate_payload_get (get o "city") (get o "interests")
                    (get o "userBio") k Hk) as Hget.
      assert ((if String.eqb k "city" then get o "city"
               else if String.eqb k "interests" then get o "interests"
               else get o "userBio") = get o k) as E
        by (cbn [In] in Hk; destruct Hk as [<-|[<-|[<-|[]]]]; reflexivity).
      rewrite E in Hget.
      destruct (get o k) as [v|].
      - now apply Hset.
      - apply Hframe; [|exact Hget].
        cbn [In] in Hk. destruct Hk as [<-|[<-|[<-|[]]]]; discriminate. }
    split; [|split; [|split; [|split; [|split]]]].
    + unfold generate, handleGenerate.
      cbn [negb String.eqb Ascii.eqb Bool.eqb member].
      rewrite Hname. cbn [truthy].
      destruct (String.eqb_spec username "") as [->|_]; [contradiction|].
      cbn [negb]. rewrite Hns.
      unfold stub_fetch, do_fetch. rewrite Hns, Hupd.
      cbn [body member get String.eqb Ascii.eqb Bool.eqb property bind jsonResponse].
      rewrite Hslug. reflexivity.
    + exact Hthree.
    + intros k v Hk Hv Hplain. rewrite (Hthree k Hk), Hv.
      now rewrite merged_entry_other.
    + exact Hstamp.
    + exact Hslug.
    + intros k H1 H2 H3 H4. apply Hframe; [exact H4|].
      now apply generate_payload_keys.
  - intros now request st Hreq.
    destruct request; try contradiction; simpl; eexists; eexists;
      (split; [reflexivity | split; reflexivity]).
Qed.

(* ------------------------------------------------------------------ *)
(** *** C4: refresh while the generative backend is unavailable        *)
(* ------------------------------------------------------------------ *)

Lemma generateAllAIContent_unavailable (env : Env) (githubData : value) :
  generation_unavailable env ->
  exists e, generateAllAIContent extractSkills env githubData = Throw e.
Proof.
  intros H. unfold generateAllAIContent.
  destruct (extractSkills (member githubData "repos")) as [skills|e];
    simpl; [|eauto].
  destruct H as [-> | (ai & e & -> & Ht)]; [eauto|].
  rewrite Ht. simpl.
  destruct (includes e "model"); [eauto|].
  destruct (includes e "binding"); eauto.
Qed.

(** C4, as stated, fails: with the AI binding missing, a refresh request for
    the stored user octocat ends in the worker's 500 reply, which carries an
    error description and no record; with the binding present but the
    backend failing, the same. *)
Lemma refresh_without_backend_is_an_error :
  let reply (env : Env) :=
    worker_catch (fst (handleRefresh no_code no_parse no_float (fun _ => "")
      (fun _ => "") (fun _ => "") unreachable unreachable sample_github
      sample_news sample_skills (fun _ => 3000) (fun _ => 3000) env "POST"
      (JObj [("username", JStr "octocat")]) sample_namespace)) in
  let failing := mkAI (Throw "backend unreachable") (JNull, JNull) in
  status (reply (mkEnv None true)) = 500 /\
  member (body (reply (mkEnv None true))) "data" = None /\
  member (body (reply (mkEnv None true))) "error" <> None /\
  status (reply (mkEnv (Some failing) true)) = 500 /\
  member (body (reply (mkEnv (Some failing) true))) "data" = None /\
  member (body (reply (mkEnv (Some failing) true))) "error" =
    Some (JStr "AI content generation failed: backend unreachable").
Proof. vm_compute. repeat split; try reflexivity; discriminate. Qed.

(** C4, amended.  When the generative backend is unavailable, a refresh
    request for an existing record fails: the handler throws, the worker
    answers 500 with the error's message, and the namespace is left as it
    was, so the object still serves the record it held. *)
Theorem refresh_fails_when_generation_unavailable
    (clock do_clock : nat -> Z) (env : Env) (req : value) (ns : namespace)
    (username : string) (R : object) :
  member req "username" = Some (JStr username) ->
  username <> "" ->
  ns (toLowerCase username) = Some R ->
  generation_unavailable env ->
  exists e,
    refresh clock do_clock env "POST" req ns = (Throw e, ns) /\
    worker_catch (Throw e) = mkResponse 500 (JObj [("error", JStr e)]) /\
    getData (ns (toLowerCase username)) =
      jsonResponse (JObj [("exists", JBool true); ("data", JObj R)]) 200.
Proof.
  intros Hname Hnonempty Hns Hai.
  destruct req as [| | | | |o]; try discriminate.
  simpl in Hname.
  unfold refresh, handleRefresh.
  cbn [negb String.eqb Ascii.eqb Bool.eqb member].
  rewrite Hname. cbn [truthy].
  destruct (String.eqb_spec username "") as [->|_]; [contradiction|].
  cbn [negb]. rewrite Hns.
  destruct (github_data fetchGitHubData (get o "githubData") username)
    as [githubData|e]; cbn [bind].
  - destruct (generateAllAIContent_unavailable env githubData Hai) as [e He].
    rewrite He. cbn [bind]. exists e. repeat split; reflexivity.
  - exists e. repeat split; reflexivity.
Qed.

(* ------------------------------------------------------------------ *)
(** *** C5: the freshness threshold                                    *)
(* ------------------------------------------------------------------ *)

Let stale := isStale ToNumber.

Let staleUpdates := stale_updates ToNumber XIAOMI_CITY_IDS parseInt
  round_parseFloat getXiaomiWeatherDesc getXiaomiWeatherEmoji
  getWeatherEmojiFromWttr xiaomi_api wttr_api fetchRealNews.

Let fetchW := fetchWeather XIAOMI_CITY_IDS parseInt round_parseFloat
  getXiaomiWeatherDesc getXiaomiWeatherEmoji getWeatherEmojiFromWttr
  xiaomi_api wttr_api.

(** With something cached and a numeric timestamp [t], the test is
    [now - t > ttl]. *)
Lemma isStale_cached (now : Z) (userData ts : object) (cache stamp : string)
    (ttl t : Z) :
  truthy (get userData cache) = true ->
  get userData "timestamps" = Some (JObj ts) ->
  get ts stamp = Some (JNum t) ->
  stale now userData cache stamp ttl = Return (now - t >? ttl).
Proof.
  intros Hc Hts Ht. unfold stale, isStale.
  rewrite Hc, Hts. simpl. now rewrite Ht.
Qed.

(** What the payload of a read holds for each of the two categories: the
    freshly fetched value and the time of the read for a category classified
    stale, nothing for one that is not. *)
Lemma stale_updates_cases (now : Z) (userData U : object) :
  staleUpdates now userData = Return U ->
  exists sw sn,
    stale now userData "cachedWeather" "weatherUpdated"
      CONFIG.CACHE_TTL_WEATHER = Return sw /\
    stale now userData "cachedNews" "newsUpdated" CONFIG.CACHE_TTL_NEWS
      = Return sn /\
    (if sw : bool
     then exists w,
            fetchW (get userData "city") = Return w /\
            get U "cachedWeather" = Some w /\
            lookup (JObj U) ["timestamps"; "weatherUpdated"] = Some (JNum now)
     else get U "cachedWeather" = None /\
          lookup (JObj U) ["timestamps"; "weatherUpdated"] = None) /\
    (if sn : bool
     then exists n,
            fetchRealNews (get userData "interests") = Return n /\
            get U "cachedNews" = Some (JArr n) /\
            lookup (JObj U) ["timestamps"; "newsUpdated"] = Some (JNum now)
     else get U "cachedNews" = None /\
          lookup (JObj U) ["timestamps"; "newsUpdated"] = None).
Proof.
  unfold staleUpdates, stale_updates. fold stale. unfold weather. fold fetchW.
  destruct (stale now userData "cachedWeather" _ _) as [sw|e]; cbn [bind];
    [|discriminate].
  destruct sw.
  - destruct (fetchW (get userData "city")) as [w|e]; cbn [bind];
      [|discriminate].
    destruct (stale now userData "cachedNews" _ _) as [sn|e]; cbn [bind];
      [|discriminate].
    destruct sn.
    + destruct (fetchRealNews (get userData "interests")) as [n|e];
        cbn [bind]; [|discriminate].
      intros E. injection E as <-. exists true, true.
      repeat split; eexists; repeat split.
    + intros E. injection E as <-. exists true, false.
      repeat split. eexists. repeat split.
  - destruct (stale now userData "cachedNews" _ _) as [sn|e]; cbn [bind];
      [|discriminate].
    destruct sn.
    + destruct (fetchRealNews (get userData "interests")) as [n|e];
        cbn [bind]; [|discriminate].
      intros E. injection E as <-. exists false, true.
      repeat split. eexists. repeat split.
    + intros E. injection E as <-. exists false, false. repeat split.
Qed.

(** C5, amended.  For a category with something cached, last refreshed at
    [t], the read path classifies it stale exactly when [now - t] exceeds its
    window [W] (30 minutes for weather, 2 hours for news): a timestamp of
    exactly [now - W] is not stale, [now - W - 1] is stale and [now - W + 1]
    is not; for weather, an age of 30 minutes and one second is stale and an
    age of 29 minutes is not.  A stale category is refetched: the payload of
    the read holds under the category what its fetcher returned (the weather
    fetched for the record's city, the news fetched for its interests), and
    under its timestamp the time of the read.  A category that is not stale
    is not refetched: the payload has neither its value nor its timestamp,
    and when neither category is stale the payload is empty.  The read
    builds its payload whenever the fetchers return. *)
Theorem staleness_threshold (now : Z) (userData ts : object)
    (cache stamp : string) (W t : Z) :
  In (cache, stamp, W)
     [("cachedWeather", "weatherUpdated", CONFIG.CACHE_TTL_WEATHER);
      ("cachedNews", "newsUpdated", CONFIG.CACHE_TTL_NEWS)] ->
  truthy (get userData cache) = true ->
  get userData "timestamps" = Some (JObj ts) ->
  get ts stamp = Some (JNum t) ->
  (stale now userData cache stamp W = Return true <-> now - t > W) /\
  (t = now - W -> stale now userData cache stamp W = Return false) /\
  (t = now - W - 1 -> stale now userData cache stamp W = Return true) /\
  (t = now - W + 1 -> stale now userData cache stamp W = Return false) /\
  (stamp = "weatherUpdated" -> t = now - (30 * 60 * 1000 + 1000) ->
   stale now userData cache stamp W = Return true) /\
  (stamp = "weatherUpdated" -> t = now - 29 * 60 * 1000 ->
   stale now userData cache stamp W = Return false) /\
  (stale now userData "cachedWeather" "weatherUpdated" CONFIG.CACHE_TTL_WEATHER
     = Return false ->
   stale now userData "cachedNews" "newsUpdated" CONFIG.CACHE_TTL_NEWS
     = Return false ->
   staleUpdates now userData = Return []) /\
  (forall U,
     staleUpdates now userData = Return U ->
     now - t > W ->
     exists v,
       ((cache = "cachedWeather" /\ fetchW (get userData "city") = Return v) \/
        (cache = "cachedNews" /\
         exists n, fetchRealNews (get userData "interests") = Return n /\
                   v = JArr n)) /\
       get U cache = Some v /\
       lookup (JObj U) ["timestamps"; stamp] = Some (JNum now)) /\
  (forall U,
     staleUpdates now userData = Return U ->
     now - t <= W ->
     get U cache = None /\ lookup (JObj U) ["timestamps"; stamp] = None) /\
  ((exists w, fetchW (get userData "city") = Return w) ->
   (exists n, fetchRealNews (get userData "interests") = Return n) ->
   exists U, staleUpdates now userData = Return U).
Proof.
  intros Hcat Hc Hts Ht.
  pose proof (isStale_cached now userData ts cache stamp W t Hc Hts Ht) as Hstale.
  rewrite Hstale.
  assert (forall b, Return (A := bool) (now - t >? W) = Return b <->
                    (now - t >? W) = b) as Hret.
  { intros b. split; [intros E; now injection E | now intros ->]. }
  split; [|split; [|split; [|split; [|split; [|split; [|split;
    [|split; [|split]]]]]]]].
  - split.
    + intros E. apply Hret in E. lia.
    + intros E. apply Hret. lia.
  - intros ->. apply Hret. lia.
  - intros ->. apply Hret. lia.
  - intros ->. apply Hret. lia.
  - intros -> ->. apply Hret.
    destruct Hcat as [E|[E|[]]]; [|congruence].
    replace W with CONFIG.CACHE_TTL_WEATHER by congruence.
    unfold CONFIG.CACHE_TTL_WEATHER; lia.
  - intros -> ->. apply Hret.
    destruct Hcat as [E|[E|[]]]; [|congruence].
    replace W with CONFIG.CACHE_TTL_WEATHER by congruence.
    unfold CONFIG.CACHE_TTL_WEATHER; lia.
  - intros Hw Hn. unfold staleUpdates, stale_updates.
    fold stale. rewrite Hw. cbn [bind]. rewrite Hn. reflexivity.
  - intros U HU Hold.
    destruct (stale_updates_cases now userData U HU)
      as (sw & sn & Hsw & Hsn & Hweather & Hnews).
    destruct Hcat as [E|[E|[]]]; injection E as <- <- <-.
    + rewrite Hstale in Hsw. apply Hret in Hsw.
      assert (sw = true) as -> by (subst sw; apply Z.gtb_lt; lia).
      destruct Hweather as (w & Hw & Hget & Hstamp).
      exists w. split; [left; now split|]. now split.
    + rewrite Hstale in Hsn. apply Hret in Hsn.
      assert (sn = true) as -> by (subst sn; apply Z.gtb_lt; lia).
      destruct Hnews as (n & Hn & Hget & Hstamp).
      exists (JArr n). split; [right; split; [reflexivity | now exists n]|].
      now split.
  - intros U HU Hfresh.
    destruct (stale_updates_cases now userData U HU)
      as (sw & sn & Hsw & Hsn & Hweather & Hnews).
    destruct Hcat as [E|[E|[]]]; injection E as <- <- <-.
    + rewrite Hstale in Hsw. apply Hret in Hsw.
      assert (sw = false) as ->
        by (subst sw; rewrite Z.gtb_ltb; apply Z.ltb_ge; lia). exact Hweather.
    + rewrite Hstale in Hsn. apply Hret in Hsn.
      assert (sn = false) as ->
        by (subst sn; rewrite Z.gtb_ltb; apply Z.ltb_ge; lia). exact Hnews.
  - intros [w Hw] [n Hn].
    unfold staleUpdates, stale_updates. fold stale. unfold weather. fold fetchW.
    unfold stale at 1 2, isStale. rewrite Hts. cbn [property bind].
    rewrite Hw, Hn.
    destruct (negb (truthy (get userData "cachedWeather")));
      [|destruct (older_than _ _ _)];
      cbn [bind];
      (destruct (negb (truthy (get userData "cachedNews")));
       [|destruct (older_than _ _ _)]);
      cbn [bind]; eauto.
Qed.

(** C5, as stated, fails at the exact boundary: the sample record's weather
    was refreshed at time 1000; read at 1000 + 30 minutes, its age equals the
    window and it is not stale, and likewise its news at 1000 + 2 hours; a
    read at 1000 + 30 minutes refetches nothing. *)
Lemma boundary_age_is_not_stale :
  isStale no_number (1000 + CONFIG.CACHE_TTL_WEATHER) sample_record
    "cachedWeather" "weatherUpdated" CONFIG.CACHE_TTL_WEATHER = Return false /\
  isStale no_number (1000 + CONFIG.CACHE_TTL_NEWS) sample_record
    "cachedNews" "newsUpdated" CONFIG.CACHE_TTL_NEWS = Return false /\
  stale_updates no_number no_code no_parse no_float (fun _ => "") (fun _ => "")
    (fun _ => "") unreachable unreachable sample_news
    (1000 + CONFIG.CACHE_TTL_WEATHER) sample_record = Return [].
Proof. vm_compute. repeat split. Qed.

(* ------------------------------------------------------------------ *)
(** *** C6: replacing the bookmarks                                    *)
(* ------------------------------------------------------------------ *)

(** **** Digits of a number *)

Section Digits.

Variable radix : N.
Hypothesis radix_ge_2 : (2 <= radix)%N.

Lemma log2_div_lt (n : N) :
  (radix <= n)%N -> (N.log2 (n / radix) < N.log2 n)%N.
Proof.
  intros Hn.
  assert (n / radix <= n / 2)%N as Hle by (apply N.div_le_compat_l; lia).
  apply N.log2_le_mono in Hle.
  assert (n / 2 = N.shiftr n 1)%N as E by (now rewrite N.shiftr_div_pow2).
  rewrite E, N.log2_shiftr in Hle.
  assert (1 <= N.log2 n)%N.
  { change 1%N with (N.log2 2). apply N.log2_le_mono. lia. }
  lia.
Qed.

Lemma digits_fuel_enough (f1 f2 : nat) :
  forall n,
    (N.to_nat (N.log2 n) < f1)%nat ->
    (N.to_nat (N.log2 n) < f2)%nat ->
    digits_fuel radix f1 n = digits_fuel radix f2 n.
Proof.
  revert f2. induction f1 as [|f1 IH]; intros [|f2] n H1 H2; try lia.
  simpl. destruct (N.ltb_spec n radix) as [Hlt|Hge]; [reflexivity|].
  f_equal. pose proof (log2_div_lt n Hge). apply IH; lia.
Qed.

(** The equation the digits satisfy. *)
Lemma digits_unfold (n : N) :
  digits radix n =
  if (n <? radix)%N then [n]
  else (digits radix (n / radix) ++ [(n mod radix)%N])%list.
Proof.
  unfold digits at 1. simpl.
  destruct (N.ltb_spec n radix) as [Hlt|Hge]; [reflexivity|].
  f_equal. pose proof (log2_div_lt n Hge).
  apply digits_fuel_enough; lia.
Qed.

Lemma digits_nonempty (n : N) : digits radix n <> [].
Proof.
  rewrite digits_unfold. destruct (n <? radix)%N; [discriminate|].
  intros E. apply app_eq_nil in E as [_ E]. discriminate.
Qed.







End Digits.

(** **** Texts of numbers *)










(** **** The map over the bookmarks *)






(* ------------------------------------------------------------------ *)
(** *** C7: the weather fetch never throws                             *)
(* ------------------------------------------------------------------ *)

Let primary := fetchXiaomiWeather XIAOMI_CITY_IDS parseInt round_parseFloat
  getXiaomiWeatherDesc getXiaomiWeatherEmoji xiaomi_api.

Let secondary := fetchWttr parseInt getWeatherEmojiFromWttr wttr_api.

Let gives_nothing := primary_fails_or_bypassed XIAOMI_CITY_IDS parseInt
  round_parseFloat xiaomi_api.

Let usable := wttr_usable parseInt.

Let unusable := wttr_unusable parseInt.

(** For a string, [fetchWeather] returns. *)
Lemma fetchWeather_returns (city : string) :
  exists w, fetchW (Some (JStr city)) = Return w.
Proof.
  unfold fetchW, fetchWeather, tryXiaomi.
  destruct (isInternational city); cbn [negb bind];
    [|destruct (fetchXiaomiWeather _ _ _ _ _ _ city) as [[x|]|e];
      cbn [try_catch bind]; [eauto| |]];
    destruct (fetchWttr _ _ _ city); cbn [try_catch]; eauto.
Qed.

(** A primary that fails or is bypassed hands over to the secondary, whose
    exceptions become the static default. *)
Lemma primary_hands_over (city : string) :
  gives_nothing city ->
  fetchW (Some (JStr city)) =
  try_catch (secondary city) (fun _ => Return (fallback_weather city)).
Proof.
  intros H. unfold fetchW, fetchWeather, tryXiaomi. fold secondary.
  destruct (isInternational city) eqn:Hint; cbn [negb bind]; [reflexivity|].
  assert (fetchXiaomiWeather XIAOMI_CITY_IDS parseInt round_parseFloat
            getXiaomiWeatherDesc getXiaomiWeatherEmoji xiaomi_api city
          = Return None \/
          throws (fetchXiaomiWeather XIAOMI_CITY_IDS parseInt round_parseFloat
            getXiaomiWeatherDesc getXiaomiWeatherEmoji xiaomi_api city))
    as [->|[e ->]]; [|reflexivity|reflexivity].
  unfold fetchXiaomiWeather.
  destruct H as [H|[H|(cityId & Hid & H)]]; [congruence| |];
    unfold city_code in *.
  - rewrite H. now left.
  - rewrite Hid. unfold xiaomi_unusable in H.
    destruct (xiaomi_api cityId) as [e|[|] code [data|]];
      [right; now exists e | | right; eexists; reflexivity
      | now left | now left].
    destruct H as [H|[H|(current & Hcur & H)]].
    + rewrite H. now left.
    + rewrite H, orb_true_r. now left.
    + destruct (truthy (Some data)) eqn:Hd; cbn [negb orb]; [|now left].
      rewrite Hcur.
      destruct (truthy (Some current)) eqn:Ht; cbn [negb]; [|now left].
      right. cbn [or_default]. rewrite Ht.
      repeat match goal with
          | |- throws (bind ?m _) =>
              let E := fresh "E" in
              destruct m as [?|?] eqn:E; cbn [bind];
              [|eexists; reflexivity]
          end.
      all: try (exfalso;
                repeat match goal with
                  | H : _ \/ _ |- _ => destruct H as [H|H]
                  | H : throws _ |- _ => destruct H as [? H]
                  end; congruence).
Qed.

(** C7.  For every city name the weather fetch returns a value, whatever the
    upstreams answer.  Say that the primary fails or is bypassed: the city is
    classified as international, or has no city code, or the reply to the
    request for its code is a rejected request, a status that is not a
    success, a body that is not JSON, a JSON without a truthy [current], or
    holds a reading that cannot be converted.  Then
    - when the secondary's reply is a success whose JSON body has a truthy
      [current_condition[0]] with readings that convert, the result is the
      secondary's artifact: the area name of the reply (else the city), the
      four readings (their defaults for 0 and [NaN]), the description, the
      icon of the weather code, and the tag [source: "wttr.in"];
    - when the secondary's reply is anything else (a rejected request, a
      status that is not a success, a body that is not JSON, [null], no
      truthy [current_condition[0]], a reading that cannot be converted), the
      result is the static default: temperature 22, feels like 23, humidity
      50, wind 10, tagged [source: "fallback"];
    - every reply of the secondary is of one of these two kinds. *)
Theorem fetchWeather_fallback_chain (city : string) :
  (exists w, fetchW (Some (JStr city)) = Return w) /\
  (forall data current temp feels humidity wind code,
     gives_nothing city ->
     usable (wttr_api city) data current temp feels humidity wind code ->
     fetchW (Some (JStr city)) =
     Return (JObj
       [("city", or_default
            (opt_member (opt_index0 (opt_member
               (opt_index0 (member data "nearest_area")) "areaName")) "value")
            (JStr city));
        ("temp", JNum (number_or temp 22));
        ("feels", JNum (number_or feels 23));
        ("humidity", JNum (number_or humidity 50));
        ("wind", JNum (number_or wind 10));
        ("desc", or_default
            (opt_member (opt_index0 (member current "weatherDesc")) "value")
            (JStr "晴"));
        ("icon", JStr (getWeatherEmojiFromWttr code));
        ("source", JStr "wttr.in")])) /\
  (gives_nothing city ->
   unusable (wttr_api city) ->
   fetchW (Some (JStr city)) =
   Return (JObj [("city", JStr city); ("temp", JNum 22); ("feels", JNum 23);
                 ("humidity", JNum 50); ("wind", JNum 10);
                 ("desc", JStr "数据获取中"); ("icon", JStr "🌤️");
                 ("source", JStr "fallback")])) /\
  (unusable (wttr_api city) \/
   exists data current temp feels humidity wind code,
     usable (wttr_api city) data current temp feels humidity wind code).
Proof.
  split; [apply fetchWeather_returns|]. split; [|split].
  - intros data current temp feels humidity wind code Hp
      ((status & Hreply) & Hdata & Hcur & Ht & H1 & H2 & H3 & H4 & H5).
    rewrite (primary_hands_over city Hp).
    unfold secondary, fetchWttr. rewrite Hreply.
    destruct data; try (now elim Hdata);
      rewrite Hcur, Ht; cbn [negb or_default]; rewrite Ht, H1, H2, H3, H4, H5;
      reflexivity.
  - intros Hp Hs. rewrite (primary_hands_over city Hp).
    unfold secondary, fetchWttr. unfold unusable, wttr_unusable in Hs.
    destruct (wttr_api city) as [e|[|] status [data|]]; try reflexivity.
    destruct Hs as [->|[Hs|(current & Hcur & Hs)]]; [reflexivity| |].
    + destruct data; try reflexivity; rewrite Hs; reflexivity.
    + destruct data; try reflexivity; rewrite Hcur;
        (destruct (truthy (Some current)) eqn:Ht; cbn [negb]; [|reflexivity]);
        cbn [or_default]; rewrite Ht;
        repeat match goal with
          | |- context [bind ?m _] =>
              let E := fresh "E" in
              destruct m as [?|?] eqn:E; cbn [bind try_catch];
              [|reflexivity]
          end;
        exfalso;
        repeat match goal with
          | H : _ \/ _ |- _ => destruct H as [H|H]
          | H : throws _ |- _ => destruct H as [? H]
          end; congruence.
  - unfold unusable, usable, wttr_unusable, wttr_usable.
    destruct (wttr_api city) as [e|[|] status [data|]]; try (now left).
    assert (data = JNull \/ data <> JNull) as [->|Hdata]
      by (destruct data; (now left) || (right; discriminate)).
    { left. now left. }
    destruct (opt_index0 (member data "current_condition")) as [current|] eqn:Hcur;
      [|left; right; now left].
    destruct (truthy (Some current)) eqn:Ht; [|left; right; now left].
    destruct (parseInt (member current "temp_C")) as [temp|e1] eqn:E1;
      [|left; right; right; exists current; split; [reflexivity|];
        left; now exists e1].
    destruct (parseInt (member current "FeelsLikeC")) as [feels|e2] eqn:E2;
      [|left; right; right; exists current; split; [reflexivity|];
        right; left; now exists e2].
    destruct (parseInt (member current "humidity")) as [humidity|e3] eqn:E3;
      [|left; right; right; exists current; split; [reflexivity|];
        right; right; left; now exists e3].
    destruct (parseInt (member current "windspeedKmph")) as [wind|e4] eqn:E4;
      [|left; right; right; exists current; split; [reflexivity|];
        right; right; right; left; now exists e4].
    destruct (parseInt (member current "weatherCode")) as [code|e5] eqn:E5;
      [|left; right; right; exists current; split; [reflexivity|];
        right; right; right; right; now exists e5].
    right. exists data, current, temp, feels, humidity, wind, code.
    repeat split; eauto.
Qed.

(* ------------------------------------------------------------------ *)
(** *** C8: a read with stale weather and fresh news                   *)
(* ------------------------------------------------------------------ *)

(** C8.  A stored record whose weather timestamp is older than the weather
    window (for instance [now] minus 31 minutes) and whose news is cached and
    within its window is read through its slug.  The request succeeds, and
    the record stored afterwards differs from the one before only at
    [cachedWeather] (the fetched artifact merged in), at
    [timestamps.weatherUpdated] (now [now]) and at [timestamps.updated] (the
    time of the update): every other top-level field, [cachedNews] among
    them, and every other timestamp, [newsUpdated] among them, is unchanged,
    as is every other identity's storage. *)
Theorem stale_weather_refresh_frame
    (now : Z) (do_clock : nat -> Z) (apiPath slug city : string)
    (ns : namespace) (R ts : object) (tw tn : Z) :
  remove_first "/user/" apiPath = slug ->
  first_segment "-" slug <> "" ->
  ns (toLowerCase (first_segment "-" slug)) = Some R ->
  get R "slug" = Some (JStr slug) ->
  get R "city" = Some (JStr city) ->
  get R "timestamps" = Some (JObj ts) ->
  get ts "weatherUpdated" = Some (JNum tw) ->
  now - tw > CONFIG.CACHE_TTL_WEATHER ->
  truthy (get R "cachedNews") = true ->
  get ts "newsUpdated" = Some (JNum tn) ->
  now - tn <= CONFIG.CACHE_TTL_NEWS ->
  exists (w : value) (resp : Response) (R' : object),
    fetchW (Some (JStr city)) = Return w /\
    getUser now do_clock apiPath ns =
      (Return resp,
       with_storage ns (toLowerCase (first_segment "-" slug)) (Some R')) /\
    status resp = 200 /\
    get R' "cachedWeather" = Some (merged_entry (get R "cachedWeather") w) /\
    lookup (JObj R') ["timestamps"; "weatherUpdated"] = Some (JNum now) /\
    lookup (JObj R') ["timestamps"; "updated"] = Some (JNum (do_clock O)) /\
    get R' "cachedNews" = get R "cachedNews" /\
    lookup (JObj R') ["timestamps"; "newsUpdated"] = Some (JNum tn) /\
    (forall k, k <> "cachedWeather" -> k <> "timestamps" ->
               get R' k = get R k) /\
    (forall k, k <> "weatherUpdated" -> k <> "updated" ->
               lookup (JObj R') ["timestamps"; k] = get ts k).
Proof.
  intros Hpath Hseg Hns Hslug Hcity Hts Htw Hstale Hnews Htn Hfresh.
  destruct (fetchWeather_returns city) as [w Hw].
  set (name := toLowerCase (first_segment "-" slug)) in *.
  set (ts1 := set ts "weatherUpdated" (JNum now)).
  set (cw := merged_entry (get R "cachedWeather") w).
  set (R1 := set (set R "cachedWeather" cw) "timestamps" (JObj ts1)).
  exists w, (jsonResponse
               (JObj [("data",
                       JObj (assign R [("cachedWeather", w);
                                       ("timestamps",
                                        JObj [("weatherUpdated", JNum now)])]))])
               200),
    (set R1 "timestamps" (JObj (set ts1 "updated" (JNum (do_clock O))))).
  assert (isStale ToNumber now R "cachedWeather" "weatherUpdated"
            CONFIG.CACHE_TTL_WEATHER = Return true) as HsW.
  { unfold isStale. destruct (truthy (get R "cachedWeather")); [|reflexivity].
    rewrite Hts. simpl. rewrite Htw. simpl. f_equal. lia. }
  assert (isStale ToNumber now R "cachedNews" "newsUpdated"
            CONFIG.CACHE_TTL_NEWS = Return false) as HsN.
  { unfold isStale. rewrite Hnews, Hts. simpl. rewrite Htn. simpl. f_equal. lia. }
  assert (get (set R "cachedWeather" cw) "timestamps" = Some (JObj ts)) as Hts1.
  { rewrite get_set_other by discriminate. exact Hts. }
  split; [exact Hw|]. split; [|split; [reflexivity|]].
  - unfold getUser, handleGetUser. rewrite Hpath.
    destruct (String.eqb_spec (first_segment "-" slug) "") as [E|_];
      [contradiction|].
    fold name. rewrite Hns, Hslug, String.eqb_refl.
    unfold stale_updates. rewrite HsW. cbn [bind].
    unfold weather. rewrite Hcity. fold fetchW. rewrite Hw. cbn [bind].
    rewrite HsN.
    cbn [bind stamp_update set get String.eqb Ascii.eqb Bool.eqb].
    unfold stub_fetch, do_fetch, updateData. rewrite Hns.
    unfold deepMerge, deepMerge_prototype, merge_loop. cbn [spread].
    rewrite !merge_from_cons_plain by discriminate.
    fold cw. rewrite Hts1, merged_entry_object.
    cbn [or_default truthy spread]. unfold merge_loop.
    rewrite merge_from_cons_plain by discriminate.
    cbn [merge_from fst snd merged_entry merged].
    fold ts1. fold R1.
    unfold touch_updated. unfold R1 at 1. rewrite get_set_same.
    reflexivity.
  - repeat split.
    + unfold R1. rewrite !get_set_other by discriminate. apply get_set_same.
    + cbn [lookup]. rewrite !get_set_same.
      rewrite get_set_other by discriminate. unfold ts1. now rewrite get_set_same.
    + cbn [lookup]. now rewrite !get_set_same.
    + unfold R1. now rewrite !get_set_other by discriminate.
    + cbn [lookup]. rewrite !get_set_same. unfold ts1.
      rewrite !get_set_other by discriminate. now rewrite Htn.
    + intros k Hk1 Hk2. unfold R1. now rewrite !get_set_other by congruence.
    + intros k Hk1 Hk2. cbn [lookup]. rewrite !get_set_same. unfold ts1.
      rewrite !get_set_other by congruence. now destruct (get ts k).
Qed.

(* ------------------------------------------------------------------ *)
(** *** C9: looking up a user whose name has a hyphen                  *)
(* ------------------------------------------------------------------ *)

Lemma lower_ascii_hyphen (c : ascii) :
  Ascii.eqb (lower_ascii c) "-" = Ascii.eqb c "-".
Proof. destruct c as [[] [] [] [] [] [] [] []]; reflexivity. Qed.

Lemma lower_ascii_idempotent (c : ascii) :
  lower_ascii (lower_ascii c) = lower_ascii c.
Proof. destruct c as [[] [] [] [] [] [] [] []]; reflexivity. Qed.

Lemma toLowerCase_idempotent (s : string) :
  toLowerCase (toLowerCase s) = toLowerCase s.
Proof.
  induction s as [|c s IH]; simpl; [reflexivity|].
  now rewrite lower_ascii_idempotent, IH.
Qed.

Lemma has_hyphen_toLowerCase (s : string) :
  has_hyphen (toLowerCase s) = has_hyphen s.
Proof.
  induction s as [|c s IH]; simpl; [reflexivity|].
  now rewrite lower_ascii_hyphen, IH.
Qed.

Lemma first_segment_toLowerCase (s : string) :
  first_segment "-" (toLowerCase s) = toLowerCase (first_segment "-" s).
Proof.
  induction s as [|c s IH]; simpl; [reflexivity|].
  rewrite lower_ascii_hyphen.
  destruct (Ascii.eqb c "-"); simpl; [reflexivity | now rewrite IH].
Qed.

Lemma has_hyphen_app (a b : string) :
  has_hyphen (a ++ b) = has_hyphen a || has_hyphen b.
Proof.
  induction a as [|c a IH]; simpl; [reflexivity|].
  now rewrite IH, orb_assoc.
Qed.

Lemma first_segment_no_hyphen (s : string) :
  has_hyphen (first_segment "-" s) = false.
Proof.
  induction s as [|c s IH]; simpl; [reflexivity|].
  destruct (Ascii.eqb c "-") eqn:E; simpl; [reflexivity|].
  now rewrite E, IH.
Qed.

(** A text with a hyphen splits at its first one. *)
Lemma split_at_first_hyphen (s : string) :
  has_hyphen s = true ->
  exists rest, s = first_segment "-" s ++ "-" ++ rest.
Proof.
  induction s as [|c s IH]; simpl; [discriminate|].
  destruct (Ascii.eqb_spec c "-") as [->|Hc]; simpl.
  - intros _. now exists s.
  - intros H. destruct (IH H) as [rest E]. exists rest. f_equal. exact E.
Qed.

Lemma first_segment_app (a b : string) :
  has_hyphen a = true ->
  first_segment "-" (a ++ b) = first_segment "-" a.
Proof.
  induction a as [|c a IH]; simpl; [discriminate|].
  destruct (Ascii.eqb c "-"); simpl; [reflexivity|].
  intros H. now rewrite IH.
Qed.

Lemma append_cancel (a b c : string) : a ++ b = a ++ c -> b = c.
Proof.
  induction a as [|x a IH]; simpl; [auto|].
  intros E. injection E as E. auto.
Qed.

Lemma append_assoc (a b c : string) : (a ++ b) ++ c = a ++ b ++ c.
Proof. induction a as [|x a IH]; simpl; [reflexivity | now rewrite IH]. Qed.

Lemma substring_all (s : string) :
  String.substring 0 (String.length s) s = s.
Proof. induction s as [|c s IH]; simpl; [reflexivity | now rewrite IH]. Qed.

Lemma prefix_empty (s : string) : String.prefix "" s = true.
Proof. destruct s; reflexivity. Qed.

Lemma remove_first_user (s : string) : remove_first "/user/" ("/user/" ++ s) = s.
Proof.
  cbn. rewrite prefix_empty, Nat.sub_0_r. apply substring_all.
Qed.

(** The random suffix of a slug is made of base-36 digits. *)
Lemma digit_char_not_hyphen (d : N) : Ascii.eqb (digit_char d) "-" = false.
Proof.
  unfold digit_char.
  destruct (nth_in_or_default (N.to_nat d) alphabet "z"%char) as [Hin | E];
    [|now rewrite E].
  revert Hin. generalize (nth (N.to_nat d) alphabet "z"%char). intros c.
  vm_compute. intuition (subst; reflexivity).
Qed.

Lemma generateSlug_shape (fraction : list N) (username : string) :
  exists suffix,
    generateSlug fraction username = toLowerCase username ++ "-" ++ suffix /\
    has_hyphen suffix = false.
Proof.
  unfold generateSlug. eexists. split; [reflexivity|].
  induction (firstn 6 fraction) as [|d l IH]; simpl; [reflexivity|].
  now rewrite digit_char_not_hyphen, IH.
Qed.

(** A generate request for a new identity that ends in a 200 reply has stored
    a record under the lowercased username, with the slug [generateSlug]
    makes for it; the other identities are untouched. *)
Lemma generate_creates_generated_slug
    (clock do_clock : nat -> Z) (fraction : list N) (env : Env)
    (req : value) (ns ns' : namespace) (username : string) (resp : Response) :
  member req "username" = Some (JStr username) ->
  username <> "" ->
  ns (toLowerCase username) = None ->
  generate clock do_clock fraction env "POST" req ns = (Return resp, ns') ->
  status resp = 200 ->
  exists R',
    ns' (toLowerCase username) = Some R' /\
    get R' "slug" = Some (JStr (generateSlug fraction username)) /\
    (forall name, name <> toLowerCase username -> ns' name = ns name).
Proof.
  intros Hname Hnonempty Hns Hrun Hstatus.
  destruct req as [| | | | |o]; try discriminate.
  simpl in Hname.
  unfold generate, handleGenerate in Hrun.
  cbn [negb String.eqb Ascii.eqb Bool.eqb member] in Hrun.
  rewrite Hname in Hrun. cbn [truthy] in Hrun.
  destruct (String.eqb_spec username "") as [->|_]; [contradiction|].
  cbn [negb] in Hrun. rewrite Hns in Hrun.
  destruct (github_data fetchGitHubData (get o "githubData") username)
    as [githubData|e]; cbn [bind] in Hrun;
    [|injection Hrun as <- <-; discriminate].
  destruct (generateAllAIContent extractSkills env githubData)
    as [[[[bio pd] quote] skills]|e]; cbn [bind] in Hrun;
    [|injection Hrun as <- <-; discriminate].
  destruct (fetchRealNews (get o "interests")) as [news|e]; cbn [bind] in Hrun;
    [|injection Hrun as <- <-; discriminate].
  destruct (weather _ _ _ _ _ _ _ _ _) as [w|e]; cbn [bind] in Hrun;
    [|injection Hrun as <- <-; discriminate].
  destruct (match images env with Some urls => urls | None => (JNull, JNull) end)
    as [backgroundUrl cardImageUrl].
  unfold stub_fetch, do_fetch, setData in Hrun.
  cbn [member app field get String.eqb Ascii.eqb Bool.eqb] in Hrun.
  injection Hrun as _ <-.
  eexists. split; [|split].
  - unfold with_storage. rewrite String.eqb_refl. reflexivity.
  - reflexivity.
  - intros name Hne. unfold with_storage.
    destruct (String.eqb_spec (toLowerCase username) name); congruence.
Qed.

(** C9, as stated, fails for a username that begins with a hyphen.  A
    generate request that brings its own GitHub data creates a record for
    [-ab], stored under the identity [-ab] with the slug [-ab-abc]; looking
    that slug up recovers the empty text before the first hyphen, and the
    reply is 400 "Invalid slug", not "User not found". *)
Lemma leading_hyphen_lookup_is_invalid_slug :
  let ns1 :=
    snd (handleGenerate no_code no_parse no_float (fun _ => "") (fun _ => "")
           (fun _ => "") unreachable unreachable sample_github sample_news
           sample_skills (fun _ => 5000) (fun _ => 5000) [10; 11; 12]%N
           sample_env "POST"
           (JObj [("username", JStr "-ab");
                  ("githubData",
                   JObj [("user", JObj [("login", JStr "-ab")]);
                         ("repos", JArr [JObj [("name", JStr "r")]])])])
           (fun _ => None)) in
  has_hyphen "-ab" = true /\
  match ns1 "-ab" with
  | Some R => get R "slug" = Some (JStr "-ab-abc")
  | None => False
  end /\
  fst (handleGetUser no_number no_code no_parse no_float (fun _ => "")
         (fun _ => "") (fun _ => "") unreachable unreachable sample_news
         6000 (fun _ => 6000) "/user/-ab-abc" ns1)
  = Return (jsonResponse (JObj [("error", JStr "Invalid slug")]) 400).
Proof. vm_compute. repeat split. Qed.

(** C9, amended.  A record stored for a username with a hyphen cannot be read
    back through its slug.  The lookup recovers, as identity, the part of the
    slug before its first hyphen, which is never the identity the record is
    stored under.  The reply is 404 "User not found", except when the
    username begins with a hyphen: the recovered part is then empty and the
    reply is 400 "Invalid slug".  The namespace is not changed. *)
Theorem hyphenated_user_lookup_fails
    (now : Z) (do_clock : nat -> Z) (username slug : string)
    (ns : namespace) (R : object) :
  has_hyphen username = true ->
  slugs_generated ns ->
  ns (toLowerCase username) = Some R ->
  get R "slug" = Some (JStr slug) ->
  getUser now do_clock ("/user/" ++ slug) ns =
    (Return (if String.prefix "-" username
             then jsonResponse (JObj [("error", JStr "Invalid slug")]) 400
             else jsonResponse (JObj [("error", JStr "User not found")]) 404),
     ns) /\
  toLowerCase (first_segment "-" slug) <> toLowerCase username.
Proof.
  intros Hhyphen Hinv Hns Hslug.
  set (name := toLowerCase username) in *.
  assert (has_hyphen name = true) as Hname
    by (unfold name; now rewrite has_hyphen_toLowerCase).
  destruct (Hinv name R Hns) as (suffix & Hslug' & Hsuffix).
  assert (slug = name ++ "-" ++ suffix) as Hshape by congruence.
  clear Hslug'.
  set (pre := first_segment "-" name).
  assert (first_segment "-" slug = pre) as Hseg
    by (rewrite Hshape; now apply first_segment_app).
  assert (toLowerCase pre = pre) as Hpre.
  { unfold pre, name.
    now rewrite <- first_segment_toLowerCase, toLowerCase_idempotent. }
  assert (has_hyphen pre = false) as Hpre_hyphen
    by apply first_segment_no_hyphen.
  split.
  2:{ rewrite Hseg, Hpre. intros E. rewrite E in Hpre_hyphen. congruence. }
  unfold getUser, handleGetUser.
  rewrite remove_first_user, Hseg.
  destruct username as [|c u]; [discriminate|].
  cbn [String.prefix].
  destruct (ascii_dec "-" c) as [<-|Hc].
  - rewrite prefix_empty. reflexivity.
  - assert (pre <> "") as Hne.
    { unfold pre, name. cbn [toLowerCase first_segment].
      rewrite lower_ascii_hyphen.
      destruct (Ascii.eqb_spec c "-"); [congruence | discriminate]. }
    destruct (String.eqb_spec pre "") as [E|_]; [contradiction|].
    rewrite Hpre.
    destruct (ns pre) as [R2|] eqn:E2; [|reflexivity].
    destruct (Hinv pre R2 E2) as (suffix2 & Hslug2 & Hsuffix2).
    rewrite Hslug2.
    destruct (String.eqb_spec (pre ++ "-" ++ suffix2) slug) as [E|_];
      [|reflexivity].
    exfalso.
    destruct (split_at_first_hyphen name Hname) as [rest Hrest].
    fold pre in Hrest. rewrite Hshape, Hrest in E.
    rewrite !append_assoc in E.
    apply append_cancel in E. apply append_cancel in E.
    rewrite E, !has_hyphen_app in Hsuffix2. simpl in Hsuffix2.
    now rewrite orb_true_r in Hsuffix2.
Qed.

End HandlerProperties.

Lemma generate_existing_routes_to_update_witness :
  exists R',
    handleGenerate no_code no_parse no_float (fun _ => "") (fun _ => "")
      (fun _ => "") unreachable unreachable sample_github sample_news
      sample_skills (fun _ => 3000) (fun _ => 3000) [] (mkEnv None false) "POST"
      (JObj [("username", JStr "Octocat"); ("city", JStr "Tokyo")])
      sample_namespace =
      (Return (jsonResponse
                 (JObj ([("isNew", JBool false)] ++
                        field "slug" (get sample_record "slug") ++
                        [("data", JObj R')])%list) 200),
       with_storage sample_namespace (toLowerCase "Octocat") (Some R')) /\
    get R' "city" = Some (JStr "Tokyo") /\
    get R' "userBio" = get sample_record "userBio" /\
    get R' "timestamps" =
      Some (JObj (set sample_timestamps "updated" (JNum 3000))) /\
    get R' "slug" = get sample_record "slug".
Proof.
  destruct (generate_existing_routes_to_update
              no_code no_parse no_float (fun _ => "") (fun _ => "") (fun _ => "")
              unreachable unreachable sample_github sample_news sample_skills
              (fun _ => 3000) (fun _ => 3000) [] (mkEnv None false)
              (JObj [("username", JStr "Octocat"); ("city", JStr "Tokyo")])
              sample_namespace "Octocat" sample_record sample_timestamps)
    as [(R' & Hrun & Hthree & Hscalar & Hstamp & Hslug & _) _];
    [reflexivity | discriminate | reflexivity | reflexivity |].
  exists R'. split; [exact Hrun|]. split; [|split; [|split]].
  - apply Hscalar; [now left | reflexivity | reflexivity].
  - apply (Hthree "userBio"). right. right. now left.
  - exact Hstamp.
  - exact Hslug.
Defined.

Lemma refresh_fails_when_generation_unavailable_witness :
  exists e,
    handleRefresh no_code no_parse no_float (fun _ => "") (fun _ => "")
      (fun _ => "") unreachable unreachable sample_github sample_news
      sample_skills (fun _ => 3000) (fun _ => 3000) (mkEnv None true) "POST"
      (JObj [("username", JStr "octocat")]) sample_namespace
    = (Throw e, sample_namespace) /\
    worker_catch (Throw e) = mkResponse 500 (JObj [("error", JStr e)]) /\
    getData (sample_namespace (toLowerCase "octocat")) =
      jsonResponse (JObj [("exists", JBool true); ("data", JObj sample_record)]) 200.
Proof.
  apply (refresh_fails_when_generation_unavailable
           no_code no_parse no_float (fun _ => "") (fun _ => "") (fun _ => "")
           unreachable unreachable sample_github sample_news sample_skills
           (fun _ => 3000) (fun _ => 3000) (mkEnv None true)
           (JObj [("username", JStr "octocat")]) sample_namespace
           "octocat" sample_record);
    [reflexivity | discriminate | reflexivity | left; reflexivity].
Defined.

Lemma staleness_threshold_witness :
  isStale no_number (1000 + 30 * 60 * 1000 + 1) sample_record
    "cachedWeather" "weatherUpdated" CONFIG.CACHE_TTL_WEATHER = Return true /\
  exists U,
    stale_updates no_number no_code sample_parseInt no_float (fun _ => "")
      (fun _ => "") (fun _ => "sun") unreachable sample_wttr sample_news
      (1000 + 30 * 60 * 1000 + 1) sample_record = Return U /\
    get U "cachedWeather" =
      Some (JObj [("city", JStr "Tokyo"); ("temp", JNum 18); ("feels", JNum 17);
                  ("humidity", JNum 60); ("wind", JNum 10);
                  ("desc", JStr "Sunny"); ("icon", JStr "sun");
                  ("source", JStr "wttr.in")]) /\
    lookup (JObj U) ["timestamps"; "weatherUpdated"] =
      Some (JNum (1000 + 30 * 60 * 1000 + 1)) /\
    get U "cachedNews" = None.
Proof.
  destruct (staleness_threshold no_number no_code sample_parseInt no_float
              (fun _ => "") (fun _ => "") (fun _ => "sun") unreachable
              sample_wttr sample_news (1000 + 30 * 60 * 1000 + 1) sample_record
              sample_timestamps "cachedWeather" "weatherUpdated"
              CONFIG.CACHE_TTL_WEATHER 1000
              (or_introl eq_refl) eq_refl eq_refl eq_refl)
    as (H & _ & _ & _ & _ & _ & _ & Hstale & _ & Hreturns).
  split; [apply H; reflexivity|].
  destruct Hreturns as [U HU]; [eexists; reflexivity | eexists; reflexivity|].
  exists U. split; [exact HU|].
  destruct (Hstale U HU) as (v & [[_ Hv]|[E _]] & Hget & Hstamp);
    [reflexivity | | discriminate E].
  vm_compute in Hv. injection Hv as <-.
  split; [exact Hget|]. split; [exact Hstamp|].
  destruct (staleness_threshold no_number no_code sample_parseInt no_float
              (fun _ => "") (fun _ => "") (fun _ => "sun") unreachable
              sample_wttr sample_news (1000 + 30 * 60 * 1000 + 1) sample_record
              sample_timestamps "cachedNews" "newsUpdated"
              CONFIG.CACHE_TTL_NEWS 1000
              (or_intror (or_introl eq_refl)) eq_refl eq_refl eq_refl)
    as (_ & _ & _ & _ & _ & _ & _ & _ & Hfresh & _).
  apply (Hfresh U HU). vm_compute. discriminate.
Defined.

Lemma fetchWeather_fallback_chain_witness :
  fetchWeather no_code sample_parseInt no_float (fun _ => "") (fun _ => "")
    (fun code => match code with Some 113 => "sun" | _ => "" end)
    unreachable sample_wttr (Some (JStr "Tokyo"))
  = Return (JObj [("city", JStr "Tokyo"); ("temp", JNum 18); ("feels", JNum 17);
                  ("humidity", JNum 60); ("wind", JNum 10);
                  ("desc", JStr "Sunny"); ("icon", JStr "sun");
                  ("source", JStr "wttr.in")]) /\
  fetchWeather sample_city_ids sample_parseInt no_float (fun _ => "")
    (fun _ => "") (fun _ => "") unreachable broken_wttr (Some (JStr "Beijing"))
  = Return (JObj [("city", JStr "Beijing"); ("temp", JNum 22); ("feels", JNum 23);
                  ("humidity", JNum 50); ("wind", JNum 10);
                  ("desc", JStr "数据获取中"); ("icon", JStr "🌤️");
                  ("source", JStr "fallback")]).
Proof.
  split.
  - destruct (fetchWeather_fallback_chain no_code sample_parseInt no_float
                (fun _ => "") (fun _ => "")
                (fun code => match code with Some 113 => "sun" | _ => "" end)
                unreachable sample_wttr "Tokyo") as (_ & H & _).
    apply (H sample_wttr_data
             (JObj [("temp_C", JStr "18"); ("FeelsLikeC", JStr "17");
                    ("humidity", JStr "60"); ("windspeedKmph", JStr "0");
                    ("weatherCode", JStr "113");
                    ("weatherDesc", JArr [JObj [("value", JStr "Sunny")]])])
             (Some 18) (Some 17) (Some 60) (Some 0) (Some 113)).
    + left. reflexivity.
    + repeat split; try reflexivity; [now exists 200 | discriminate].
  - destruct (fetchWeather_fallback_chain sample_city_ids sample_parseInt
                no_float (fun _ => "") (fun _ => "") (fun _ => "")
                unreachable broken_wttr "Beijing") as (_ & _ & H & _).
    apply H.
    + right. right. exists "101010100". split; [reflexivity | exact I].
    + right. right.
      exists (JObj [("temp_C", JObj [("toString", JNum 1)])]).
      split; [reflexivity|]. left. eexists. reflexivity.
Defined.

Lemma stale_weather_refresh_frame_witness :
  exists (w : value) (resp : Response) (R' : object),
    fetchWeather no_code no_parse no_float (fun _ => "") (fun _ => "")
      (fun _ => "") unreachable unreachable (Some (JStr "Beijing")) = Return w /\
    handleGetUser no_number no_code no_parse no_float (fun _ => "") (fun _ => "")
      (fun _ => "") unreachable unreachable sample_news
      (1000 + 31 * 60 * 1000) (fun _ => 1000 + 31 * 60 * 1000 + 5)
      "/user/octocat-k3x9a1" sample_namespace =
      (Return resp,
       with_storage sample_namespace
         (toLowerCase (first_segment "-" "octocat-k3x9a1")) (Some R')) /\
    status resp = 200 /\
    get R' "cachedWeather" =
      Some (merged_entry (get sample_record "cachedWeather") w) /\
    lookup (JObj R') ["timestamps"; "weatherUpdated"] =
      Some (JNum (1000 + 31 * 60 * 1000)) /\
    lookup (JObj R') ["timestamps"; "updated"] =
      Some (JNum (1000 + 31 * 60 * 1000 + 5)) /\
    get R' "cachedNews" = get sample_record "cachedNews" /\
    lookup (JObj R') ["timestamps"; "newsUpdated"] = Some (JNum 1000) /\
    (forall k, k <> "cachedWeather" -> k <> "timestamps" ->
               get R' k = get sample_record k) /\
    (forall k, k <> "weatherUpdated" -> k <> "updated" ->
               lookup (JObj R') ["timestamps"; k] = get sample_timestamps k).
Proof.
  apply (stale_weather_refresh_frame no_number no_code no_parse no_float
           (fun _ => "") (fun _ => "") (fun _ => "") unreachable unreachable
           sample_news (1000 + 31 * 60 * 1000)
           (fun _ => 1000 + 31 * 60 * 1000 + 5)
           "/user/octocat-k3x9a1" "octocat-k3x9a1" "Beijing" sample_namespace
           sample_record sample_timestamps 1000 1000);
    try reflexivity; try discriminate.
Defined.

Lemma hyphenated_user_lookup_fails_witness :
  handleGetUser no_number no_code no_parse no_float (fun _ => "")
    (fun _ => "") (fun _ => "") unreachable unreachable sample_news
    6000 (fun _ => 6000) ("/user/" ++ "my-name-k3x9a1")
    (with_storage (fun _ => None) "my-name"
       (Some [("slug", JStr "my-name-k3x9a1")])) =
    (Return (if String.prefix "-" "My-Name"
             then jsonResponse (JObj [("error", JStr "Invalid slug")]) 400
             else jsonResponse (JObj [("error", JStr "User not found")]) 404),
     with_storage (fun _ => None) "my-name"
       (Some [("slug", JStr "my-name-k3x9a1")])) /\
  toLowerCase (first_segment "-" "my-name-k3x9a1") <> toLowerCase "My-Name".
Proof.
  apply (hyphenated_user_lookup_fails no_number no_code no_parse no_float
           (fun _ => "") (fun _ => "") (fun _ => "") unreachable unreachable
           sample_news 6000 (fun _ => 6000) "My-Name" "my-name-k3x9a1"
           (with_storage (fun _ => None) "my-name"
              (Some [("slug", JStr "my-name-k3x9a1")]))
           [("slug", JStr "my-name-k3x9a1")]);
    [reflexivity | | reflexivity | reflexivity].
  intros name R. unfold with_storage.
  destruct (String.eqb_spec "my-name" name) as [<-|_]; [|discriminate].
  intros E. injection E as <-. exists "k3x9a1". split; reflexivity.
Defined.

(* ================================================================== *)
(** ** Further properties of the store                                 *)
(* ================================================================== *)

(** *** Delete, then get *)

(** Whatever the object holds, a delete answers success and empties the
    storage; a get that follows answers [exists: false] without a record, and
    a second delete succeeds again with the same answer. *)
Theorem delete_then_get (clock : nat -> Z) (st : storage) :
  let '(deleted, st1) := do_fetch clock DoDelete st in
  let '(got, st2) := do_fetch clock DoGet st1 in
  let '(again, st3) := do_fetch clock DoDelete st2 in
  status deleted = 200 /\
  body deleted = JObj [("success", JBool true)] /\
  st1 = None /\
  body got = JObj [("exists", JBool false)] /\
  member (body got) "data" = None /\
  again = deleted /\
  st3 = None.
Proof. repeat split. Qed.

(** *** The merge keeps and adds keys, and is idempotent *)





Lemma set_same (o : object) (k : string) (v : value) :
  get o k = Some v -> set o k v = o.
Proof.
  induction o as [|[k0 v0] o IH]; simpl; [discriminate|].
  destruct (String.eqb_spec k0 k) as [->|Hne].
  - intros E. injection E as ->. reflexivity.
  - intros E. now rewrite IH.
Qed.

(** Merging again a payload whose entries are already merged in changes
    nothing: each entry either goes to the prototype or meets its own
    result. *)
Lemma merge_from_absorbed (src result : object) :
  (forall k v, In (k, v) src ->
               (k = "__proto__" /\ get result "__proto__" = None) \/
               exists m, get result k = Some m /\ merged_entry (Some m) v = m) ->
  forall proto, fst (merge_from result proto src) = result.
Proof.
  induction src as [|[k v] src IH]; intros H proto; [reflexivity|].
  rewrite merge_from_cons.
  destruct (H k v (or_introl eq_refl)) as [[-> Hnone]|(m & Hm & Hmm)].
  - rewrite (surjective_pairing (write result proto "__proto__" _ _)).
    rewrite write_proto by exact Hnone.
    apply IH. intros k' v' Hin. apply H. now right.
  - rewrite write_ordinary by (right; congruence).
    cbn [fst snd]. unfold read. rewrite Hm, Hmm, (set_same result k m Hm).
    apply IH. intros k' v' Hin. apply H. now right.
Qed.

Lemma get_in (o : object) (k : string) (v : value) :
  nodup_keys (keys o) = true -> In (k, v) o -> get o k = Some v.
Proof.
  induction o as [|[k0 v0] o IH]; simpl; [tauto|].
  intros Hnd Hin.
  change (nodup_keys (k0 :: keys o) = true) in Hnd.
  apply nodup_keys_cons in Hnd as [Hnotin Hnd].
  destruct Hin as [E|Hin].
  - injection E as -> ->. now rewrite String.eqb_refl.
  - destruct (String.eqb_spec k0 k) as [->|Hne]; [|auto].
    exfalso. apply Hnotin. unfold keys. apply in_map_iff.
    now exists (k, v).
Qed.

(** Where the merge leaves an entry of its payload: at the prototype, or in
    an own property that holds a merged entry. *)
Lemma merge_from_entry (src result : object) (proto : chain) (k : string)
    (v : value) :
  nodup_keys (keys src) = true ->
  get src k = Some v ->
  (k = "__proto__" /\ get (fst (merge_from result proto src)) "__proto__" = None) \/
  exists old, get (fst (merge_from result proto src)) k = Some (merged_entry old v).
Proof.
  intros Hnd Hk.
  destruct (String.eqb_spec k "__proto__") as [->|Hne];
    [|right; now apply get_merge_from_written].
  destruct (get result "__proto__") as [r|] eqn:E.
  - right. exists (Some r). now apply get_merge_from_own.
  - left. split; [reflexivity | now apply get_merge_from_proto].
Qed.

(** An entry merged onto its own result is that result. *)
Lemma merged_entry_idempotent (v : value) :
  wf_value v = true ->
  forall old, merged_entry (Some (merged_entry old v)) v = merged_entry old v.
Proof.
  induction v as [| | | | items _ | fields IH] using value_nested_ind;
    intros Hwf old; try reflexivity.
  rewrite !merged_entry_object. simpl (or_default (Some (JObj _)) _).
  simpl (spread (JObj _)). f_equal.
  apply merge_from_absorbed. intros k v Hin.
  assert (get fields k = Some v) as Hk
    by (apply get_in; [now apply wf_object_nodup | exact Hin]).
  destruct (merge_from_entry fields (spread (or_default old (JObj []))) [] k v)
    as [[-> Hnone]|[old' Hold']];
    [now apply wf_object_nodup | exact Hk | left; now split |].
  right. eexists. split; [exact Hold'|].
  rewrite Forall_forall in IH. apply (IH (k, v) Hin).
  exact (wf_object_get fields k v Hwf Hk).
Qed.

(** X2.  The merge is idempotent: merging a payload into the result of
    merging it gives that result again, so a retried update stores the same
    fields. *)
Theorem deepMerge_idempotent (target : value) (U : object) :
  wf_object U = true ->
  deepMerge (JObj (deepMerge target (JObj U))) (JObj U) =
  deepMerge target (JObj U).
Proof.
  intros Hwf. unfold deepMerge. simpl (spread (JObj _)).
  apply merge_from_absorbed. intros k v Hin.
  assert (get U k = Some v) as Hk
    by (apply get_in; [now apply wf_object_nodup | exact Hin]).
  destruct (merge_from_entry U (spread target) [] k v)
    as [[-> Hnone]|[old' Hold']];
    [now apply wf_object_nodup | exact Hk | left; now split |].
  right. eexists. split; [exact Hold'|].
  apply merged_entry_idempotent. exact (wf_object_get U k v Hwf Hk).
Qed.

Lemma deepMerge_idempotent_witness :
  deepMerge
    (JObj (deepMerge (JObj sample_record)
             (JObj [("city", JStr "Tokyo");
                    ("github", JObj [("followers", JNum 43)])])))
    (JObj [("city", JStr "Tokyo"); ("github", JObj [("followers", JNum 43)])]) =
  deepMerge (JObj sample_record)
    (JObj [("city", JStr "Tokyo"); ("github", JObj [("followers", JNum 43)])]).
Proof.
  apply (deepMerge_idempotent (JObj sample_record)
           [("city", JStr "Tokyo"); ("github", JObj [("followers", JNum 43)])]).
  reflexivity.
Defined.

(** *** Failed writes leave the storage alone *)

(** X3.  Whatever the request, an answer of the object other than 200 (a 404
    for a missing record, a 500 for a thrown error) comes with the storage
    exactly as it was before the request: a write either happens wholly or
    not at all. *)
Theorem store_write_is_atomic (clock : nat -> Z) (r : do_route) (st : storage) :
  status (fst (do_fetch clock r st)) <> 200 -> snd (do_fetch clock r st) = st.
Proof.
  unfold do_fetch. destruct r as [|req|req| |req].
  - simpl. destruct st; simpl; congruence.
  - unfold setData. destruct req; simpl; congruence.
  - unfold updateData. destruct st as [R|]; [|reflexivity].
    destruct (touch_updated _ _); simpl; congruence.
  - simpl. congruence.
  - unfold updateBookmarks.
    destruct req; try reflexivity;
      (destruct st as [R|]; [|reflexivity]);
      match goal with
      | |- context [reindex ?c ?b] => destruct (reindex c b) as [bms|e]
      end; cbn [bind]; try reflexivity;
      match goal with
      | |- context [touch_updated ?c ?b] =>
          destruct (touch_updated c b) as [R'|e]
      end; simpl; congruence.
Qed.

Lemma store_write_is_atomic_witness :
  snd (do_fetch (fun _ => 2000)
         (DoUpdate (JObj [("city", JStr "Tokyo"); ("timestamps", JNum 5)]))
         (Some sample_record)) = Some sample_record.
Proof.
  apply (store_write_is_atomic (fun _ => 2000)
           (DoUpdate (JObj [("city", JStr "Tokyo"); ("timestamps", JNum 5)]))
           (Some sample_record)).
  vm_compute. discriminate.
Defined.

(** *** Bookmark replacement: the edges *)

(** X4.  A bookmark request whose [bookmarks] field is missing, null or
    otherwise falsy is not rejected: it replaces the stored bookmarks by the
    empty array and answers success. *)
Theorem updateBookmarks_without_list_clears
    (clock : nat -> Z) (req : value) (R ts : object) :
  req <> JNull ->
  truthy (member req "bookmarks") = false ->
  get R "timestamps" = Some (JObj ts) ->
  exists R',
    updateBookmarks clock req (Some R) =
      (Return (jsonResponse
                 (JObj [("success", JBool true); ("bookmarks", JArr [])]) 200),
       Some R') /\
    get R' "bookmarks" = Some (JArr []) /\
    (forall k, k <> "bookmarks" -> k <> "timestamps" -> get R' k = get R k).
Proof.
  intros Hreq Hfalsy Hts.
  exists (set (set R "bookmarks" (JArr [])) "timestamps"
              (JObj (set ts "updated" (JNum (clock O))))).
  assert (reindex clock (member req "bookmarks") = Return []) as Hre.
  { unfold reindex. rewrite Hfalsy.
    destruct (member req "bookmarks") as [[| | | | |]|]; try reflexivity;
      discriminate. }
  split; [|split].
  - unfold updateBookmarks. rewrite Hre. cbn [bind length].
    unfold touch_updated. rewrite get_set_other by discriminate. rewrite Hts.
    destruct req; try contradiction; reflexivity.
  - rewrite get_set_other by discriminate. apply get_set_same.
  - intros k H1 H2. now rewrite !get_set_other by congruence.
Qed.

Lemma updateBookmarks_without_list_clears_witness :
  exists R',
    updateBookmarks (fun _ => 2000) (JObj []) (Some sample_record) =
      (Return (jsonResponse
                 (JObj [("success", JBool true); ("bookmarks", JArr [])]) 200),
       Some R') /\
    get R' "bookmarks" = Some (JArr []) /\
    (forall k, k <> "bookmarks" -> k <> "timestamps" ->
               get R' k = get sample_record k).
Proof.
  apply (updateBookmarks_without_list_clears (fun _ => 2000) (JObj [])
           sample_record sample_timestamps);
    [discriminate | reflexivity | reflexivity].
Defined.

Lemma toString36_nonempty (z : Z) (s : string) :
  String.eqb (toString 36 z ++ s) "" = false.
Proof.
  unfold toString. destruct (z <? 0); [reflexivity|].
  unfold N_toString.
  pose proof (digits_nonempty 36 ltac:(lia) (Z.to_N z)) as Hne.
  destruct (digits 36 (Z.to_N z)); [contradiction | reflexivity].
Qed.

Lemma or_default_truthy (a : option value) (d : value) :
  truthy (Some d) = true -> truthy (Some (or_default a d)) = true.
Proof.
  intros Hd. unfold or_default.
  destruct a as [v|]; [|exact Hd].
  destruct (truthy (Some v)) eqn:E; [exact E | exact Hd].
Qed.

Lemma or_default_of_truthy (v d : value) :
  truthy (Some v) = true -> or_default (Some v) d = v.
Proof. intros H. unfold or_default. now rewrite H. Qed.

(** An entry the map built is mapped to itself at the same position. *)
Lemma reindex_bookmark_fixed (now now' : Z) (index : nat) (bm b : value) :
  reindex_bookmark now index bm = Return b ->
  reindex_bookmark now' index b = Return b.
Proof.
  unfold reindex_bookmark at 1.
  assert (forall o, Return (JObj o) = Return b ->
                    reindex_bookmark now' index (JObj o) = Return (JObj o) ->
                    reindex_bookmark now' index b = Return b) as Hstep.
  { intros o E H. injection E as <-. exact H. }
  set (id := or_default (member bm "id")
               (JStr (toString 36 now ++ index_key index))).
  set (icon := or_default (member bm "icon") (JStr DEFAULT_ICON)).
  assert (truthy (Some id) = true) as Hid.
  { apply or_default_truthy. simpl. now rewrite toString36_nonempty. }
  assert (truthy (Some icon) = true) as Hicon
    by (apply or_default_truthy; reflexivity).
  intros E.
  assert (bm <> JNull) as Hbm by (intros ->; discriminate).
  assert (Return (JObj ([("id", id)] ++ field "name" (member bm "name") ++
                        field "url" (member bm "url") ++
                        [("icon", icon); ("order", JNum (Z.of_nat index))])%list)
          = Return b) as E'.
  { destruct bm; try contradiction; exact E. }
  apply (Hstep _ E'). clear E E' Hstep.
  unfold reindex_bookmark.
  destruct (member bm "name") as [n|]; destruct (member bm "url") as [u|];
    cbn [field app member get String.eqb Ascii.eqb Bool.eqb];
    rewrite (or_default_of_truthy id _ Hid), (or_default_of_truthy icon _ Hicon);
    reflexivity.
Qed.

Lemma reindex_from_fixed (clock clock' : nat -> Z) (bms : list value) :
  forall k out,
    reindex_from clock k bms = Return out ->
    reindex_from clock' k out = Return out.
Proof.
  induction bms as [|bm bms IH]; intros k out E; simpl in E.
  - injection E as <-. reflexivity.
  - destruct (reindex_bookmark (clock k) k bm) as [b|] eqn:Eb; [|discriminate].
    cbn [bind] in E.
    destruct (reindex_from clock (S k) bms) as [bs|] eqn:Ebs; [|discriminate].
    cbn [bind] in E. injection E as <-.
    simpl. rewrite (reindex_bookmark_fixed _ (clock' k) _ _ _ Eb). cbn [bind].
    rewrite (IH _ _ Ebs). reflexivity.
Qed.

(** X5.  Reindexing is idempotent: the array a replacement produced, sent
    back as it is at any later time, is stored unchanged (every entry has its
    id, icon and position already). *)
Theorem reindex_idempotent (clock clock' : nat -> Z) (bms out : list value) :
  reindex clock (Some (JArr bms)) = Return out ->
  reindex clock' (Some (JArr out)) = Return out.
Proof. unfold reindex. apply reindex_from_fixed. Qed.

Lemma reindex_idempotent_witness :
  reindex (fun _ => 9000)
    (Some (JArr [JObj [("id", JStr "loyw3v280"); ("name", JStr "Docs");
                       ("icon", JStr DEFAULT_ICON); ("order", JNum 0)];
                 JObj [("id", JStr "2"); ("name", JStr "GitHub");
                       ("icon", JStr DEFAULT_ICON); ("order", JNum 1)]])) =
  Return [JObj [("id", JStr "loyw3v280"); ("name", JStr "Docs");
                ("icon", JStr DEFAULT_ICON); ("order", JNum 0)];
          JObj [("id", JStr "2"); ("name", JStr "GitHub");
                ("icon", JStr DEFAULT_ICON); ("order", JNum 1)]].
Proof.
  apply (reindex_idempotent (fun _ => 1700000000000) (fun _ => 9000)
           [JObj [("name", JStr "Docs"); ("order", JNum 7)];
            JObj [("id", JStr "2"); ("name", JStr "GitHub")]]).
  reflexivity.
Defined.

(* ================================================================== *)
(** ** Further properties of the handlers                              *)
(* ================================================================== *)

(** *** What every request keeps *)

Lemma step_ok_refl (ns : namespace) : step_ok ns ns.
Proof.
  split; [|auto]. intros name R H. exists R. auto.
Qed.

(** An update whose payload has neither slug nor username, and under
    [timestamps] nothing or an object, keeps the record and its shape. *)
Lemma updateData_keeps (now : Z) (U R : object) :
  get U "slug" = None ->
  get U "username" = None ->
  nodup_keys (keys U) = true ->
  (get U "timestamps" = None \/ exists u, get U "timestamps" = Some (JObj u)) ->
  exists R',
    snd (updateData now (JObj U) (Some R)) = Some R' /\
    get R' "slug" = get R "slug" /\
    get R' "username" = get R "username" /\
    ((exists ts, get R "timestamps" = Some (JObj ts)) ->
     exists ts', get R' "timestamps" = Some (JObj ts')).
Proof.
  intros Hslug Huser Hnd Hts.
  unfold updateData, deepMerge. simpl spread.
  assert (get (merge_loop R U) "slug" = get R "slug") as E1
    by now apply get_merge_loop_absent.
  assert (get (merge_loop R U) "username" = get R "username") as E2
    by now apply get_merge_loop_absent.
  assert ((exists ts, get R "timestamps" = Some (JObj ts)) ->
          exists ts', get (merge_loop R U) "timestamps" = Some (JObj ts')) as E3.
  { intros [ts HR]. destruct Hts as [HU|[u HU]].
    - rewrite get_merge_loop_absent by exact HU. eauto.
    - unfold merge_loop.
      rewrite (get_merge_from_own U R [] _ (JObj u) (JObj ts) Hnd HU HR).
      rewrite merged_entry_object. eauto. }
  unfold touch_updated.
  destruct (get (merge_loop R U) "timestamps") as [[| | | |l|ts']|] eqn:Et.
  1-4: exists R; repeat split; auto;
    intros H; destruct (E3 H) as [? ?]; discriminate.
  - exists (merge_loop R U). repeat split; auto.
    intros H; destruct (E3 H) as [? ?]; discriminate.
  - eexists. split; [reflexivity|].
    rewrite !get_set_other by discriminate. repeat split; auto.
    intros _. rewrite get_set_same. eauto.
  - destruct (inherited _ "timestamps") as [[| | | |l|ts']|];
      [exists R | exists R | exists R | exists R | exists (merge_loop R U)
      | exists (merge_loop R U) | exists R];
      repeat split; auto;
      intros H; destruct (E3 H) as [? ?]; discriminate.
Qed.

Lemma stub_update_ok (clock : nat -> Z) (name : string) (U : object)
    (ns : namespace) :
  get U "slug" = None ->
  get U "username" = None ->
  nodup_keys (keys U) = true ->
  (get U "timestamps" = None \/ exists u, get U "timestamps" = Some (JObj u)) ->
  step_ok ns (snd (stub_fetch clock name (DoUpdate (JObj U)) ns)).
Proof.
  intros H1 H2 H3 H4.
  assert (forall name' R,
            ns name' = Some R ->
            exists R',
              snd (stub_fetch clock name (DoUpdate (JObj U)) ns) name' = Some R' /\
              get R' "slug" = get R "slug" /\
              get R' "username" = get R "username" /\
              ((exists ts, get R "timestamps" = Some (JObj ts)) ->
               exists ts', get R' "timestamps" = Some (JObj ts'))) as Hkey.
  { intros name' R HR. unfold stub_fetch, do_fetch.
    destruct (String.eqb_spec name name') as [<-|Hne].
    - rewrite HR.
      destruct (updateData_keeps (clock O) U R H1 H2 H3 H4)
        as (R' & E & Hs & Hu & Ht).
      destruct (updateData (clock O) (JObj U) (Some R)) as [[resp|e] st'];
        simpl in E |- *; unfold with_storage; rewrite String.eqb_refl;
        subst st'; eauto.
    - exists R.
      destruct (updateData (clock O) (JObj U) (ns name)) as [[resp|e] st'];
        simpl; unfold with_storage;
        (destruct (String.eqb_spec name name'); [contradiction|]); auto. }
  split.
  - intros name' R HR. destruct (Hkey name' R HR) as (R' & E & Hs & Hu & _).
    eauto.
  - intros Hinv name' R' HR'.
    destruct (ns name') as [R|] eqn:HR.
    + destruct (Hkey name' R HR) as (R'' & E & Hs & Hu & Ht).
      rewrite E in HR'. injection HR' as <-.
      destruct (Hinv name' R HR) as [Hts Hsl]. split; [auto|].
      now rewrite Hs.
    + exfalso. revert HR'. unfold stub_fetch, do_fetch.
      destruct (String.eqb_spec name name') as [<-|Hne].
      * rewrite HR. simpl. unfold with_storage. rewrite String.eqb_refl.
        discriminate.
      * destruct (updateData (clock O) (JObj U) (ns name)) as [[resp|e] st'];
          simpl; unfold with_storage;
          (destruct (String.eqb_spec name name'); [contradiction|]);
          congruence.
Qed.

Lemma updateBookmarks_keeps (clock : nat -> Z) (req : value) (R : object) :
  exists R',
    snd (updateBookmarks clock req (Some R)) = Some R' /\
    get R' "slug" = get R "slug" /\
    get R' "username" = get R "username" /\
    ((exists ts, get R "timestamps" = Some (JObj ts)) ->
     exists ts', get R' "timestamps" = Some (JObj ts')).
Proof.
  assert (exists R', Some R = Some R' /\ get R' "slug" = get R "slug" /\
                     get R' "username" = get R "username" /\
                     ((exists ts, get R "timestamps" = Some (JObj ts)) ->
                      exists ts', get R' "timestamps" = Some (JObj ts')))
    as Hsame by (exists R; auto).
  unfold updateBookmarks.
  destruct req; try exact Hsame;
    match goal with
    | |- context [reindex ?c ?b] => destruct (reindex c b) as [bms|e]
    end; cbn [bind]; try exact Hsame;
    unfold touch_updated;
    rewrite get_set_other by discriminate;
    (destruct (get R "timestamps") as [[| | | |l|ts]|] eqn:Et;
     cbn [bind snd]; try exact Hsame);
    eexists; (split; [reflexivity|]);
    rewrite ?get_set_other by discriminate; repeat split; auto.
  all: try (intros [? ?]; discriminate).
  all: intros _; rewrite get_set_same; eauto.
Qed.

Lemma stub_bookmarks_ok (clock : nat -> Z) (name : string) (req : value)
    (ns : namespace) :
  step_ok ns (snd (stub_fetch clock name (DoUpdateBookmarks req) ns)).
Proof.
  assert (forall name' R,
            ns name' = Some R ->
            exists R',
              snd (stub_fetch clock name (DoUpdateBookmarks req) ns) name'
                = Some R' /\
              get R' "slug" = get R "slug" /\
              get R' "username" = get R "username" /\
              ((exists ts, get R "timestamps" = Some (JObj ts)) ->
               exists ts', get R' "timestamps" = Some (JObj ts'))) as Hkey.
  { intros name' R HR. unfold stub_fetch, do_fetch.
    destruct (String.eqb_spec name name') as [<-|Hne].
    - rewrite HR.
      destruct (updateBookmarks_keeps clock req R) as (R' & E & Hs & Hu & Ht).
      destruct (updateBookmarks clock req (Some R)) as [[resp|e] st'];
        simpl in E |- *; unfold with_storage; rewrite String.eqb_refl;
        subst st'; eauto.
    - exists R.
      destruct (updateBookmarks clock req (ns name)) as [[resp|e] st'];
        simpl; unfold with_storage;
        (destruct (String.eqb_spec name name'); [contradiction|]); auto. }
  split.
  - intros name' R HR. destruct (Hkey name' R HR) as (R' & E & Hs & Hu & _).
    eauto.
  - intros Hinv name' R' HR'.
    destruct (ns name') as [R|] eqn:HR.
    + destruct (Hkey name' R HR) as (R'' & E & Hs & Hu & Ht).
      rewrite E in HR'. injection HR' as <-.
      destruct (Hinv name' R HR) as [Hts Hsl]. split; [auto|].
      now rewrite Hs.
    + exfalso. revert HR'. unfold stub_fetch, do_fetch.
      destruct (String.eqb_spec name name') as [<-|Hne].
      * rewrite HR. unfold updateBookmarks.
        destruct req; simpl; unfold with_storage; rewrite String.eqb_refl;
          discriminate.
      * destruct (updateBookmarks clock req (ns name)) as [[resp|e] st'];
          simpl; unfold with_storage;
          (destruct (String.eqb_spec name name'); [contradiction|]);
          congruence.
Qed.

Section HandlerInvariants.

Variable ToNumber : value -> option Z.
Variable XIAOMI_CITY_IDS : string -> option string.
Variable parseInt : option value -> outcome (option Z).
Variable round_parseFloat : value -> outcome (option Z).
Variable getXiaomiWeatherDesc : Z -> string.
Variable getXiaomiWeatherEmoji : Z -> string.
Variable getWeatherEmojiFromWttr : option Z -> string.
Variable xiaomi_api : string -> http_result.
Variable wttr_api : string -> http_result.
Variable fetchGitHubData : string -> outcome value.
Variable fetchRealNews : option value -> outcome (list value).
Variable extractSkills : option value -> outcome value.

Let generate := handleGenerate XIAOMI_CITY_IDS parseInt round_parseFloat
  getXiaomiWeatherDesc getXiaomiWeatherEmoji getWeatherEmojiFromWttr
  xiaomi_api wttr_api fetchGitHubData fetchRealNews extractSkills.

Let refresh := handleRefresh XIAOMI_CITY_IDS parseInt round_parseFloat
  getXiaomiWeatherDesc getXiaomiWeatherEmoji getWeatherEmojiFromWttr
  xiaomi_api wttr_api fetchGitHubData fetchRealNews extractSkills.

Let getUser := handleGetUser ToNumber XIAOMI_CITY_IDS parseInt round_parseFloat
  getXiaomiWeatherDesc getXiaomiWeatherEmoji getWeatherEmojiFromWttr
  xiaomi_api wttr_api fetchRealNews.

Let staleUpdates := stale_updates ToNumber XIAOMI_CITY_IDS parseInt
  round_parseFloat getXiaomiWeatherDesc getXiaomiWeatherEmoji
  getWeatherEmojiFromWttr xiaomi_api wttr_api fetchRealNews.

(** The payload a read builds: distinct keys among [cachedWeather],
    [timestamps] and [cachedNews], with an object under [timestamps]. *)
Lemma stale_updates_payload (now : Z) (R U : object) :
  staleUpdates now R = Return U ->
  get U "slug" = None /\ get U "username" = None /\
  nodup_keys (keys U) = true /\
  (get U "timestamps" = None \/ exists u, get U "timestamps" = Some (JObj u)).
Proof.
  unfold staleUpdates, stale_updates.
  destruct (isStale ToNumber now R "cachedWeather" "weatherUpdated" _)
    as [[|]|]; cbn [bind]; try discriminate.
  - destruct (weather _ _ _ _ _ _ _ _ _) as [w|]; cbn [bind];
      try discriminate.
    destruct (isStale ToNumber now R "cachedNews" "newsUpdated" _)
      as [[|]|]; cbn [bind]; try discriminate.
    + destruct (fetchRealNews _) as [n|]; cbn [bind]; try discriminate.
      intros E. injection E as <-. vm_compute. eauto 6.
    + intros E. injection E as <-. vm_compute. eauto 6.
  - destruct (isStale ToNumber now R "cachedNews" "newsUpdated" _)
      as [[|]|]; cbn [bind]; try discriminate.
    + destruct (fetchRealNews _) as [n|]; cbn [bind]; try discriminate.
      intros E. injection E as <-. vm_compute. eauto 6.
    + intros E. injection E as <-. vm_compute. auto.
Qed.

Lemma getUser_step (now : Z) (do_clock : nat -> Z) (apiPath : string)
    (ns : namespace) :
  step_ok ns (snd (getUser now do_clock apiPath ns)).
Proof.
  unfold getUser, handleGetUser.
  destruct (String.eqb _ ""); [apply step_ok_refl|].
  destruct (ns _) as [R|]; [|apply step_ok_refl].
  destruct (get R "slug") as [[| | |s| |]|]; try apply step_ok_refl.
  destruct (String.eqb s _); [|apply step_ok_refl].
  destruct (stale_updates _ _ _ _ _ _ _ _ _ _ now R) as [U|e] eqn:EU;
    [|apply step_ok_refl].
  destruct (stale_updates_payload now R U EU) as (H1 & H2 & H3 & H4).
  destruct U as [|kv U]; [apply step_ok_refl|].
  pose proof (stub_update_ok do_clock
                (toLowerCase (first_segment "-" (remove_first "/user/" apiPath)))
                (kv :: U) ns H1 H2 H3 H4) as Hstep.
  destruct (stub_fetch _ _ _ ns) as [resp ns']. exact Hstep.
Qed.

(** The record [setData] stores has an object under [timestamps] and the
    slug of the request. *)
Lemma setData_shape (now : Z) (req : value) (st : storage) (R : object) :
  snd (setData now req st) = Some R ->
  req <> JNull ->
  (exists ts, get R "timestamps" = Some (JObj ts)) /\
  get R "slug" = member req "slug".
Proof.
  intros E Hreq. unfold setData in E.
  destruct req as [| | | | |o]; try contradiction;
    cbn [snd] in E; injection E as <-; cbn [member];
    try (destruct (get o "username"); destruct (get o "slug"));
    cbn [field app get String.eqb Ascii.eqb Bool.eqb]; eauto.
Qed.

Lemma step_ok_trans (ns1 ns2 ns3 : namespace) :
  step_ok ns1 ns2 -> step_ok ns2 ns3 -> step_ok ns1 ns3.
Proof.
  intros [P1 I1] [P2 I2]. split; [|auto].
  intros name R HR.
  destruct (P1 name R HR) as (R' & HR' & Hs & Hu).
  destruct (P2 name R' HR') as (R'' & HR'' & Hs' & Hu').
  exists R''. repeat split; congruence.
Qed.

Lemma stub_get_ok (clock : nat -> Z) (name : string) (ns : namespace) :
  step_ok ns (snd (stub_fetch clock name DoGet ns)).
Proof.
  assert (forall name', snd (stub_fetch clock name DoGet ns) name' = ns name')
    as E.
  { intros name'. unfold stub_fetch, do_fetch. simpl. unfold with_storage.
    destruct (String.eqb_spec name name'); congruence. }
  split.
  - intros name' R HR. exists R. rewrite E. auto.
  - intros Hinv name' R HR. rewrite E in HR. auto.
Qed.

(** Creating a record under an identity that has none. *)
Lemma stub_set_ok (clock : nat -> Z) (name suffix : string) (req : value)
    (ns : namespace) :
  ns name = None ->
  req <> JNull ->
  member req "slug" = Some (JStr (name ++ "-" ++ suffix)) ->
  has_hyphen suffix = false ->
  step_ok ns (snd (stub_fetch clock name (DoSet req) ns)).
Proof.
  intros Hnone Hreq Hslug Hsuffix.
  assert (forall name', name' <> name ->
            snd (stub_fetch clock name (DoSet req) ns) name' = ns name') as E.
  { intros name' Hne. unfold stub_fetch, do_fetch.
    destruct (setData (clock O) req (ns name)) as [[resp|e] st']; simpl;
      unfold with_storage;
      destruct (String.eqb_spec name name'); congruence. }
  split.
  - intros name' R HR. exists R.
    rewrite E by congruence. auto.
  - intros Hinv name' R HR.
    destruct (String.eqb_spec name' name) as [->|Hne].
    + assert (snd (setData (clock O) req (ns name)) = Some R) as HR'.
      { revert HR. unfold stub_fetch, do_fetch.
        destruct (setData (clock O) req (ns name)) as [[resp|e] st']; simpl;
          unfold with_storage; now rewrite String.eqb_refl. }
      destruct (setData_shape _ _ _ _ HR' Hreq) as [Hts Hs].
      split; [exact Hts|]. exists suffix. split; [congruence | exact Hsuffix].
    + rewrite E in HR by exact Hne. auto.
Qed.

Lemma generate_step (clock do_clock : nat -> Z) (fraction : list N) (env : Env)
    (method : string) (req : value) (ns : namespace) :
  step_ok ns (snd (generate clock do_clock fraction env method req ns)).
Proof.
  unfold generate, handleGenerate.
  destruct (negb (String.eqb method "POST")); [apply step_ok_refl|].
  assert (forall username,
            member req "username" = Some (JStr username) -> req <> JNull)
    as Hreq by (intros u H ->; discriminate).
  destruct req as [| | | | |o]; cbn [member]; try apply step_ok_refl.
  destruct (truthy (get o "username")); cbn [negb]; [|apply step_ok_refl].
  destruct (get o "username") as [[| | |username| |]|];
    try apply step_ok_refl.
  destruct (ns (toLowerCase username)) as [R|] eqn:Hns.
  - pose proof (stub_update_ok do_clock (toLowerCase username)
                  (field "city" (get o "city") ++
                   field "interests" (get o "interests") ++
                   field "userBio" (get o "userBio"))%list ns) as Hstep.
    destruct (stub_fetch _ _ _ ns) as [resp ns']. cbn [snd] in *.
    apply Hstep.
    + apply generate_payload_keys; discriminate.
    + apply generate_payload_keys; discriminate.
    + apply generate_payload_nodup.
    + left. apply generate_payload_keys; discriminate.
  - destruct (github_data fetchGitHubData (get o "githubData") username)
      as [githubData|e]; cbn [bind]; [|apply step_ok_refl].
    destruct (generateAllAIContent extractSkills env githubData)
      as [[[[bio pd] quote] skills]|e]; cbn [bind]; [|apply step_ok_refl].
    destruct (fetchRealNews (get o "interests")) as [news|e]; cbn [bind];
      [|apply step_ok_refl].
    destruct (weather _ _ _ _ _ _ _ _ _) as [w|e]; cbn [bind];
      [|apply step_ok_refl].
    destruct (match images env with Some urls => urls | None => (JNull, JNull) end)
      as [backgroundUrl cardImageUrl].
    destruct (generateSlug_shape fraction username) as (suffix & Hshape & Hsuffix).
    match goal with
    | |- context [stub_fetch do_clock ?n (DoSet ?r) ns] =>
        pose proof (stub_set_ok do_clock n suffix r ns Hns) as Hstep;
        destruct (stub_fetch do_clock n (DoSet r) ns) as [resp ns']
    end.
    cbn [snd] in *. apply Hstep; [discriminate | | exact Hsuffix].
    cbn [member app field get String.eqb Ascii.eqb Bool.eqb].
    now rewrite Hshape.
Qed.

(** The payload of a refresh. *)
Lemma refresh_payload (g r : option value) (bio pd quote skills w : value)
    (news : list value) (t0 t1 t2 t3 : Z) (forced : option (value * value)) :
  let U :=
    (field "github" g ++ field "repos" r ++
     [("aiBio", bio); ("aiProjectDescriptions", pd); ("aiQuote", quote);
      ("skills", skills); ("cachedNews", JArr news); ("cachedWeather", w);
      ("timestamps", JObj
         ([("textGenerated", JNum t0); ("newsUpdated", JNum t1);
           ("weatherUpdated", JNum t2)] ++
          match forced with
          | Some _ => [("imageGenerated", JNum t3)]
          | None => []
          end))] ++
     match forced with
     | Some (backgroundUrl, cardImageUrl) =>
         [("aiBackgroundUrl", backgroundUrl); ("aiCardImageUrl", cardImageUrl)]
     | None => []
     end)%list in
  get U "slug" = None /\ get U "username" = None /\
  nodup_keys (keys U) = true /\
  (get U "timestamps" = None \/ exists u, get U "timestamps" = Some (JObj u)).
Proof.
  destruct g, r, forced as [[? ?]|]; cbn; eauto 6.
Qed.

Lemma refresh_step (clock do_clock : nat -> Z) (env : Env) (method : string)
    (req : value) (ns : namespace) :
  step_ok ns (snd (refresh clock do_clock env method req ns)).
Proof.
  unfold refresh, handleRefresh.
  destruct (negb (String.eqb method "POST")); [apply step_ok_refl|].
  destruct req as [| | | | |o]; cbn [member]; try apply step_ok_refl.
  destruct (truthy (get o "username")); cbn [negb]; [|apply step_ok_refl].
  destruct (get o "username") as [[| | |username| |]|];
    try apply step_ok_refl.
  destruct (ns (toLowerCase username)) as [R|] eqn:Hns; [|apply step_ok_refl].
  destruct (github_data fetchGitHubData (get o "githubData") username)
    as [githubData|e]; cbn [bind]; [|apply step_ok_refl].
  destruct (generateAllAIContent extractSkills env githubData)
    as [[[[bio pd] quote] skills]|e]; cbn [bind]; [|apply step_ok_refl].
  destruct (fetchRealNews (get R "interests")) as [news|e]; cbn [bind];
    [|apply step_ok_refl].
  destruct (weather _ _ _ _ _ _ _ _ _) as [w|e]; cbn [bind];
    [|apply step_ok_refl].
  match goal with
  | |- context [stub_fetch do_clock ?n (DoUpdate (JObj ?U)) ns] =>
      pose proof (stub_update_ok do_clock n U ns) as Hstep;
      destruct (stub_fetch do_clock n (DoUpdate (JObj U)) ns) as [resp ns1];
      pose proof (stub_get_ok do_clock n ns1) as Hget;
      destruct (stub_fetch do_clock n DoGet ns1) as [resp2 ns2]
  end.
  cbn [snd] in *.
  apply (step_ok_trans ns ns1 ns2); [|exact Hget].
  apply Hstep; apply refresh_payload.
Qed.

Lemma bookmarks_step (do_clock : nat -> Z) (method : string) (req : value)
    (ns : namespace) :
  step_ok ns (snd (handleUpdateBookmarks do_clock method req ns)).
Proof.
  unfold handleUpdateBookmarks.
  destruct (negb (String.eqb method "POST")); [apply step_ok_refl|].
  destruct req as [| | | | |o]; cbn [member]; try apply step_ok_refl.
  destruct (truthy (get o "username")); cbn [negb]; [|apply step_ok_refl].
  destruct (get o "username") as [[| | |username| |]|];
    try apply step_ok_refl.
  match goal with
  | |- context [stub_fetch do_clock ?n ?r ns] =>
      pose proof (stub_bookmarks_ok do_clock n
                    (JObj (field "bookmarks" (get o "bookmarks"))) ns) as Hstep;
      destruct (stub_fetch do_clock n r ns) as [resp ns']
  end.
  exact Hstep.
Qed.

(** X6.  No request handler deletes a record or touches its slug or its
    username: after a generate, refresh, get-user or bookmark request,
    whatever it carries and whatever the upstreams answer, every identity
    that had a record still has one, with the same slug and username. *)
Theorem handlers_keep_records
    (now : Z) (clock do_clock : nat -> Z) (fraction : list N) (env : Env)
    (method apiPath : string) (req : value) (ns : namespace) :
  persists ns (snd (generate clock do_clock fraction env method req ns)) /\
  persists ns (snd (refresh clock do_clock env method req ns)) /\
  persists ns (snd (getUser now do_clock apiPath ns)) /\
  persists ns (snd (handleUpdateBookmarks do_clock method req ns)).
Proof.
  split; [|split; [|split]].
  - exact (proj1 (generate_step clock do_clock fraction env method req ns)).
  - exact (proj1 (refresh_step clock do_clock env method req ns)).
  - exact (proj1 (getUser_step now do_clock apiPath ns)).
  - exact (proj1 (bookmarks_step do_clock method req ns)).
Qed.

(** X7.  The shape of the stored records is an invariant of the worker: the
    empty namespace has it, and every request handler preserves it.  In a
    namespace reached by requests from the empty one, every record has an
    object under [timestamps] and a slug made of its identity, a hyphen and a
    suffix without hyphen. *)
Theorem handlers_keep_store_invariant
    (now : Z) (clock do_clock : nat -> Z) (fraction : list N) (env : Env)
    (method apiPath : string) (req : value) (ns : namespace) :
  store_invariant (fun _ => None) /\
  (store_invariant ns ->
   store_invariant (snd (generate clock do_clock fraction env method req ns)) /\
   store_invariant (snd (refresh clock do_clock env method req ns)) /\
   store_invariant (snd (getUser now do_clock apiPath ns)) /\
   store_invariant (snd (handleUpdateBookmarks do_clock method req ns))).
Proof.
  split; [intros name R H; discriminate|].
  intros Hinv. split; [|split; [|split]].
  - exact (proj2 (generate_step clock do_clock fraction env method req ns) Hinv).
  - exact (proj2 (refresh_step clock do_clock env method req ns) Hinv).
  - exact (proj2 (getUser_step now do_clock apiPath ns) Hinv).
  - exact (proj2 (bookmarks_step do_clock method req ns) Hinv).
Qed.

(** *** Reads *)

Let fetchW := fetchWeather XIAOMI_CITY_IDS parseInt round_parseFloat
  getXiaomiWeatherDesc getXiaomiWeatherEmoji getWeatherEmojiFromWttr
  xiaomi_api wttr_api.

(** X8.  A read of a record whose weather and news are cached and within
    their windows has no effect: the reply is the stored record as it is, no
    upstream is consulted and nothing is written. *)
Theorem fresh_read_has_no_effect
    (now : Z) (do_clock : nat -> Z) (apiPath slug : string)
    (ns : namespace) (R ts : object) (tw tn : Z) :
  remove_first "/user/" apiPath = slug ->
  first_segment "-" slug <> "" ->
  ns (toLowerCase (first_segment "-" slug)) = Some R ->
  get R "slug" = Some (JStr slug) ->
  get R "timestamps" = Some (JObj ts) ->
  truthy (get R "cachedWeather") = true ->
  get ts "weatherUpdated" = Some (JNum tw) ->
  now - tw <= CONFIG.CACHE_TTL_WEATHER ->
  truthy (get R "cachedNews") = true ->
  get ts "newsUpdated" = Some (JNum tn) ->
  now - tn <= CONFIG.CACHE_TTL_NEWS ->
  getUser now do_clock apiPath ns =
    (Return (jsonResponse (JObj [("data", JObj R)]) 200), ns).
Proof.
  intros Hpath Hseg Hns Hslug Hts Hcw Htw Hfw Hcn Htn Hfn.
  unfold getUser, handleGetUser. rewrite Hpath.
  destruct (String.eqb_spec (first_segment "-" slug) "") as [E|_];
    [contradiction|].
  rewrite Hns, Hslug, String.eqb_refl.
  unfold stale_updates, isStale. rewrite Hcw, Hcn, Hts. simpl.
  rewrite Htw, Htn. simpl.
  replace (now - tw >? CONFIG.CACHE_TTL_WEATHER) with false by lia.
  replace (now - tn >? CONFIG.CACHE_TTL_NEWS) with false by lia.
  reflexivity.
Qed.

(** X9.  When a read refreshes the weather, the record in the reply is not
    the stored one: the reply is the record read, overwritten key by key
    with the update payload, so its [timestamps] holds nothing but
    [weatherUpdated], and its [cachedWeather] is the fetched artifact alone;
    the stored record keeps its other timestamps. *)
Theorem refreshing_read_replies_shallow_copy
    (now : Z) (do_clock : nat -> Z) (apiPath slug city : string)
    (ns : namespace) (R ts : object) (tw tn : Z) :
  remove_first "/user/" apiPath = slug ->
  first_segment "-" slug <> "" ->
  ns (toLowerCase (first_segment "-" slug)) = Some R ->
  get R "slug" = Some (JStr slug) ->
  get R "city" = Some (JStr city) ->
  get R "timestamps" = Some (JObj ts) ->
  get ts "weatherUpdated" = Some (JNum tw) ->
  now - tw > CONFIG.CACHE_TTL_WEATHER ->
  truthy (get R "cachedNews") = true ->
  get ts "newsUpdated" = Some (JNum tn) ->
  now - tn <= CONFIG.CACHE_TTL_NEWS ->
  exists (w : value) (data : object) (ns' : namespace) (R' : object),
    fetchW (Some (JStr city)) = Return w /\
    getUser now do_clock apiPath ns =
      (Return (jsonResponse (JObj [("data", JObj data)]) 200), ns') /\
    get data "timestamps" = Some (JObj [("weatherUpdated", JNum now)]) /\
    get data "cachedWeather" = Some w /\
    (forall k, k <> "cachedWeather" -> k <> "timestamps" ->
               get data k = get R k) /\
    ns' (toLowerCase (first_segment "-" slug)) = Some R' /\
    (forall k, k <> "weatherUpdated" -> k <> "updated" ->
               lookup (JObj R') ["timestamps"; k] = get ts k).
Proof.
  intros Hpath Hseg Hns Hslug Hcity Hts Htw Hstale Hnews Htn Hfresh.
  destruct (fetchWeather_returns XIAOMI_CITY_IDS parseInt round_parseFloat
              getXiaomiWeatherDesc getXiaomiWeatherEmoji
              getWeatherEmojiFromWttr xiaomi_api wttr_api city) as [w Hw].
  set (name := toLowerCase (first_segment "-" slug)) in *.
  set (ts1 := set ts "weatherUpdated" (JNum now)).
  set (cw := merged_entry (get R "cachedWeather") w).
  set (R1 := set (set R "cachedWeather" cw) "timestamps" (JObj ts1)).
  exists w,
    (set (set R "cachedWeather" w) "timestamps"
         (JObj [("weatherUpdated", JNum now)])),
    (with_storage ns name
       (Some (set R1 "timestamps"
                  (JObj (set ts1 "updated" (JNum (do_clock O))))))),
    (set R1 "timestamps" (JObj (set ts1 "updated" (JNum (do_clock O))))).
  assert (isStale ToNumber now R "cachedWeather" "weatherUpdated"
            CONFIG.CACHE_TTL_WEATHER = Return true) as HsW.
  { unfold isStale. destruct (truthy (get R "cachedWeather")); [|reflexivity].
    rewrite Hts. simpl. rewrite Htw. simpl. f_equal. lia. }
  assert (isStale ToNumber now R "cachedNews" "newsUpdated"
            CONFIG.CACHE_TTL_NEWS = Return false) as HsN.
  { unfold isStale. rewrite Hnews, Hts. simpl. rewrite Htn. simpl. f_equal. lia. }
  assert (get (set R "cachedWeather" cw) "timestamps" = Some (JObj ts)) as Hts1.
  { rewrite get_set_other by discriminate. exact Hts. }
  split; [exact Hw|]. split; [|split; [|split; [|split; [|split]]]].
  - unfold getUser, handleGetUser. rewrite Hpath.
    destruct (String.eqb_spec (first_segment "-" slug) "") as [E|_];
      [contradiction|].
    fold name. rewrite Hns, Hslug, String.eqb_refl.
    unfold stale_updates. rewrite HsW. cbn [bind].
    unfold weather. rewrite Hcity, Hw. cbn [bind].
    rewrite HsN.
    cbn [bind stamp_update set get String.eqb Ascii.eqb Bool.eqb].
    unfold stub_fetch, do_fetch, updateData. rewrite Hns.
    unfold deepMerge, deepMerge_prototype, merge_loop. cbn [spread].
    rewrite !merge_from_cons_plain by discriminate.
    fold cw. rewrite Hts1, merged_entry_object.
    cbn [or_default truthy spread]. unfold merge_loop.
    rewrite merge_from_cons_plain by discriminate.
    cbn [merge_from fst snd merged_entry merged].
    fold ts1. fold R1.
    unfold touch_updated. unfold R1 at 1. rewrite get_set_same.
    reflexivity.
  - apply get_set_same.
  - rewrite get_set_other by discriminate. apply get_set_same.
  - intros k Hk1 Hk2. now rewrite !get_set_other by congruence.
  - unfold with_storage. now rewrite String.eqb_refl.
  - intros k Hk1 Hk2. cbn [lookup]. rewrite !get_set_same. unfold ts1.
    rewrite !get_set_other by congruence. now destruct (get ts k).
Qed.

(** *** Create, then read *)

Lemma first_segment_app_hyphen (a b : string) :
  has_hyphen a = false -> first_segment "-" (a ++ "-" ++ b) = a.
Proof.
  induction a as [|c a IH]; [reflexivity|].
  intros H. cbn [has_hyphen] in H.
  change (String c a ++ "-" ++ b) with (String c (a ++ "-" ++ b)).
  cbn [first_segment].
  destruct (Ascii.eqb c "-"); [discriminate|].
  cbn [orb] in H. now rewrite IH.
Qed.

(** A successful first generation: the reply carries the generated slug, and
    the record stored under the lowercased username has it. *)
Lemma generate_new_run
    (clock do_clock : nat -> Z) (fraction : list N) (env : Env)
    (req : value) (ns ns' : namespace) (username : string) (resp : Response) :
  member req "username" = Some (JStr username) ->
  username <> "" ->
  ns (toLowerCase username) = None ->
  generate clock do_clock fraction env "POST" req ns = (Return resp, ns') ->
  status resp = 200 ->
  member (body resp) "isNew" = Some (JBool true) /\
  member (body resp) "slug" = Some (JStr (generateSlug fraction username)) /\
  exists R',
    ns' (toLowerCase username) = Some R' /\
    get R' "slug" = Some (JStr (generateSlug fraction username)).
Proof.
  intros Hname Hnonempty Hns Hrun Hstatus.
  destruct req as [| | | | |o]; try discriminate.
  simpl in Hname.
  unfold generate, handleGenerate in Hrun.
  cbn [negb String.eqb Ascii.eqb Bool.eqb member] in Hrun.
  rewrite Hname in Hrun. cbn [truthy] in Hrun.
  destruct (String.eqb_spec username "") as [->|_]; [contradiction|].
  cbn [negb] in Hrun. rewrite Hns in Hrun.
  destruct (github_data fetchGitHubData (get o "githubData") username)
    as [githubData|e]; cbn [bind] in Hrun;
    [|injection Hrun as <- <-; discriminate].
  destruct (generateAllAIContent extractSkills env githubData)
    as [[[[bio pd] quote] skills]|e]; cbn [bind] in Hrun;
    [|injection Hrun as <- <-; discriminate].
  destruct (fetchRealNews (get o "interests")) as [news|e]; cbn [bind] in Hrun;
    [|injection Hrun as <- <-; discriminate].
  destruct (weather _ _ _ _ _ _ _ _ _) as [w|e]; cbn [bind] in Hrun;
    [|injection Hrun as <- <-; discriminate].
  destruct (match images env with Some urls => urls | None => (JNull, JNull) end)
    as [backgroundUrl cardImageUrl].
  unfold stub_fetch, do_fetch, setData in Hrun.
  cbn [member app field get String.eqb Ascii.eqb Bool.eqb] in Hrun.
  injection Hrun as <- <-.
  split; [reflexivity|]. split; [reflexivity|].
  eexists. split.
  - unfold with_storage. rewrite String.eqb_refl. reflexivity.
  - reflexivity.
Qed.

Lemma url_plain_app (a b : string) :
  url_plain (a ++ b) = url_plain a && url_plain b.
Proof.
  induction a as [|c a IH]; cbn [append url_plain]; [reflexivity|].
  now rewrite IH, andb_assoc.
Qed.

Lemma url_plain_lower (c : ascii) :
  url_plain_char c = true -> url_plain_char (lower_ascii c) = true.
Proof. destruct c as [[] [] [] [] [] [] [] []]; vm_compute; congruence. Qed.

Lemma url_plain_toLowerCase (s : string) :
  url_plain s = true -> url_plain (toLowerCase s) = true.
Proof.
  induction s as [|c s IH]; cbn [url_plain toLowerCase]; [reflexivity|].
  intros H. apply andb_true_iff in H as [H1 H2].
  now rewrite url_plain_lower, IH.
Qed.

Lemma url_plain_digit (d : N) : url_plain_char (digit_char d) = true.
Proof.
  unfold digit_char.
  destruct (nth_in_or_default (N.to_nat d) alphabet "z"%char) as [Hin| ->];
    [|reflexivity].
  revert Hin. generalize (nth (N.to_nat d) alphabet "z"%char). intros c.
  vm_compute. intros H.
  repeat (destruct H as [<-|H]; [reflexivity|]). contradiction.
Qed.

Lemma url_plain_digits (ds : list N) :
  url_plain (string_of_list_ascii (map digit_char ds)) = true.
Proof.
  induction ds as [|d ds IH]; cbn [map string_of_list_ascii url_plain];
    [reflexivity|].
  now rewrite url_plain_digit, IH.
Qed.

(** The slug made for a plain username is plain. *)
Lemma url_plain_generateSlug (fraction : list N) (username : string) :
  url_plain username = true -> url_plain (generateSlug fraction username) = true.
Proof.
  intros H. unfold generateSlug.
  rewrite !url_plain_app, url_plain_toLowerCase, url_plain_digits by exact H.
  reflexivity.
Qed.

(** X10.  Create, then read.  After a successful first generation for a
    username without hyphen, made of characters that the path of a URL
    carries as they are (ASCII letters, digits, [_] and [~]), the slug of
    the reply is made of such characters too, and a get-user request whose
    path ends in that slug finds the record: it never answers "Invalid
    slug" or "User not found" (it answers 200, unless a refresh of a stale
    category throws). *)
Theorem created_user_is_found
    (clock do_clock : nat -> Z) (fraction : list N) (env : Env)
    (req : value) (ns ns' : namespace) (username : string) (resp : Response) :
  member req "username" = Some (JStr username) ->
  username <> "" ->
  has_hyphen username = false ->
  url_plain username = true ->
  ns (toLowerCase username) = None ->
  generate clock do_clock fraction env "POST" req ns = (Return resp, ns') ->
  status resp = 200 ->
  exists slug,
    member (body resp) "slug" = Some (JStr slug) /\
    url_plain slug = true /\
    forall now do_clock',
      match fst (getUser now do_clock' ("/user/" ++ slug) ns') with
      | Return r => status r = 200
      | Throw _ => True
      end.
Proof.
  intros Hname Hnonempty Hhyphen Hplain Hns Hrun Hstatus.
  destruct (generate_new_run clock do_clock fraction env req ns ns' username
              resp Hname Hnonempty Hns Hrun Hstatus)
    as (_ & Hslug & R' & HR' & HslugR).
  exists (generateSlug fraction username). split; [exact Hslug|].
  split; [now apply url_plain_generateSlug|].
  intros now do_clock'.
  unfold getUser, handleGetUser. rewrite remove_first_user.
  assert (first_segment "-" (generateSlug fraction username) =
          toLowerCase username) as Hseg.
  { unfold generateSlug. apply first_segment_app_hyphen.
    now rewrite has_hyphen_toLowerCase. }
  rewrite Hseg, toLowerCase_idempotent.
  destruct (String.eqb_spec (toLowerCase username) "") as [E|_].
  { destruct username; [contradiction | discriminate]. }
  rewrite HR', HslugR, String.eqb_refl.
  destruct (stale_updates _ _ _ _ _ _ _ _ _ _ now R') as [[|kv U]|e];
    try reflexivity.
  destruct (stub_fetch _ _ _ ns'). reflexivity.
Qed.

(** *** The portfolio page *)

Variable servePortfolioPage : object -> outcome string.
Variable serveSocialPreviewPage : object -> outcome string.

Let page := handlePortfolioPage ToNumber XIAOMI_CITY_IDS parseInt
  round_parseFloat getXiaomiWeatherDesc getXiaomiWeatherEmoji
  getWeatherEmojiFromWttr xiaomi_api wttr_api fetchRealNews
  servePortfolioPage serveSocialPreviewPage.

Lemma page_slug_p (slug : string) : page_slug ("/p/" ++ slug) = Some slug.
Proof.
  unfold page_slug.
  change (String.prefix "/p/" ("/p/" ++ slug)) with (String.prefix "" slug).
  rewrite prefix_empty. f_equal.
  cbn. rewrite prefix_empty, Nat.sub_0_r. apply substring_all.
Qed.

Lemma page_slug_at (slug : string) : page_slug ("/@" ++ slug) = Some slug.
Proof.
  unfold page_slug.
  change (String.prefix "/p/" ("/@" ++ slug)) with false.
  change (String.prefix "/@" ("/@" ++ slug)) with (String.prefix "" slug).
  rewrite prefix_empty. f_equal.
  cbn. rewrite prefix_empty, Nat.sub_0_r. apply substring_all.
Qed.

Lemma first_segment_whole (s : string) :
  has_hyphen s = false -> first_segment "-" s = s.
Proof.
  induction s as [|c s IH]; cbn [has_hyphen first_segment]; [reflexivity|].
  destruct (Ascii.eqb c "-"); cbn [orb]; [discriminate|].
  intros H. now rewrite IH.
Qed.

(** X11.  The page and the API read alike.  When a get-user request for a
    slug is answered 200, a page request for that slug that does not come
    from a social bot, at the same time and store, leaves the same store and
    hands the portfolio renderer the very record the API replied with, under
    [/p/] as under [/@]: its answer is the document the renderer makes of
    that record, or the exception the renderer throws on it.  When the API
    request throws, so does the page request. *)
Theorem page_agrees_with_api (now : Z) (do_clock : nat -> Z)
    (userAgent : option string) (slug : string) (ns : namespace) :
  isBot userAgent = false ->
  match getUser now do_clock ("/user/" ++ slug) ns with
  | (Return resp, ns') =>
      status resp = 200 ->
      exists data,
        body resp = JObj [("data", JObj data)] /\
        page now do_clock userAgent ("/p/" ++ slug) ns
        = (rendered (servePortfolioPage data), ns') /\
        page now do_clock userAgent ("/@" ++ slug) ns
        = (rendered (servePortfolioPage data), ns')
  | (Throw e, ns') =>
      page now do_clock userAgent ("/p/" ++ slug) ns = (Throw e, ns') /\
      page now do_clock userAgent ("/@" ++ slug) ns = (Throw e, ns')
  end.
Proof.
  intros Hbot.
  unfold getUser, page, handleGetUser, handlePortfolioPage.
  rewrite remove_first_user, page_slug_p, page_slug_at.
  destruct (String.eqb_spec slug "") as [->|_]; [cbn; discriminate|].
  destruct (String.eqb_spec (first_segment "-" slug) "") as [_|_];
    [discriminate|].
  destruct (ns (toLowerCase (first_segment "-" slug))) as [R|];
    [|discriminate].
  destruct (get R "slug") as [[| | |s| |]|]; try discriminate.
  destruct (String.eqb s slug); [|discriminate].
  cbn [negb andb]. rewrite Hbot.
  destruct (stale_updates _ _ _ _ _ _ _ _ _ _ now R) as [[|kv U]|e].
  - intros _. exists R. repeat split.
  - destruct (stub_fetch _ _ _ ns) as [r ns']. intros _.
    eexists. repeat split.
  - split; reflexivity.
Qed.

(** X12.  The page without the random suffix.  For a stored user whose
    username has no hyphen and is made of characters that the path of a URL
    carries as they are, the path [/p/<username>] reaches a renderer: for a
    bot the answer is what the preview renderer makes of the stored record;
    otherwise the refresh of a stale category throws, or the answer is what
    the portfolio renderer makes of the stored record with the refreshed
    categories assigned (in both cases a document, or the exception the
    renderer throws).  The API, asked for [/user/<username>], answers 404,
    since the stored slug differs from the bare username. *)
Theorem page_without_suffix (now : Z) (do_clock : nat -> Z)
    (userAgent : option string) (username : string) (ns : namespace)
    (R : object) (s : string) :
  username <> "" ->
  has_hyphen username = false ->
  url_plain username = true ->
  ns (toLowerCase username) = Some R ->
  get R "slug" = Some (JStr s) ->
  s <> username ->
  getUser now do_clock ("/user/" ++ username) ns
  = (Return (jsonResponse (JObj [("error", JStr "User not found")]) 404), ns) /\
  if isBot userAgent
  then page now do_clock userAgent ("/p/" ++ username) ns
       = (rendered (serveSocialPreviewPage R), ns)
  else match staleUpdates now R with
       | Throw e =>
           page now do_clock userAgent ("/p/" ++ username) ns = (Throw e, ns)
       | Return updates =>
           fst (page now do_clock userAgent ("/p/" ++ username) ns)
           = rendered (servePortfolioPage (assign R updates))
       end.
Proof.
  intros Hnonempty Hhyphen _ Hns Hslug Hne.
  unfold getUser, page, handleGetUser, handlePortfolioPage.
  rewrite remove_first_user, page_slug_p, first_segment_whole by exact Hhyphen.
  destruct (String.eqb_spec username "") as [E|_]; [contradiction|].
  rewrite Hns, Hslug.
  destruct (String.eqb_spec s username) as [E|_]; [contradiction|].
  split; [reflexivity|].
  rewrite String.eqb_refl. cbn [negb andb].
  destruct (isBot userAgent); [reflexivity|].
  unfold staleUpdates.
  destruct (stale_updates _ _ _ _ _ _ _ _ _ _ now R) as [[|kv U]|e];
    cbn [fst]; try reflexivity.
  destruct (stub_fetch _ _ _ ns) as [r ns']. reflexivity.
Qed.

(** *** The fields of the user *)

Lemma keeps_field_refl (k : string) (ns : namespace) : keeps_field k ns ns.
Proof. intros name R HR. eauto. Qed.

Lemma keeps_field_trans (k : string) (ns1 ns2 ns3 : namespace) :
  keeps_field k ns1 ns2 -> keeps_field k ns2 ns3 -> keeps_field k ns1 ns3.
Proof.
  intros H1 H2 name R HR.
  destruct (H1 name R HR) as (R' & HR' & E).
  destruct (H2 name R' HR') as (R'' & HR'' & E').
  exists R''. split; congruence.
Qed.

(** An update leaves a key that its payload does not have. *)
Lemma updateData_untouched (now : Z) (U R : object) (k : string) :
  k <> "timestamps" ->
  get U k = None ->
  exists R',
    snd (updateData now (JObj U) (Some R)) = Some R' /\ get R' k = get R k.
Proof.
  intros Hk HU. unfold updateData, deepMerge, touch_updated. simpl spread.
  pose proof (get_merge_loop_absent U R k HU) as E.
  destruct (get (merge_loop R U) "timestamps") as [[| | | | |ts]|];
    cbn [snd]; eauto.
  - eexists. split; [reflexivity|].
    rewrite get_set_other by congruence. exact E.
  - destruct (inherited _ "timestamps") as [[| | | | |ts]|]; cbn [snd]; eauto.
Qed.

Lemma stub_update_keeps_field (clock : nat -> Z) (name : string) (U : object)
    (ns : namespace) (k : string) :
  k <> "timestamps" ->
  get U k = None ->
  keeps_field k ns (snd (stub_fetch clock name (DoUpdate (JObj U)) ns)).
Proof.
  intros Hk HU name' R HR. unfold stub_fetch, do_fetch.
  destruct (String.eqb_spec name name') as [<-|Hne].
  - rewrite HR.
    destruct (updateData_untouched (clock O) U R k Hk HU) as (R' & E & Hget).
    destruct (updateData (clock O) (JObj U) (Some R)) as [[resp|e] st'];
      cbn [snd] in *; subst st'; exists R'; (split; [|exact Hget]);
      unfold with_storage; now rewrite String.eqb_refl.
  - destruct (match updateData (clock O) (JObj U) (ns name) with
              | (Return resp, st') => (resp, st')
              | (Throw e, st') => (mkResponse 500 (JObj [("error", JStr e)]), st')
              end) as [resp st'] eqn:E.
    exists R. split; [|reflexivity].
    destruct (updateData (clock O) (JObj U) (ns name)) as [[r|e] st''];
      cbn [snd]; unfold with_storage;
      (destruct (String.eqb_spec name name'); [contradiction | exact HR]).
Qed.

Lemma stub_get_keeps_field (clock : nat -> Z) (name : string) (ns : namespace)
    (k : string) :
  keeps_field k ns (snd (stub_fetch clock name DoGet ns)).
Proof.
  intros name' R HR. exists R. split; [|reflexivity].
  unfold stub_fetch, do_fetch. simpl. unfold with_storage.
  destruct (String.eqb_spec name name'); congruence.
Qed.

(** The payload of a read has no other keys than the two caches and
    [timestamps]. *)
Lemma stale_updates_keys (now : Z) (R U : object) (k : string) :
  staleUpdates now R = Return U ->
  k <> "cachedWeather" -> k <> "cachedNews" -> k <> "timestamps" ->
  get U k = None.
Proof.
  intros E H1 H2 H3. apply get_none_not_in. revert E.
  unfold staleUpdates, stale_updates.
  destruct (isStale ToNumber now R "cachedWeather" "weatherUpdated" _)
    as [[|]|]; cbn [bind]; try discriminate.
  - destruct (weather _ _ _ _ _ _ _ _ _) as [w|]; cbn [bind];
      try discriminate.
    destruct (isStale ToNumber now R "cachedNews" "newsUpdated" _)
      as [[|]|]; cbn [bind]; try discriminate.
    + destruct (fetchRealNews _) as [n|]; cbn [bind]; try discriminate.
      intros E. injection E as <-. vm_compute; intros H;
        repeat (destruct H as [H|H]; [symmetry in H; contradiction|]); exact H.
    + intros E. injection E as <-. vm_compute; intros H;
        repeat (destruct H as [H|H]; [symmetry in H; contradiction|]); exact H.
  - destruct (isStale ToNumber now R "cachedNews" "newsUpdated" _)
      as [[|]|]; cbn [bind]; try discriminate.
    + destruct (fetchRealNews _) as [n|]; cbn [bind]; try discriminate.
      intros E. injection E as <-. vm_compute; intros H;
        repeat (destruct H as [H|H]; [symmetry in H; contradiction|]); exact H.
    + intros E. injection E as <-. vm_compute; intros H; exact H.
Qed.

(** The payload of a forced refresh has none of the user's fields. *)
Lemma refresh_payload_keys (g r : option value) (bio pd quote skills w : value)
    (news : list value) (t0 t1 t2 t3 : Z) (forced : option (value * value))
    (k : string) :
  In k USER_FIELDS ->
  get (field "github" g ++ field "repos" r ++
       [("aiBio", bio); ("aiProjectDescriptions", pd); ("aiQuote", quote);
        ("skills", skills); ("cachedNews", JArr news); ("cachedWeather", w);
        ("timestamps", JObj
           ([("textGenerated", JNum t0); ("newsUpdated", JNum t1);
             ("weatherUpdated", JNum t2)] ++
            match forced with
            | Some _ => [("imageGenerated", JNum t3)]
            | None => []
            end))] ++
       match forced with
       | Some (backgroundUrl, cardImageUrl) =>
           [("aiBackgroundUrl", backgroundUrl); ("aiCardImageUrl", cardImageUrl)]
       | None => []
       end)%list k = None.
Proof.
  intros Hk. cbn [USER_FIELDS In] in Hk.
  destruct Hk as [<-|[<-|[<-|[<-|[]]]]];
    destruct g, r, forced as [[? ?]|]; reflexivity.
Qed.

(** X13.  A refresh and a read rewrite none of what the user entered:
    after a refresh or a get-user request, whatever it carries and whatever
    the upstreams answer, every stored record has the city, the interests,
    the biography note and the bookmarks it had. *)
Theorem refresh_and_read_keep_user_fields
    (now : Z) (clock do_clock : nat -> Z) (env : Env)
    (method apiPath : string) (req : value) (ns : namespace) (k : string) :
  In k USER_FIELDS ->
  keeps_field k ns (snd (refresh clock do_clock env method req ns)) /\
  keeps_field k ns (snd (getUser now do_clock apiPath ns)).
Proof.
  intros Hk.
  assert (k <> "timestamps" /\ k <> "cachedWeather" /\ k <> "cachedNews")
    as (Hts & Hcw & Hcn).
  { cbn [USER_FIELDS In] in Hk.
    destruct Hk as [<-|[<-|[<-|[<-|[]]]]]; repeat split; discriminate. }
  split.
  - unfold refresh, handleRefresh.
    destruct (negb (String.eqb method "POST")); [apply keeps_field_refl|].
    destruct req as [| | | | |o]; cbn [member]; try apply keeps_field_refl.
    destruct (truthy (get o "username")); cbn [negb]; [|apply keeps_field_refl].
    destruct (get o "username") as [[| | |username| |]|];
      try apply keeps_field_refl.
    destruct (ns (toLowerCase username)) as [R|] eqn:Hns;
      [|apply keeps_field_refl].
    destruct (github_data fetchGitHubData (get o "githubData") username)
      as [githubData|e]; cbn [bind]; [|apply keeps_field_refl].
    destruct (generateAllAIContent extractSkills env githubData)
      as [[[[bio pd] quote] skills]|e]; cbn [bind]; [|apply keeps_field_refl].
    destruct (fetchRealNews (get R "interests")) as [news|e]; cbn [bind];
      [|apply keeps_field_refl].
    destruct (weather _ _ _ _ _ _ _ _ _) as [w|e]; cbn [bind];
      [|apply keeps_field_refl].
    match goal with
    | |- context [stub_fetch do_clock ?n (DoUpdate (JObj ?U)) ns] =>
        pose proof (stub_update_keeps_field do_clock n U ns k Hts) as Hstep;
        destruct (stub_fetch do_clock n (DoUpdate (JObj U)) ns) as [resp ns1];
        pose proof (stub_get_keeps_field do_clock n ns1 k) as Hget;
        destruct (stub_fetch do_clock n DoGet ns1) as [resp2 ns2]
    end.
    cbn [snd] in *.
    apply (keeps_field_trans k ns ns1 ns2); [|exact Hget].
    apply Hstep. now apply refresh_payload_keys.
  - unfold getUser, handleGetUser.
    destruct (String.eqb _ ""); [apply keeps_field_refl|].
    destruct (ns _) as [R|]; [|apply keeps_field_refl].
    destruct (get R "slug") as [[| | |s| |]|]; try apply keeps_field_refl.
    destruct (String.eqb s _); [|apply keeps_field_refl].
    destruct (stale_updates _ _ _ _ _ _ _ _ _ _ now R) as [U|e] eqn:EU;
      [|apply keeps_field_refl].
    pose proof (stale_updates_keys now R U k EU Hcw Hcn Hts) as HU.
    destruct U as [|kv U]; [apply keeps_field_refl|].
    pose proof (stub_update_keeps_field do_clock
                  (toLowerCase (first_segment "-"
                                  (remove_first "/user/" apiPath)))
                  (kv :: U) ns k Hts HU) as Hstep.
    destruct (stub_fetch _ _ _ ns) as [resp ns']. exact Hstep.
Qed.

(** *** Bookmarks written, bookmarks read *)

Lemma get_assign_absent (U R : object) (k : string) :
  get U k = None -> get (assign R U) k = get R k.
Proof.
  unfold assign. revert R.
  induction U as [|[k' v'] U IH]; intros R H; cbn [fold_left fst snd];
    [reflexivity|].
  cbn [get] in H. destruct (String.eqb_spec k' k) as [->|Hne]; [discriminate|].
  rewrite IH by exact H. now apply get_set_other.
Qed.

(** X14.  Bookmarks written are the bookmarks read.  In a store that has
    the shape of the invariant, a bookmark request for a stored user whose
    username has no hyphen, carrying an array the re-indexing accepts, is
    answered 200 with the re-indexed array; and, the user's slug being made
    of characters that the path of a URL carries as they are, every later
    get-user request whose path ends in that slug and that is answered, is
    answered 200 with exactly that array under [bookmarks], whether or not
    the read refreshes a cache. *)
Theorem bookmarks_written_are_read
    (do_clock : nat -> Z) (req : value) (ns : namespace) (username : string)
    (bms out : list value) (R : object) (slug : string) :
  store_invariant ns ->
  member req "username" = Some (JStr username) ->
  username <> "" ->
  has_hyphen username = false ->
  ns (toLowerCase username) = Some R ->
  get R "slug" = Some (JStr slug) ->
  url_plain slug = true ->
  member req "bookmarks" = Some (JArr bms) ->
  reindex do_clock (Some (JArr bms)) = Return out ->
  exists ns',
    handleUpdateBookmarks do_clock "POST" req ns
    = (Return (jsonResponse
                 (JObj [("success", JBool true); ("bookmarks", JArr out)]) 200),
       ns') /\
    forall now do_clock',
      match fst (getUser now do_clock' ("/user/" ++ slug) ns') with
      | Return r =>
          exists data,
            r = jsonResponse (JObj [("data", JObj data)]) 200 /\
            get data "bookmarks" = Some (JArr out)
      | Throw _ => True
      end.
Proof.
  intros Hinv Hname Hnonempty Hhyphen Hns Hstored _ Hbms Hout.
  destruct (Hinv _ _ Hns) as [[ts Hts] (suffix & Hslug & Hsuffix)].
  assert (slug = toLowerCase username ++ "-" ++ suffix) as -> by congruence.
  destruct req as [| | | | |o]; try discriminate. cbn [member] in Hname, Hbms.
  unfold handleUpdateBookmarks.
  cbn [negb String.eqb Ascii.eqb Bool.eqb member].
  rewrite Hname, Hbms. cbn [truthy].
  destruct (String.eqb_spec username "") as [->|_]; [contradiction|].
  cbn [negb field].
  unfold stub_fetch, do_fetch, updateBookmarks. rewrite Hns.
  cbn [member get String.eqb Ascii.eqb Bool.eqb].
  rewrite Hout. cbn [bind]. unfold touch_updated.
  rewrite get_set_other by discriminate. rewrite Hts. cbn [bind].
  set (R' := set (set R "bookmarks" (JArr out)) "timestamps" _).
  assert (get R' "slug" = Some (JStr (toLowerCase username ++ "-" ++ suffix)))
    as HslugR'.
  { unfold R'. now rewrite !get_set_other by discriminate. }
  assert (get R' "bookmarks" = Some (JArr out)) as HbmsR'.
  { unfold R'. rewrite get_set_other by discriminate. apply get_set_same. }
  clearbody R'.
  eexists. split; [reflexivity|].
  intros now do_clock'.
  unfold getUser, handleGetUser. rewrite remove_first_user.
  rewrite first_segment_app_hyphen by now rewrite has_hyphen_toLowerCase.
  rewrite toLowerCase_idempotent.
  destruct (String.eqb_spec (toLowerCase username) "") as [E|_].
  { destruct username; [contradiction | discriminate]. }
  unfold with_storage at 1. rewrite String.eqb_refl.
  rewrite HslugR', String.eqb_refl.
  destruct (stale_updates _ _ _ _ _ _ _ _ _ _ now R') as [U|e] eqn:EU;
    [|exact I].
  assert (get U "bookmarks" = None) as HU
    by (apply (stale_updates_keys now R' U "bookmarks" EU); discriminate).
  destruct U as [|kv U]; cbn [fst].
  - exists R'. split; [reflexivity | exact HbmsR'].
  - destruct (stub_fetch _ _ _ _) as [r ns'']. cbn [fst].
    eexists. split; [reflexivity|].
    now rewrite get_assign_absent.
Qed.

End HandlerInvariants.

Lemma sample_namespace_invariant : store_invariant sample_namespace.
Proof.
  intros name R. unfold sample_namespace, with_storage.
  destruct (String.eqb_spec "octocat" name) as [<-|_]; [|discriminate].
  intros E. injection E as <-. split.
  - exists sample_timestamps. reflexivity.
  - exists "k3x9a1". split; reflexivity.
Qed.

Lemma handlers_keep_store_invariant_witness :
  store_invariant
    (snd (handleGenerate no_code no_parse no_float (fun _ => "") (fun _ => "")
            (fun _ => "") unreachable unreachable sample_github sample_news
            sample_skills (fun _ => 5000) (fun _ => 5000) [10; 11; 12]%N
            sample_env "POST" (JObj [("username", JStr "Hubot")])
            sample_namespace)).
Proof.
  destruct (handlers_keep_store_invariant no_number no_code no_parse no_float
              (fun _ => "") (fun _ => "") (fun _ => "") unreachable unreachable
              sample_github sample_news sample_skills
              6000 (fun _ => 5000) (fun _ => 5000) [10; 11; 12]%N sample_env
              "POST" "/user/octocat-k3x9a1" (JObj [("username", JStr "Hubot")])
              sample_namespace) as [_ H].
  apply H. exact sample_namespace_invariant.
Defined.

Lemma fresh_read_has_no_effect_witness :
  handleGetUser no_number no_code no_parse no_float (fun _ => "") (fun _ => "")
    (fun _ => "") unreachable unreachable sample_news
    (1000 + 60 * 1000) (fun _ => 0) "/user/octocat-k3x9a1" sample_namespace =
  (Return (jsonResponse (JObj [("data", JObj sample_record)]) 200),
   sample_namespace).
Proof.
  apply (fresh_read_has_no_effect no_number no_code no_parse no_float
           (fun _ => "") (fun _ => "") (fun _ => "") unreachable unreachable
           sample_news (1000 + 60 * 1000) (fun _ => 0)
           "/user/octocat-k3x9a1" "octocat-k3x9a1" sample_namespace
           sample_record sample_timestamps 1000 1000);
    try reflexivity; try discriminate.
Defined.

Lemma refreshing_read_replies_shallow_copy_witness :
  exists (w : value) (data : object) (ns' : namespace) (R' : object),
    fetchWeather no_code no_parse no_float (fun _ => "") (fun _ => "")
      (fun _ => "") unreachable unreachable (Some (JStr "Beijing")) = Return w /\
    handleGetUser no_number no_code no_parse no_float (fun _ => "") (fun _ => "")
      (fun _ => "") unreachable unreachable sample_news
      (1000 + 31 * 60 * 1000) (fun _ => 1000 + 31 * 60 * 1000 + 5)
      "/user/octocat-k3x9a1" sample_namespace =
      (Return (jsonResponse (JObj [("data", JObj data)]) 200), ns') /\
    get data "timestamps" =
      Some (JObj [("weatherUpdated", JNum (1000 + 31 * 60 * 1000))]) /\
    get data "cachedWeather" = Some w /\
    (forall k, k <> "cachedWeather" -> k <> "timestamps" ->
               get data k = get sample_record k) /\
    ns' (toLowerCase (first_segment "-" "octocat-k3x9a1")) = Some R' /\
    (forall k, k <> "weatherUpdated" -> k <> "updated" ->
               lookup (JObj R') ["timestamps"; k] = get sample_timestamps k).
Proof.
  apply (refreshing_read_replies_shallow_copy no_number no_code no_parse
           no_float (fun _ => "") (fun _ => "") (fun _ => "") unreachable
           unreachable sample_news (1000 + 31 * 60 * 1000)
           (fun _ => 1000 + 31 * 60 * 1000 + 5)
           "/user/octocat-k3x9a1" "octocat-k3x9a1" "Beijing" sample_namespace
           sample_record sample_timestamps 1000 1000);
    try reflexivity; try discriminate.
Defined.

Lemma created_user_is_found_witness :
  exists slug,
    member
      (body (match fst (handleGenerate no_code no_parse no_float (fun _ => "")
                          (fun _ => "") (fun _ => "") unreachable unreachable
                          sample_github sample_news sample_skills
                          (fun _ => 5000) (fun _ => 5000) [10; 11; 12]%N
                          sample_env "POST" (JObj [("username", JStr "Hubot")])
                          sample_namespace) with
             | Return r => r
             | Throw _ => mkResponse 500 JNull
             end)) "slug" = Some (JStr slug) /\
    url_plain slug = true /\
    forall now do_clock',
      match fst (handleGetUser no_number no_code no_parse no_float
                   (fun _ => "") (fun _ => "") (fun _ => "") unreachable
                   unreachable sample_news now do_clock' ("/user/" ++ slug)
                   (snd (handleGenerate no_code no_parse no_float (fun _ => "")
                           (fun _ => "") (fun _ => "") unreachable unreachable
                           sample_github sample_news sample_skills
                           (fun _ => 5000) (fun _ => 5000) [10; 11; 12]%N
                           sample_env "POST"
                           (JObj [("username", JStr "Hubot")])
                           sample_namespace))) with
      | Return r => status r = 200
      | Throw _ => True
      end.
Proof.
  apply (created_user_is_found no_number no_code no_parse no_float
           (fun _ => "") (fun _ => "") (fun _ => "") unreachable unreachable
           sample_github sample_news sample_skills
           (fun _ => 5000) (fun _ => 5000) [10; 11; 12]%N sample_env
           (JObj [("username", JStr "Hubot")]) sample_namespace _ "Hubot");
    try reflexivity; discriminate.
Defined.


(* ================================================================== *)
(** ** Further properties of the weather fetcher                       *)
(* ================================================================== *)

Lemma number_or_nonzero (n : option Z) (d : Z) : d <> 0 -> number_or n d <> 0.
Proof.
  intros Hd. unfold number_or. destruct n as [z|]; [|exact Hd].
  destruct (Z.eqb_spec z 0); [exact Hd | assumption].
Qed.

Section WeatherChain.

Variable XIAOMI_CITY_IDS : string -> option string.
Variable parseInt : option value -> outcome (option Z).
Variable round_parseFloat : value -> outcome (option Z).
Variable getXiaomiWeatherDesc : Z -> string.
Variable getXiaomiWeatherEmoji : Z -> string.
Variable getWeatherEmojiFromWttr : option Z -> string.
Variable xiaomi_api : string -> http_result.
Variable wttr_api : string -> http_result.

Let fetchW := fetchWeather XIAOMI_CITY_IDS parseInt round_parseFloat
                getXiaomiWeatherDesc getXiaomiWeatherEmoji
                getWeatherEmojiFromWttr xiaomi_api wttr_api.
Let primary := fetchXiaomiWeather XIAOMI_CITY_IDS parseInt round_parseFloat
                 getXiaomiWeatherDesc getXiaomiWeatherEmoji xiaomi_api.
Let secondary := fetchWttr parseInt getWeatherEmojiFromWttr wttr_api.

(** The primary's artifact is tagged [xiaomi] and names the city as it was
    asked for. *)
Lemma fetchXiaomiWeather_artifact (city : string) (w : value) :
  primary city = Return (Some w) ->
  member w "source" = Some (JStr "xiaomi") /\
  member w "city" = Some (JStr city).
Proof.
  unfold primary, fetchXiaomiWeather.
  destruct (match XIAOMI_CITY_IDS (trim (toLowerCase city)) with
            | Some id => Some id
            | None => XIAOMI_CITY_IDS (trim city)
            end) as [cityId|]; [|discriminate].
  destruct (xiaomi_api cityId) as [e|[|] code [data|]]; try discriminate.
  destruct (negb (truthy (Some data)) || negb (truthy (member data "current")));
    [discriminate|].
  repeat match goal with
    | |- context [bind ?m _] => destruct m; cbn [bind]; [|discriminate]
    end.
  intros E. injection E as <-. split; reflexivity.
Qed.

(** The readings of the secondary's artifact: integers, none of them 0. *)
Lemma fetchWttr_readings (city : string) (w : value) :
  secondary city = Return w ->
  exists temp feels humidity wind,
    member w "temp" = Some (JNum temp) /\ temp <> 0 /\
    member w "feels" = Some (JNum feels) /\ feels <> 0 /\
    member w "humidity" = Some (JNum humidity) /\ humidity <> 0 /\
    member w "wind" = Some (JNum wind) /\ wind <> 0.
Proof.
  unfold secondary, fetchWttr.
  destruct (wttr_api city) as [e|[|] code [data|]]; try discriminate.
  destruct data; try discriminate;
    match goal with
    | |- context [if ?b then _ else _] => destruct b; try discriminate
    end;
    repeat match goal with
      | |- context [bind ?m _] => destruct m; cbn [bind]; [|discriminate]
      end;
    intros E; injection E as <-;
    do 4 eexists; cbn [member get String.eqb Ascii.eqb Bool.eqb];
    repeat split; try reflexivity; apply number_or_nonzero; discriminate.
Qed.

(** X15.  The first link of the fallback chain.  For a city that is not
    classified as international, an artifact returned by the primary is the
    result of the weather fetch, whatever the secondary would answer; it is
    tagged [source: "xiaomi"] and carries the city name as it was asked
    for. *)
Theorem primary_artifact_is_returned (city : string) (w : value) :
  isInternational city = false ->
  primary city = Return (Some w) ->
  fetchW (Some (JStr city)) = Return w /\
  member w "source" = Some (JStr "xiaomi") /\
  member w "city" = Some (JStr city).
Proof.
  intros Hcity Hw. split; [|now apply fetchXiaomiWeather_artifact].
  unfold fetchW, fetchWeather, tryXiaomi. fold primary.
  rewrite Hcity, Hw. reflexivity.
Qed.

(** X16.  Which link answered.  Every result of the weather fetch carries
    one of the three source tags.  A result tagged [xiaomi] was asked for a
    city that is not classified as international; a result tagged
    [fallback] is the static default; and in a result with another tag
    (the secondary's) temperature, feels-like, humidity and wind are
    integers different from 0: a reading of 0 is replaced by the default. *)
Theorem fetchWeather_result_tags (city : string) (w : value) :
  fetchW (Some (JStr city)) = Return w ->
  exists tag,
    member w "source" = Some (JStr tag) /\
    (tag = "xiaomi" \/ tag = "wttr.in" \/ tag = "fallback") /\
    (tag = "xiaomi" ->
       isInternational city = false /\ primary city = Return (Some w)) /\
    (tag = "fallback" -> w = fallback_weather city) /\
    (tag <> "xiaomi" ->
       exists temp feels humidity wind,
         member w "temp" = Some (JNum temp) /\ temp <> 0 /\
         member w "feels" = Some (JNum feels) /\ feels <> 0 /\
         member w "humidity" = Some (JNum humidity) /\ humidity <> 0 /\
         member w "wind" = Some (JNum wind) /\ wind <> 0).
Proof.
  assert (forall w',
            try_catch (secondary city)
              (fun _ => Return (fallback_weather city)) = Return w' ->
            (member w' "source" = Some (JStr "wttr.in") /\
             secondary city = Return w') \/
            w' = fallback_weather city) as Hsecond.
  { intros w'. destruct (secondary city) as [x|e] eqn:E; cbn [try_catch];
      intros H; injection H as <-; [left | now right].
    split; [|reflexivity].
    revert E. unfold secondary, fetchWttr.
    destruct (wttr_api city) as [e|[|] code [data|]]; try discriminate.
    destruct data; try discriminate;
      match goal with
      | |- context [if ?b then _ else _] => destruct b; try discriminate
      end;
      repeat match goal with
        | |- context [bind ?m _] => destruct m; cbn [bind]; [|discriminate]
        end;
      intros E; injection E as <-; reflexivity. }
  assert (forall w',
            try_catch (secondary city)
              (fun _ => Return (fallback_weather city)) = Return w' ->
            exists tag,
              member w' "source" = Some (JStr tag) /\
              (tag = "wttr.in" \/ tag = "fallback") /\
              (tag = "fallback" -> w' = fallback_weather city) /\
              exists temp feels humidity wind,
                member w' "temp" = Some (JNum temp) /\ temp <> 0 /\
                member w' "feels" = Some (JNum feels) /\ feels <> 0 /\
                member w' "humidity" = Some (JNum humidity) /\ humidity <> 0 /\
                member w' "wind" = Some (JNum wind) /\ wind <> 0) as Htail.
  { intros w' H. destruct (Hsecond w' H) as [[Hsrc Hw']| ->].
    - exists "wttr.in". split; [exact Hsrc|]. split; [now left|].
      split; [discriminate|]. now apply (fetchWttr_readings city).
    - exists "fallback". split; [reflexivity|]. split; [now right|].
      split; [reflexivity|].
      exists 22, 23, 50, 10. repeat split; discriminate. }
  unfold fetchW, fetchWeather, tryXiaomi. fold primary secondary.
  destruct (isInternational city) eqn:Hint; cbn [negb bind].
  - intros H. destruct (Htail w H) as (tag & Hsrc & Htag & Hfb & Hread).
    exists tag. split; [exact Hsrc|]. split; [tauto|].
    split; [|split; [exact Hfb | intros _; exact Hread]].
    intros ->. destruct Htag; discriminate.
  - destruct (primary city) as [[x|]|e] eqn:Hp; cbn [try_catch bind].
    + intros H. injection H as <-.
      destruct (fetchXiaomiWeather_artifact city x Hp) as [Hsrc _].
      exists "xiaomi". split; [exact Hsrc|]. split; [now left|].
      split; [now split|]. split; [discriminate|]. intros Hne. now elim Hne.
    + intros H. destruct (Htail w H) as (tag & Hsrc & Htag & Hfb & Hread).
      exists tag. split; [exact Hsrc|]. split; [tauto|].
      split; [|split; [exact Hfb | intros _; exact Hread]].
      intros ->. destruct Htag; discriminate.
    + intros H. destruct (Htail w H) as (tag & Hsrc & Htag & Hfb & Hread).
      exists tag. split; [exact Hsrc|]. split; [tauto|].
      split; [|split; [exact Hfb | intros _; exact Hread]].
      intros ->. destruct Htag; discriminate.
Qed.

End WeatherChain.


Lemma primary_artifact_is_returned_witness :
  exists w,
    fetchWeather sample_city_ids no_parse no_float (fun _ => "") (fun _ => "")
      (fun _ => "") sample_xiaomi unreachable (Some (JStr "Beijing"))
    = Return w /\
    member w "source" = Some (JStr "xiaomi") /\
    member w "city" = Some (JStr "Beijing").
Proof.
  eexists.
  apply (primary_artifact_is_returned sample_city_ids no_parse no_float
           (fun _ => "") (fun _ => "") (fun _ => "") sample_xiaomi unreachable
           "Beijing");
    reflexivity.
Defined.

Lemma fetchWeather_result_tags_witness :
  exists tag,
    member (fallback_weather "Beijing") "source" = Some (JStr tag) /\
    (tag = "xiaomi" \/ tag = "wttr.in" \/ tag = "fallback").
Proof.
  destruct (fetchWeather_result_tags no_code no_parse no_float
              (fun _ => "") (fun _ => "") (fun _ => "") unreachable unreachable
              "Beijing" (fallback_weather "Beijing") eq_refl)
    as (tag & Hsrc & Htag & _).
  exists tag. split; assumption.
Defined.


(* ================================================================== *)
(** ** Properties of the news aggregator                               *)
(* ================================================================== *)

Lemma subsequence_In {A : Type} (out l : list A) (x : A) :
  subsequence out l -> In x out -> In x l.
Proof.
  induction 1 as [|y out l _ IH|y out l _ IH]; simpl; [tauto| |];
    intros H; [right; auto|].
  destruct H as [H|H]; [now left | right; auto].
Qed.

Lemma subsequence_length {A : Type} (out l : list A) :
  subsequence out l -> (length out <= length l)%nat.
Proof. induction 1; simpl; lia. Qed.

Lemma subsequence_firstn {A : Type} (n : nat) (l : list A) :
  subsequence (firstn n l) l.
Proof.
  assert (forall l' : list A, subsequence [] l') as Hnil
    by (induction l'; constructor; auto).
  revert n. induction l as [|x l IH]; intros [|n]; cbn [firstn]; auto.
  apply subsequence_keep, IH.
Qed.

Lemma existsb_eqb_In (k : string) (l : list string) :
  existsb (String.eqb k) l = true <-> In k l.
Proof.
  rewrite existsb_exists. split.
  - intros (x & Hin & E). apply String.eqb_eq in E. now subst.
  - intros H. exists k. split; [exact H | apply String.eqb_refl].
Qed.

Section NewsProperties.

Variable title_key : string -> string.
Variable fetchHackerNews : list value.
Variable fetchDevToNews : list value -> list value.
Variable fetchGitHubTrending : list value.
Variable fetchFinanceNews : list value.

Let key := News.item_key title_key.
Let dedup := News.deduplicateNews title_key.
Let fetchNews :=
  News.fetchRealNews title_key fetchHackerNews fetchDevToNews
    fetchGitHubTrending fetchFinanceNews.
Let sources (interests : list value) : list value :=
  (fetchHackerNews ++ fetchDevToNews interests ++ fetchGitHubTrending ++
   fetchFinanceNews)%list.

(** What the filter keeps, for any set of keys seen so far. *)
Lemma filter_unseen_spec (news : list value) :
  forall (seen : list string) (out : list value),
    News.filter_unseen title_key seen news = Return out ->
    subsequence out news /\
    exists ks,
      Forall2 (fun item k => key item = Return k) out ks /\
      NoDup ks /\
      (forall k, In k ks -> ~ In k seen) /\
      (forall pre item post k,
         news = (pre ++ item :: post)%list ->
         key item = Return k ->
         ~ In k seen ->
         (forall p, In p pre -> key p <> Return k) ->
         In item out).
Proof.
  induction news as [|item rest IH]; intros seen out; cbn [News.filter_unseen].
  - intros E. injection E as <-. split; [constructor|].
    exists []. split; [constructor|]. split; [constructor|].
    split; [intros ? []|].
    intros [|? ?] ? ? ? ?; discriminate.
  - fold key. destruct (key item) as [k|e] eqn:Hk; cbn [bind]; [|discriminate].
    destruct (existsb (String.eqb k) seen) eqn:Hseen.
    + intros E. destruct (IH seen out E) as (Hsub & ks & Hks & Hnd & Hfresh & Hfirst).
      split; [now constructor|]. exists ks. repeat split; auto.
      intros pre item' post k' Hsplit Hk' Hnew Hpre.
      destruct pre as [|p pre]; cbn [app] in Hsplit; injection Hsplit as <- ->.
      * rewrite Hk in Hk'. injection Hk' as <-.
        apply existsb_eqb_In in Hseen. contradiction.
      * apply (Hfirst pre item' post k'); auto.
        intros q Hq. apply Hpre. now right.
    + destruct (News.filter_unseen title_key (k :: seen) rest) as [kept|e] eqn:E;
        cbn [bind]; [|discriminate].
      intros E'. injection E' as <-.
      destruct (IH (k :: seen) kept E) as (Hsub & ks & Hks & Hnd & Hfresh & Hfirst).
      split; [now constructor|]. exists (k :: ks). repeat split.
      * constructor; assumption.
      * constructor; [|exact Hnd]. intros Hin. apply (Hfresh k Hin). now left.
      * intros k' [<-|Hin].
        -- intros Hin. apply existsb_eqb_In in Hin. congruence.
        -- intros Hs. apply (Hfresh k' Hin). now right.
      * intros pre item' post k' Hsplit Hk' Hnew Hpre.
        destruct pre as [|p pre]; cbn [app] in Hsplit; injection Hsplit as <- ->.
        -- now left.
        -- right. apply (Hfirst pre item' post k'); auto.
           ++ intros [<-|Hs]; [|contradiction].
              apply (Hpre item); [now left | exact Hk].
           ++ intros q Hq. apply Hpre. now right.
Qed.

(** A list whose keys are distinct and unseen passes the filter whole. *)
Lemma filter_unseen_fixed (out : list value) (ks : list string) :
  Forall2 (fun item k => key item = Return k) out ks ->
  forall seen,
    NoDup ks ->
    (forall k, In k ks -> ~ In k seen) ->
    News.filter_unseen title_key seen out = Return out.
Proof.
  induction 1 as [|item k out ks Hk _ IH]; intros seen Hnd Hfresh;
    cbn [News.filter_unseen]; [reflexivity|].
  fold key. rewrite Hk. cbn [bind].
  destruct (existsb (String.eqb k) seen) eqn:Hseen.
  { apply existsb_eqb_In in Hseen. elim (Hfresh k); [now left | exact Hseen]. }
  inversion Hnd as [|? ? Hnotin Hnd']; subst.
  rewrite IH; [reflexivity | exact Hnd'|].
  intros k' Hin [<-|Hs]; [contradiction|].
  apply (Hfresh k'); [now right | exact Hs].
Qed.

(** X17.  What [deduplicateNews] keeps.  When it returns, the result is the
    input with items left out and the order kept; the keys of the kept items
    are pairwise distinct; and an item whose key no earlier item has is
    kept: of the items with one key, the first stays. *)
Theorem deduplicateNews_keeps_first (news out : list value) :
  dedup news = Return out ->
  subsequence out news /\
  (exists ks,
     Forall2 (fun item k => key item = Return k) out ks /\ NoDup ks) /\
  (forall pre item post k,
     news = (pre ++ item :: post)%list ->
     key item = Return k ->
     (forall p, In p pre -> key p <> Return k) ->
     In item out).
Proof.
  intros E.
  destruct (filter_unseen_spec news [] out E)
    as (Hsub & ks & Hks & Hnd & _ & Hfirst).
  split; [exact Hsub|]. split; [now exists ks|].
  intros pre item post k Hsplit Hk Hpre.
  apply (Hfirst pre item post k); auto.
Qed.

(** X18.  Deduplication is idempotent: a list it returned passes through it
    unchanged. *)
Theorem deduplicateNews_idempotent (news out : list value) :
  dedup news = Return out -> dedup out = Return out.
Proof.
  intros E.
  destruct (filter_unseen_spec news [] out E) as (_ & ks & Hks & Hnd & _ & _).
  apply (filter_unseen_fixed out ks Hks); [exact Hnd|].
  intros k _ [].
Qed.

(** X19.  [deduplicateNews] returns exactly when every item has a string
    for title; a single item without one makes it throw, also an item that
    would have been dropped as a duplicate. *)
Theorem deduplicateNews_returns_iff (news : list value) :
  (exists out, dedup news = Return out) <->
  (forall item, In item news -> exists t, member item "title" = Some (JStr t)).
Proof.
  unfold dedup, News.deduplicateNews. generalize (@nil string) as seen.
  induction news as [|item rest IH]; intros seen; cbn [News.filter_unseen].
  - split; [intros _ ? [] | eauto].
  - unfold News.item_key at 1. unfold property.
    split.
    + intros [out E] x [<-|Hin].
      * destruct item as [| | | | |o]; try discriminate; cbn [bind member] in *.
        destruct (get o "title") as [[| | |t| |]|]; try discriminate. eauto.
      * destruct item as [| | | | |o]; try discriminate; cbn [bind member] in E;
          try discriminate.
        destruct (get o "title") as [[| | |t| |]|]; try discriminate.
        cbn [bind] in E.
        destruct (existsb (String.eqb (title_key t)) seen).
        -- apply (IH seen); eauto.
        -- destruct (News.filter_unseen title_key (title_key t :: seen) rest)
             as [kept|e] eqn:E'; [|discriminate].
           apply (IH (title_key t :: seen)); eauto.
    + intros H. destruct (H item (or_introl eq_refl)) as [t Ht].
      destruct item as [| | | | |o]; try discriminate. cbn [member] in Ht.
      cbn [bind member]. rewrite Ht. cbn [bind].
      assert (forall x, In x rest -> exists t, member x "title" = Some (JStr t))
        as Hrest by (intros x Hx; apply H; now right).
      destruct (existsb (String.eqb (title_key t)) seen).
      * now apply IH.
      * destruct (proj2 (IH (title_key t :: seen)) Hrest) as [kept ->].
        cbn [bind]. eauto.
Qed.

(** X20.  What [fetchRealNews] can return.  A result has at most eight
    items, each an item of one of the four sources, with pairwise distinct
    keys.  When the interests are not an array,
    or an array that names none of Tech, AI, Startup, Design and Finance,
    the result is empty, whatever the sources hold. *)
Theorem fetchRealNews_result (interests : option value) :
  (forall out,
     fetchNews interests = Return out ->
     (length out <= 8)%nat /\
     (exists ks,
        Forall2 (fun item k => key item = Return k) out ks /\ NoDup ks) /\
     (forall item,
        In item out ->
        exists l, interests = Some (JArr l) /\ In item (sources l))) /\
  ((forall l, interests <> Some (JArr l)) -> fetchNews interests = Return []) /\
  (forall l,
     interests = Some (JArr l) ->
     existsb (News.is_one_of ["Tech"; "AI"; "Startup"; "Design"; "Finance"]) l
       = false ->
     fetchNews interests = Return []).
Proof.
  split; [|split].
  - intros out. unfold fetchNews, News.fetchRealNews.
    destruct (News.deduplicateNews title_key _) as [u|e] eqn:E; cbn [bind];
      [|discriminate].
    intros E'. assert (out = firstn 8 u) as -> by congruence. clear E'.
    destruct (filter_unseen_spec _ [] u E) as (Hsub & ks & Hks & Hnd & _).
    split; [apply firstn_le_length|]. split.
    + exists (firstn 8 ks). split.
      * clear -Hks. revert Hks. generalize 8%nat as n. intros n Hks. revert n.
        induction Hks; intros [|n]; cbn [firstn]; constructor; auto.
      * clear -Hnd. revert Hnd. generalize 8%nat as n. intros n Hnd. revert n.
        induction Hnd as [|k ks Hnotin Hnd IH]; intros [|n]; cbn [firstn];
          constructor; auto.
        intros Hin. apply Hnotin. revert Hin. apply subsequence_In.
        apply subsequence_firstn.
    + intros item Hin.
      assert (In item (News.gather fetchHackerNews fetchDevToNews
                         fetchGitHubTrending fetchFinanceNews interests)) as Hg.
      { apply (subsequence_In u); [exact Hsub|].
        apply (subsequence_In (firstn 8 u)); [apply subsequence_firstn | exact Hin]. }
      unfold News.gather in Hg.
      destruct interests as [[| | | |l|]|]; try contradiction.
      exists l. split; [reflexivity|]. unfold sources.
      repeat rewrite in_app_iff in *.
      repeat match type of Hg with
             | context [if ?b then _ else _] => destruct b
             end; cbn [In] in Hg; tauto.
  - intros H. unfold fetchNews, News.fetchRealNews, News.gather.
    destruct interests as [[| | | |l|]|]; try reflexivity.
    elim (H l). reflexivity.
  - intros l -> H. unfold fetchNews, News.fetchRealNews, News.gather.
    assert (forall topics,
              incl topics ["Tech"; "AI"; "Startup"; "Design"; "Finance"] ->
              existsb (News.is_one_of topics) l = false) as Hnone.
    { intros topics Hincl.
      destruct (existsb (News.is_one_of topics) l) eqn:E; [|reflexivity].
      apply existsb_exists in E. destruct E as (i & Hi & Hone).
      assert (existsb
                (News.is_one_of ["Tech"; "AI"; "Startup"; "Design"; "Finance"]) l
              = true) as Contra; [|congruence].
      apply existsb_exists. exists i. split; [exact Hi|].
      destruct i; try discriminate. unfold News.is_one_of in *.
      apply existsb_eqb_In. apply Hincl. now apply existsb_eqb_In. }
    rewrite !Hnone; [reflexivity| | | |];
      intros x Hx; cbn [In] in *; tauto.
Qed.

End NewsProperties.


Lemma deduplicateNews_keeps_first_witness :
  News.deduplicateNews toLowerCase sample_items = Return (firstn 2 sample_items) /\
  subsequence (firstn 2 sample_items) sample_items.
Proof.
  split; [reflexivity|].
  destruct (deduplicateNews_keeps_first toLowerCase sample_items
              (firstn 2 sample_items) eq_refl) as (H & _).
  exact H.
Defined.

Lemma deduplicateNews_idempotent_witness :
  News.deduplicateNews toLowerCase (firstn 2 sample_items)
  = Return (firstn 2 sample_items).
Proof.
  apply (deduplicateNews_idempotent toLowerCase sample_items). reflexivity.
Defined.

Lemma deduplicateNews_returns_iff_witness :
  exists out, News.deduplicateNews toLowerCase sample_items = Return out.
Proof.
  apply (deduplicateNews_returns_iff toLowerCase sample_items).
  intros item Hin. cbn [sample_items In] in Hin.
  destruct Hin as [<-|[<-|[<-|[]]]]; eexists; reflexivity.
Defined.

Lemma fetchRealNews_result_witness :
  (length (firstn 2 sample_items) <= 8)%nat /\
  News.fetchRealNews toLowerCase sample_items (fun _ => sample_items) [] []
    (Some (JStr "Tech")) = Return [] /\
  News.fetchRealNews toLowerCase sample_items (fun _ => sample_items) [] []
    (Some (JArr [JStr "Music"])) = Return [].
Proof.
  destruct (fetchRealNews_result toLowerCase sample_items (fun _ => sample_items)
              [] [] (Some (JArr [JStr "Startup"]))) as (H & _ & _).
  destruct (H (firstn 2 sample_items) eq_refl) as (Hlen & _).
  split; [exact Hlen|]. split.
  - destruct (fetchRealNews_result toLowerCase sample_items
                (fun _ => sample_items) [] [] (Some (JStr "Tech")))
      as (_ & Hnot & _).
    apply Hnot. discriminate.
  - destruct (fetchRealNews_result toLowerCase sample_items
                (fun _ => sample_items) [] [] (Some (JArr [JStr "Music"])))
      as (_ & _ & Hnone).
    apply (Hnone [JStr "Music"]); reflexivity.
Defined.


Lemma page_agrees_with_api_witness :
  exists data,
    fst (handlePortfolioPage no_number no_code no_parse no_float
           (fun _ => "") (fun _ => "") (fun _ => "") unreachable unreachable
           sample_news (sample_renderer "portfolio") (sample_renderer "preview")
           2000 (fun _ => 2000) None "/p/octocat-k3x9a1"
           sample_namespace)
    = rendered (sample_renderer "portfolio" data).
Proof.
  pose proof (page_agrees_with_api no_number no_code no_parse no_float
                (fun _ => "") (fun _ => "") (fun _ => "") unreachable
                unreachable sample_news
                (sample_renderer "portfolio") (sample_renderer "preview")
                2000 (fun _ => 2000) None
                "octocat-k3x9a1" sample_namespace eq_refl) as H.
  destruct (handleGetUser no_number no_code no_parse no_float
              (fun _ => "") (fun _ => "") (fun _ => "") unreachable
              unreachable sample_news 2000 (fun _ => 2000)
              ("/user/" ++ "octocat-k3x9a1") sample_namespace)
    as [[resp|e] ns'] eqn:E.
  - assert (status resp = 200) as Hstatus.
    { apply (f_equal fst) in E. vm_compute in E. injection E as <-.
      reflexivity. }
    destruct (H Hstatus) as (data & _ & Hpage & _).
    exists data. change ("/p/octocat-k3x9a1") with ("/p/" ++ "octocat-k3x9a1").
    now rewrite Hpage.
  - apply (f_equal fst) in E. vm_compute in E. discriminate.
Defined.

Lemma page_without_suffix_witness :
  fst (handleGetUser no_number no_code no_parse no_float
         (fun _ => "") (fun _ => "") (fun _ => "") unreachable unreachable
         sample_news 2000 (fun _ => 2000) "/user/octocat" sample_namespace)
  = Return (jsonResponse (JObj [("error", JStr "User not found")]) 404) /\
  fst (handlePortfolioPage no_number no_code no_parse no_float
         (fun _ => "") (fun _ => "") (fun _ => "") unreachable unreachable
         sample_news (sample_renderer "portfolio") (sample_renderer "preview")
         2000 (fun _ => 2000) (Some "Twitterbot/1.0")
         "/p/octocat" sample_namespace)
  = rendered (sample_renderer "preview" sample_record).
Proof.
  destruct (page_without_suffix no_number no_code no_parse no_float
              (fun _ => "") (fun _ => "") (fun _ => "") unreachable
              unreachable sample_news
              (sample_renderer "portfolio") (sample_renderer "preview")
              2000 (fun _ => 2000)
              (Some "Twitterbot/1.0") "octocat" sample_namespace
              sample_record "octocat-k3x9a1")
    as [Hapi Hpage]; try reflexivity; try discriminate.
  split.
  - change "/user/octocat" with ("/user/" ++ "octocat"). now rewrite Hapi.
  - change "/p/octocat" with ("/p/" ++ "octocat").
    change (isBot (Some "Twitterbot/1.0")) with true in Hpage.
    cbv iota in Hpage. now rewrite Hpage.
Defined.

(* ------------------------------------------------------------------ *)
(** *** Requests of social bots                                        *)
(* ------------------------------------------------------------------ *)

Section BotRequests.

(** Two worlds: any two sets of upstreams and coercions. *)
Variables ToNumber ToNumber' : value -> option Z.
Variables XIAOMI_CITY_IDS XIAOMI_CITY_IDS' : string -> option string.
Variables parseInt parseInt' : option value -> outcome (option Z).
Variables round_parseFloat round_parseFloat' : value -> outcome (option Z).
Variables getXiaomiWeatherDesc getXiaomiWeatherDesc' : Z -> string.
Variables getXiaomiWeatherEmoji getXiaomiWeatherEmoji' : Z -> string.
Variables getWeatherEmojiFromWttr getWeatherEmojiFromWttr' : option Z -> string.
Variables xiaomi_api xiaomi_api' : string -> http_result.
Variables wttr_api wttr_api' : string -> http_result.
Variables fetchRealNews fetchRealNews' : option value -> outcome (list value).

(** One pair of renderers. *)
Variable servePortfolioPage : object -> outcome string.
Variable serveSocialPreviewPage : object -> outcome string.

Let page := handlePortfolioPage ToNumber XIAOMI_CITY_IDS parseInt
  round_parseFloat getXiaomiWeatherDesc getXiaomiWeatherEmoji
  getWeatherEmojiFromWttr xiaomi_api wttr_api fetchRealNews
  servePortfolioPage serveSocialPreviewPage.

Let page' := handlePortfolioPage ToNumber' XIAOMI_CITY_IDS' parseInt'
  round_parseFloat' getXiaomiWeatherDesc' getXiaomiWeatherEmoji'
  getWeatherEmojiFromWttr' xiaomi_api' wttr_api' fetchRealNews'
  servePortfolioPage serveSocialPreviewPage.

(** X21.  A page request of a social bot only reads.  It leaves the store
    as it is, and its answer is the same at any time and whatever the
    weather and news upstreams would answer: the 400 reply, the not-found
    page, or, when it finds the record, what the preview renderer makes of
    the record as stored, stale caches included (the renderer's document,
    or the exception the renderer throws on that record).  The portfolio
    renderer is not called. *)
Theorem bot_page_request_only_reads (now now' : Z) (do_clock do_clock' : nat -> Z)
    (userAgent : option string) (path : string) (ns : namespace) :
  isBot userAgent = true ->
  snd (page now do_clock userAgent path ns) = ns /\
  page now do_clock userAgent path ns = page' now' do_clock' userAgent path ns /\
  (fst (page now do_clock userAgent path ns) = Return InvalidURL \/
   fst (page now do_clock userAgent path ns) = Return NotFoundPage \/
   exists name R,
     ns name = Some R /\
     fst (page now do_clock userAgent path ns)
     = rendered (serveSocialPreviewPage R)).
Proof.
  intros Hbot. unfold page, page', handlePortfolioPage.
  destruct (page_slug path) as [slug|]; [|cbn; auto].
  destruct (String.eqb slug ""); [cbn; auto|].
  destruct (ns (toLowerCase (first_segment "-" slug))) as [R|] eqn:Hns;
    [|cbn; auto].
  destruct (_ && _); [cbn; auto|].
  rewrite Hbot. cbn [fst snd]. repeat split. right. right. eauto.
Qed.

End BotRequests.

Lemma bot_page_request_only_reads_witness :
  fst (handlePortfolioPage no_number no_code no_parse no_float
         (fun _ => "") (fun _ => "") (fun _ => "") unreachable unreachable
         sample_news (sample_renderer "portfolio") (sample_renderer "preview")
         2000 (fun _ => 2000) (Some "Twitterbot/1.0")
         "/p/octocat-k3x9a1" sample_namespace)
  = fst (handlePortfolioPage no_number sample_city_ids sample_parseInt no_float
           (fun _ => "") (fun _ => "") (fun _ => "") sample_xiaomi sample_wttr
           sample_news (sample_renderer "portfolio") (sample_renderer "preview")
           9000000 (fun _ => 9000000) (Some "Twitterbot/1.0")
           "/p/octocat-k3x9a1" sample_namespace).
Proof.
  destruct (bot_page_request_only_reads
              no_number no_number no_code sample_city_ids no_parse
              sample_parseInt no_float no_float (fun _ => "") (fun _ => "")
              (fun _ => "") (fun _ => "") (fun _ => "") (fun _ => "")
              unreachable sample_xiaomi unreachable sample_wttr
              sample_news sample_news
              (sample_renderer "portfolio") (sample_renderer "preview")
              2000 9000000 (fun _ => 2000)
              (fun _ => 9000000) (Some "Twitterbot/1.0") "/p/octocat-k3x9a1"
              sample_namespace eq_refl) as (_ & H & _).
  now rewrite H.
Defined.

(** The exception of the renderer is the answer: a record whose card image
    is not a string makes the bot request throw, and the worker answers
    500. *)
Lemma bot_request_can_throw :
  handlePortfolioPage no_number no_code no_parse no_float
    (fun _ => "") (fun _ => "") (fun _ => "") unreachable unreachable
    sample_news (sample_renderer "portfolio") (sample_renderer "preview")
    2000 (fun _ => 2000) (Some "Twitterbot/1.0") "/p/octocat-k3x9a1"
    (with_storage sample_namespace "octocat" (Some sample_unrenderable))
  = (Throw "TypeError: data.aiCardImageUrl.startsWith is not a function",
     with_storage sample_namespace "octocat" (Some sample_unrenderable)).
Proof. reflexivity. Qed.


(* ================================================================== *)
(** ** Properties of the generated images                              *)
(* ================================================================== *)

Lemma remove_first_assets (s : string) :
  remove_first "/assets/" ("/assets/" ++ s) = s.
Proof.
  cbn. rewrite prefix_empty, Nat.sub_0_r. apply substring_all.
Qed.

Section ImageProperties.

Variable image : Type.
Variable backgroundResponse : outcome image.
Variable cardResponse : outcome image.
Variable put_rejected : string -> option string.

Let generateImages :=
  generateAndStoreImages backgroundResponse cardResponse put_rejected.

(** X22.  Store, then serve.  Every [/assets/] reference that
    [generateAndStoreImages] returns is served from the bucket it leaves:
    the background reference gives the generated background, the card
    reference the generated card, both as [image/png].  Without a
    background nothing was stored, and the card reference is then, as
    after any failure, the avatar of the profile, or null without one. *)
Theorem generated_images_are_served (clock : nat -> Z) (username : string)
    (user : option value) (b : bucket image) :
  let '((backgroundUrl, cardImageUrl), b') :=
    generateImages clock username user b in
  let avatar :=
    if truthy (opt_member user "avatar_url")
    then or_default (opt_member user "avatar_url") JNull else JNull in
  match backgroundUrl with
  | JStr url =>
      exists background,
        backgroundResponse = Return background /\
        serveR2Asset (Some b') url = Asset background "image/png"
  | _ => backgroundUrl = JNull /\ b' = b /\ cardImageUrl = avatar
  end /\
  (cardImageUrl = avatar \/
   exists url card,
     cardImageUrl = JStr url /\
     cardResponse = Return card /\
     serveR2Asset (Some b') url = Asset card "image/png").
Proof.
  unfold generateImages, generateAndStoreImages.
  destruct backgroundResponse as [background|e]; [|auto].
  unfold r2_put at 1.
  destruct (put_rejected ("backgrounds/" ++ _)) as [e|]; [auto|].
  destruct cardResponse as [card|e].
  - unfold r2_put.
    destruct (put_rejected ("cards/" ++ _)) as [e|].
    + split; [|now left]. exists background. split; [reflexivity|].
      unfold serveR2Asset. rewrite remove_first_assets.
      cbn [r2_get]. rewrite String.eqb_refl. reflexivity.
    + split.
      * exists background. split; [reflexivity|].
        unfold serveR2Asset. rewrite remove_first_assets.
        cbn [r2_get].
        change (String.eqb ("cards/" ++ _) ("backgrounds/" ++ _)) with false.
        cbn iota. rewrite String.eqb_refl. reflexivity.
      * right. do 2 eexists. split; [reflexivity|]. split; [reflexivity|].
        unfold serveR2Asset. rewrite remove_first_assets.
        cbn [r2_get]. rewrite String.eqb_refl. reflexivity.
  - split; [|now left]. exists background. split; [reflexivity|].
    unfold serveR2Asset. rewrite remove_first_assets.
    cbn [r2_get]. rewrite String.eqb_refl. reflexivity.
Qed.

End ImageProperties.


(* ================================================================== *)
(** ** Properties of the project descriptions                          *)
(* ================================================================== *)

Lemma length_set (o : object) (k : string) (v : value) :
  (length (set o k v) <= S (length o))%nat.
Proof.
  induction o as [|[k0 v0] o IH]; simpl; [lia|].
  destruct (String.eqb k0 k); simpl; lia.
Qed.

Lemma own_repos_filter (repos own : list value) :
  own_repos repos = Return own ->
  own = filter (fun r => negb (truthy (member r "fork"))) repos /\
  (forall r, In r repos -> r <> JNull).
Proof.
  revert own. induction repos as [|r rest IH]; intros own; cbn [own_repos].
  - intros E. injection E as <-. split; [reflexivity | intros ? []].
  - unfold property.
    destruct r as [| | | | |o]; cbn [bind]; try discriminate;
      (destruct (own_repos rest) as [own'|e]; cbn [bind]; [|discriminate]);
      intros E; destruct (IH own' eq_refl) as [-> Hnot];
      (split; [cbn [filter member truthy negb] in *; try congruence
              | intros x [<-|Hin]; [discriminate | now apply Hnot]]).
    destruct (truthy (get o "fork")); cbn [negb]; congruence.
Qed.

Lemma own_repos_returns (repos : list value) :
  (forall r, In r repos -> r <> JNull) ->
  exists own, own_repos repos = Return own.
Proof.
  induction repos as [|r rest IH]; intros H; cbn [own_repos]; [eauto|].
  destruct IH as [own E]; [intros x Hx; apply H; now right|].
  assert (r <> JNull) as Hr by (apply H; now left).
  unfold property. rewrite E.
  destruct r; try contradiction; cbn [bind]; eauto.
Qed.

Lemma returns_bind {A B : Type} (m : outcome A) (f : A -> outcome B) :
  returns (bind m f) <-> exists x, m = Return x /\ returns (f x).
Proof.
  destruct m as [x|e]; cbn [bind]; split.
  - intros H. eauto.
  - intros (y & E & H). now injection E as <-.
  - intros [y H]. discriminate.
  - intros (y & E & _). discriminate.
Qed.

Lemma returns_Return {A : Type} (x : A) : returns (Return x).
Proof. now exists x. Qed.

Lemma ToString_array (l : list value) : ToString (JArr l) = join "," l.
Proof.
  induction l as [|x rest IH]; [reflexivity|].
  change (ToString (JArr (x :: rest))) with
    (s <- match x with JNull => Return "" | _ => ToString x end ;;
     match rest with
     | [] => Return s
     | _ => t <- ToString (JArr rest) ;; Return (s ++ "," ++ t)
     end).
  now rewrite IH.
Qed.

Lemma convertible_array (l : list value) :
  convertible (JArr l) = forallb convertible l.
Proof.
  induction l as [|x rest IH]; [reflexivity|].
  change (convertible (JArr (x :: rest))) with
    (convertible x && convertible (JArr rest)).
  now rewrite IH.
Qed.

(** A join returns exactly when every element converts. *)
Lemma join_returns (sep : string) (l : list value) :
  Forall (fun x => returns (ToString x) <-> convertible x = true) l ->
  (returns (join sep l) <-> forallb convertible l = true).
Proof.
  induction 1 as [|x rest Hx _ IH]; cbn [join forallb].
  - split; [reflexivity | intros _; apply returns_Return].
  - rewrite andb_true_iff, <- Hx, <- IH.
    assert (returns (match x with JNull => Return "" | _ => ToString x end)
            <-> returns (ToString x)) as Helem.
    { destruct x; try reflexivity.
      split; intros _; apply returns_Return. }
    split.
    + intros H. apply returns_bind in H as (s & Es & H).
      split; [apply Helem; now exists s|].
      destruct rest as [|y rest']; [apply returns_Return|].
      apply returns_bind in H as (t & Et & _). now exists t.
    + intros [Hs [t Et]]. apply Helem in Hs as [s Es].
      apply returns_bind. exists s. split; [exact Es|].
      destruct rest as [|y rest']; [apply returns_Return|].
      rewrite Et. apply returns_Return.
Qed.

(** A value converts to a string exactly when it is [convertible]. *)
Lemma ToString_returns (v : value) :
  returns (ToString v) <-> convertible v = true.
Proof.
  induction v as [| | | | items IH | fields _] using value_nested_ind;
    try (split; [reflexivity | intros _; eexists; reflexivity]).
  - rewrite ToString_array, convertible_array. now apply join_returns.
  - cbn [ToString convertible]. destruct (get fields "toString").
    + split; [intros [s H] |]; discriminate.
    + split; [reflexivity | intros _; apply returns_Return].
Qed.

Lemma template_returns (v : option value) :
  returns (template v) <->
  match v with Some x => convertible x | None => true end = true.
Proof.
  destruct v as [x|]; cbn [template]; [apply ToString_returns|].
  split; [reflexivity | intros _; apply returns_Return].
Qed.

Lemma topics_text_returns (repo : value) :
  returns (topics_text repo) <->
  match member repo "topics" with
  | None | Some JNull => true
  | Some (JArr l) => forallb convertible l
  | Some _ => false
  end = true.
Proof.
  unfold topics_text.
  destruct (member repo "topics") as [[| | | |l|]|];
    try (split; [reflexivity | intros _; apply returns_Return]);
    try (split; [intros [? H] |]; discriminate).
  rewrite <- (join_returns ", " l).
  - split.
    + intros H. apply returns_bind in H as (s & E & _). now exists s.
    + intros [s E]. apply returns_bind. exists s.
      split; [exact E | apply returns_Return].
  - apply Forall_forall. intros x _. apply ToString_returns.
Qed.

(** The prompt of a repository can be built exactly when the repository is
    [promptable]. *)
Lemma prompt_returns (repo : value) :
  returns (prompt repo) <-> promptable repo = true.
Proof.
  unfold prompt, promptable.
  rewrite !andb_true_iff, <- topics_text_returns, <- !ToString_returns,
    <- !template_returns.
  split.
  - intros H.
    apply returns_bind in H as (name & E1 & H).
    apply returns_bind in H as (language & E2 & H).
    apply returns_bind in H as (stars & E3 & H).
    apply returns_bind in H as (forks & E4 & H).
    apply returns_bind in H as (description & E5 & H).
    apply returns_bind in H as (topics & E6 & _).
    unfold returns. repeat split; eauto.
  - intros ((((([name E1] & [language E2]) & [stars E3]) & [forks E4])
             & [description E5]) & [topics E6]).
    rewrite E1, E2, E3, E4, E5, E6. apply returns_Return.
Qed.

Section DescriptionProperties.

Variable trim_text : string -> string.
Variable run : nat -> string -> outcome value.

Let describe := generateAIProjectDescriptions trim_text run.

(** The fallback of a repository whose prompt was built is a text that is
    not empty. *)
Lemma default_description_text (repo : value) :
  promptable repo = true ->
  exists s, default_description repo = Return (JStr s) /\ s <> "".
Proof.
  intros H. unfold promptable in H. rewrite !andb_true_iff in H.
  destruct H as ((_ & H) & _).
  unfold default_description.
  assert (returns (ToString (or_default (member repo "description")
                               (JStr "优质开源项目")))) as [d ->].
  { apply ToString_returns. unfold or_default in *.
    destruct (member repo "description") as [v|]; [|reflexivity].
    destruct (truthy (Some v)); [exact H | reflexivity]. }
  cbn [bind]. eexists. split; [reflexivity | discriminate].
Qed.

(** Whatever the model answers, the description of such a repository is a
    text that is not empty. *)
Lemma description_text (i : nat) (repo : value) (p : string) :
  promptable repo = true ->
  exists s, description trim_text run i repo p = Return (JStr s) /\ s <> "".
Proof.
  intros H. pose proof (default_description_text repo H) as Hdefault.
  unfold description.
  destruct (run i p) as [[| | | | |o]|e]; try exact Hdefault;
    cbn [member]; try exact Hdefault.
  destruct (get o "response") as [[| | |s| |]|]; try exact Hdefault.
  destruct (String.eqb_spec (trim_text s) "") as [_|Hne]; [exact Hdefault|].
  eauto.
Qed.

(** One turn of the loop: it goes on exactly for a promptable repository,
    with a text under the repository's name. *)
Lemma describe_each_cons (i : nat) (repo : value) (rest : list value)
    (acc : object) :
  (promptable repo = false /\
   ~ returns (describe_each trim_text run i (repo :: rest) acc)) \/
  (promptable repo = true /\
   exists k s,
     template (member repo "name") = Return k /\ s <> "" /\
     describe_each trim_text run i (repo :: rest) acc =
     describe_each trim_text run (S i) rest (assign_property acc k (JStr s))).
Proof.
  destruct (promptable repo) eqn:Hp.
  - right. split; [reflexivity|].
    destruct (proj2 (prompt_returns repo) Hp) as [p Ep].
    destruct (description_text i repo p Hp) as (s & Es & Hs).
    assert (returns (template (member repo "name"))) as [k Ek].
    { apply template_returns. unfold promptable in Hp.
      rewrite !andb_true_iff in Hp. tauto. }
    exists k, s. split; [exact Ek|]. split; [exact Hs|].
    cbn [describe_each]. rewrite Ep. cbn [bind]. rewrite Es. cbn [bind].
    now rewrite Ek.
  - left. split; [reflexivity|]. intros Hret.
    cbn [describe_each] in Hret.
    apply returns_bind in Hret as (p & Ep & _).
    assert (promptable repo = true) by (apply prompt_returns; now exists p).
    congruence.
Qed.

Lemma describe_each_spec (repos : list value) :
  forall (i : nat) (acc out : object),
    describe_each trim_text run i repos acc = Return out ->
    (length out <= length acc + length repos)%nat /\
    (forall k v,
       get out k = Some v ->
       get acc k = Some v \/
       exists repo s,
         In repo repos /\ template (member repo "name") = Return k /\
         v = JStr s /\ s <> "") /\
    (forall k, get acc k <> None -> get out k <> None) /\
    (forall repo,
       In repo repos ->
       exists k, template (member repo "name") = Return k /\
                 (k <> "__proto__" -> get out k <> None)) /\
    (forall repo, In repo repos -> promptable repo = true).
Proof.
  induction repos as [|repo rest IH]; intros i acc out.
  - cbn [describe_each]. intros E. injection E as <-.
    repeat split; auto; try (intros ? []). cbn [length]. lia.
  - destruct (describe_each_cons i repo rest acc)
      as [[_ Hnot]|(Hp & k0 & s & Ek & Hs & ->)].
    { intros E. elim Hnot. now exists out. }
    intros E. apply IH in E.
    destruct E as (Hlen & Hfrom & Hkeep & Hcover & Hprompt).
    unfold assign_property in *.
    destruct (String.eqb_spec k0 "__proto__") as [Hproto|Hproto].
    + split; [cbn [length]; lia|]. split; [|split; [|split]].
      * intros k v Hk. destruct (Hfrom k v Hk) as [H|(r & s' & Hin & H)];
          [now left | right; exists r, s'; split; [now right | exact H]].
      * exact Hkeep.
      * intros r [<-|Hin]; [|now apply Hcover].
        exists k0. split; [exact Ek | intros H; contradiction].
      * intros r [<-|Hin]; [exact Hp | now apply Hprompt].
    + split; [|split; [|split; [|split]]].
      * pose proof (length_set acc k0 (JStr s)). cbn [length]. lia.
      * intros k v Hk. destruct (Hfrom k v Hk) as [H|(r & s' & Hin & H)];
          [|right; exists r, s'; split; [now right | exact H]].
        destruct (String.eqb_spec k0 k) as [<-|Hk'].
        -- rewrite get_set_same in H. injection H as <-.
           right. exists repo, s. split; [now left | auto].
        -- rewrite get_set_other in H by exact Hk'. now left.
      * intros k Hk. apply Hkeep.
        destruct (String.eqb_spec k0 k) as [<-|Hk'].
        -- now rewrite get_set_same.
        -- now rewrite get_set_other.
      * intros r [<-|Hin]; [|now apply Hcover].
        exists k0. split; [exact Ek|]. intros _.
        apply Hkeep. now rewrite get_set_same.
      * intros r [<-|Hin]; [exact Hp | now apply Hprompt].
Qed.

Lemma describe_each_returns (repos : list value) :
  (forall r, In r repos -> promptable r = true) ->
  forall i acc, returns (describe_each trim_text run i repos acc).
Proof.
  induction repos as [|repo rest IH]; intros H i acc.
  - apply returns_Return.
  - destruct (describe_each_cons i repo rest acc)
      as [[Hp _]|(_ & k & s & _ & _ & ->)].
    + rewrite (H repo) in Hp by now left. discriminate.
    + apply IH. intros r Hr. apply H. now right.
Qed.

(** X23.  Project descriptions do not depend on the text model to exist.
    When the function returns, the result is an object of at most six
    entries; every entry is a text that is not empty, under the name of one
    of the first six repositories that are not forks; and each of these six,
    unless its name reads [__proto__], has its entry.  Whatever the model
    answers or rejects, the function returns exactly when the repositories
    are an array without null and the prompt of each of those six can be
    built: the fields the template prints ([name], [language],
    [stargazers_count], [forks_count], [description]) convert to a string,
    which an object with an own [toString] does not, and [topics] is
    missing, null or an array of values that convert.  Otherwise it
    throws. *)
Theorem project_descriptions_complete (repos : option value) :
  (forall d,
     describe repos = Return d ->
     exists l o,
       let own := firstn 6 (filter (fun r => negb (truthy (member r "fork"))) l) in
       repos = Some (JArr l) /\ d = JObj o /\
       (length o <= 6)%nat /\
       (forall k v,
          get o k = Some v ->
          exists repo s,
            In repo own /\ template (member repo "name") = Return k /\
            v = JStr s /\ s <> "") /\
       (forall repo,
          In repo own ->
          exists k, template (member repo "name") = Return k /\
                    (k <> "__proto__" -> get o k <> None))) /\
  ((exists d, describe repos = Return d) <->
   exists l,
     repos = Some (JArr l) /\
     (forall r, In r l -> r <> JNull) /\
     (forall r,
        In r (firstn 6 (filter (fun r => negb (truthy (member r "fork"))) l)) ->
        promptable r = true)).
Proof.
  unfold describe, generateAIProjectDescriptions. split; [|split].
  - intros d. destruct repos as [[| | | |l|]|]; try discriminate.
    destruct (own_repos l) as [own|e] eqn:Hown; cbn [bind]; [|discriminate].
    destruct (describe_each _ _ _ _ _) as [o|e] eqn:Ho; cbn [bind];
      [|discriminate].
    intros E. injection E as <-.
    apply own_repos_filter in Hown as [-> _].
    apply describe_each_spec in Ho as (Hlen & Hfrom & _ & Hcover & _).
    exists l, o. cbn zeta. split; [reflexivity|]. split; [reflexivity|].
    split; [|split].
    + pose proof (firstn_le_length 6
                    (filter (fun r => negb (truthy (member r "fork"))) l)).
      cbn [length] in Hlen. lia.
    + intros k v Hk. destruct (Hfrom k v Hk) as [H|H]; [discriminate | exact H].
    + exact Hcover.
  - intros [d E]. destruct repos as [[| | | |l|]|]; try discriminate.
    exists l. split; [reflexivity|].
    destruct (own_repos l) as [own|e] eqn:Hown; cbn [bind] in E;
      [|discriminate].
    apply own_repos_filter in Hown as [-> Hnull]. split; [exact Hnull|].
    destruct (describe_each _ _ _ _ _) as [o|e] eqn:Ho; cbn [bind] in E;
      [|discriminate].
    now apply describe_each_spec in Ho as (_ & _ & _ & _ & Hp).
  - intros (l & -> & Hnull & Hprompt).
    destruct (own_repos_returns l Hnull) as [own Hown]. rewrite Hown.
    cbn [bind].
    apply own_repos_filter in Hown as [-> _].
    destruct (describe_each_returns _ Hprompt 0%nat (@nil (string * value)))
      as [out ->].
    cbn [bind]. eauto.
Qed.

End DescriptionProperties.

Lemma project_descriptions_complete_witness :
  generateAIProjectDescriptions (fun s => s)
    (fun _ _ => Throw "model unavailable") (Some (JArr sample_repos))
  = Return (JObj [("hello", JStr "⭐ A first repository")]) /\
  (exists d,
     generateAIProjectDescriptions (fun s => s)
       (fun _ _ => Return (JObj [("response", JStr "Says hello")]))
       (Some (JArr sample_repos)) = Return d) /\
  ~ (exists d,
       generateAIProjectDescriptions (fun s => s)
         (fun _ _ => Return (JObj [("response", JStr "Says hello")]))
         (Some (JArr [unprintable_repo])) = Return d).
Proof.
  split; [reflexivity|]. split.
  - destruct (project_descriptions_complete (fun s => s)
                (fun _ _ => Return (JObj [("response", JStr "Says hello")]))
                (Some (JArr sample_repos))) as [_ H].
    apply H. exists sample_repos. split; [reflexivity|].
    split; intros r Hr; cbn in Hr;
      repeat (destruct Hr as [<-|Hr]; [discriminate || reflexivity|]);
      contradiction.
  - intros Hret.
    destruct (project_descriptions_complete (fun s => s)
                (fun _ _ => Return (JObj [("response", JStr "Says hello")]))
                (Some (JArr [unprintable_repo]))) as [_ H].
    apply H in Hret as (l & E & _ & Hprompt). injection E as <-.
    specialize (Hprompt unprintable_repo (or_introl eq_refl)).
    discriminate Hprompt.
Defined.


(* ================================================================== *)
(** ** Properties of the GitHub profile source                         *)
(* ================================================================== *)

Lemma includes_app_right (a b p : string) :
  includes b p = true -> includes (a ++ b) p = true.
Proof.
  intros H. induction a as [|c a IH]; [exact H|].
  change (String c a ++ b) with (String c (a ++ b)). cbn [includes].
  rewrite IH. now destruct (String.prefix p (String c (a ++ b))).
Qed.

Section GitHubProperties.

Variable toLocaleTimeString : string -> string.
Variable github_api : string -> outcome (GitHub.response * GitHub.response).

Let fetchGitHub := GitHub.fetchGitHubData toLocaleTimeString github_api.

(** A 404 for the user: the not-found message, as thrown. *)
Lemma fetchGitHubData_missing (username : string)
    (userRes reposRes : GitHub.response) :
  github_api username = Return (userRes, reposRes) ->
  GitHub.status userRes = 404 ->
  fetchGitHub username =
    Throw ("GitHub 用户 " ++ GitHub.quote ++ username ++ GitHub.quote
           ++ " 不存在").
Proof.
  intros Hapi H404.
  assert (includes ("GitHub 用户 " ++ GitHub.quote ++ username ++ GitHub.quote
                    ++ " 不存在") "不存在" = true) as Hmissing.
  { apply (includes_app_right "GitHub 用户 ").
    apply includes_app_right. apply includes_app_right. reflexivity. }
  unfold fetchGitHub, GitHub.fetchGitHubData. rewrite Hapi. cbn [bind].
  rewrite H404. change (404 =? 403) with false. change (404 =? 404) with true.
  cbn [try_catch]. cbn beta. now rewrite Hmissing, orb_true_r.
Qed.

(** X24.  How the profile source fails and succeeds.  A failure message
    names the rate limit, or says that the user does not exist, or begins
    with the generic request-failed prefix.  A 404 for the user gives the
    not-found message with the username as it was given, not wrapped.  And
    the source returns exactly when both requests were answered, the user
    response is a 2xx and both bodies parse: it then returns both bodies,
    whatever the status of the repositories response. *)
Theorem fetchGitHubData_outcomes (username : string) :
  (forall message,
     fetchGitHub username = Throw message ->
     includes message "速率限制" = true \/
     includes message "不存在" = true \/
     String.prefix "GitHub API 请求失败: " message = true) /\
  (forall userRes reposRes,
     github_api username = Return (userRes, reposRes) ->
     GitHub.status userRes = 404 ->
     fetchGitHub username =
       Throw ("GitHub 用户 " ++ GitHub.quote ++ username ++ GitHub.quote
              ++ " 不存在")) /\
  (forall d,
     fetchGitHub username = Return d <->
     exists userRes reposRes user repos,
       github_api username = Return (userRes, reposRes) /\
       GitHub.ok userRes = true /\
       GitHub.json userRes = Return user /\
       GitHub.json reposRes = Return repos /\
       d = JObj [("user", user); ("repos", repos)]).
Proof.
  assert (forall m,
            exists message,
              (if includes m "速率限制" || includes m "不存在"
               then @Throw value m
               else Throw ("GitHub API 请求失败: " ++ m)) = Throw message /\
              (includes message "速率限制" = true \/
               includes message "不存在" = true \/
               String.prefix "GitHub API 请求失败: " message = true)) as Hcatch.
  { intros m. destruct (includes m "速率限制") eqn:E1; cbn [orb].
    - eauto.
    - destruct (includes m "不存在") eqn:E2.
      + eauto.
      + eexists. split; [reflexivity|]. right. right.
        cbn. apply prefix_empty. }
  split; [|split].
  - intros message. unfold fetchGitHub, GitHub.fetchGitHubData.
    destruct (github_api username) as [[userRes reposRes]|e]; cbn [bind].
    + repeat match goal with
             | |- context [if ?b then _ else _] =>
                 lazymatch b with
                 | orb _ _ => fail
                 | _ => destruct b
                 end
             end; cbn [try_catch bind].
      * destruct (Hcatch ("GitHub API 速率限制，请稍后重试（重置时间: " ++
                          match GitHub.rateLimitReset userRes with
                          | Some reset =>
                              if String.eqb reset "" then "未知"
                              else toLocaleTimeString reset
                          | None => "未知"
                          end ++ "）。建议配置 GITHUB_TOKEN 以提高限制。"))
          as (m' & -> & H). intros E. now injection E as <-.
      * destruct (Hcatch ("GitHub 用户 " ++ GitHub.quote ++ username ++
                          GitHub.quote ++ " 不存在")) as (m' & -> & H).
        intros E. now injection E as <-.
      * destruct (Hcatch ("GitHub API 错误: " ++
                          toString 10 (GitHub.status userRes)))
          as (m' & -> & H). intros E. now injection E as <-.
      * destruct (GitHub.json userRes) as [user|e]; cbn [try_catch bind].
        -- destruct (GitHub.json reposRes) as [repos|e]; cbn [try_catch bind];
             [discriminate|].
           destruct (Hcatch e) as (m' & -> & H). intros E. now injection E as <-.
        -- destruct (Hcatch e) as (m' & -> & H). intros E. now injection E as <-.
    + cbn [try_catch]. destruct (Hcatch e) as (m' & -> & H).
      intros E. now injection E as <-.
  - apply fetchGitHubData_missing.
  - intros d. unfold fetchGitHub, GitHub.fetchGitHubData. split.
    + destruct (github_api username) as [[userRes reposRes]|e]; cbn [bind].
      * destruct (GitHub.status userRes =? 403) eqn:E403.
        { cbn [try_catch]. destruct (_ || _); discriminate. }
        destruct (GitHub.status userRes =? 404) eqn:E404.
        { cbn [try_catch]. destruct (_ || _); discriminate. }
        destruct (GitHub.ok userRes) eqn:Eok; cbn [negb].
        2: { cbn [try_catch]. destruct (_ || _); discriminate. }
        destruct (GitHub.json userRes) as [user|e] eqn:Euser; cbn [bind].
        2: { cbn [try_catch]. destruct (_ || _); discriminate. }
        destruct (GitHub.json reposRes) as [repos|e] eqn:Erepos; cbn [bind].
        2: { cbn [try_catch]. destruct (_ || _); discriminate. }
        cbn [try_catch]. intros E. injection E as <-.
        exists userRes, reposRes, user, repos. auto.
      * cbn [try_catch]. destruct (_ || _); discriminate.
    + intros (userRes & reposRes & user & repos & -> & Hok & Hu & Hr & ->).
      cbn [bind].
      assert ((GitHub.status userRes =? 403) = false) as ->.
      { unfold GitHub.ok in Hok. lia. }
      assert ((GitHub.status userRes =? 404) = false) as ->.
      { unfold GitHub.ok in Hok. lia. }
      rewrite Hok, Hu, Hr. reflexivity.
Qed.

End GitHubProperties.


Lemma fetchGitHubData_outcomes_witness :
  GitHub.fetchGitHubData (fun _ => "") sample_missing_user "nobody"
  = Throw ("GitHub 用户 " ++ GitHub.quote ++ "nobody" ++ GitHub.quote ++ " 不存在").
Proof.
  destruct (fetchGitHubData_outcomes (fun _ => "") sample_missing_user "nobody")
    as (_ & H & _).
  apply (H _ _ eq_refl). reflexivity.
Defined.

(* ================================================================== *)
(** ** Properties of the relative times                                *)
(* ================================================================== *)

Section TimeAgoProperties.

Variable number_text : Z -> string.
Variable toLocaleDateString : option Z -> string.

Let timeAgo := formatTimeAgo number_text toLocaleDateString.

(** X25.  The labels of [formatTimeAgo] by age.  An age under one hour,
    negative ages included, is given in minutes; from one hour to under a
    day in hours, a number from 1 to 23; from one day to under a week in
    days, a number from 1 to 6; from a week on, as a date.  The three
    rounded quotients the code compares decide exactly as the age does. *)
Theorem formatTimeAgo_labels (now t : Z) :
  let age := now - t in
  (age < 3600000 ->
   timeAgo now (Some t) = number_text (age / 60000) ++ "分钟前" /\
   age / 60000 < 60) /\
  (3600000 <= age < 86400000 ->
   timeAgo now (Some t) = number_text (age / 3600000) ++ "小时前" /\
   1 <= age / 3600000 <= 23) /\
  (86400000 <= age < 604800000 ->
   timeAgo now (Some t) = number_text (age / 86400000) ++ "天前" /\
   1 <= age / 86400000 <= 6) /\
  (604800000 <= age ->
   timeAgo now (Some t) = toLocaleDateString (Some t)).
Proof.
  cbn zeta. unfold timeAgo, formatTimeAgo. cbn zeta.
  set (age := now - t).
  assert (age / 60000 < 60 <-> age < 3600000) as Hm.
  { split; intros H.
    - apply Z.nle_gt. intros Hge. apply (Z.div_le_lower_bound age 60000 60) in Hge; lia.
    - apply Z.div_lt_upper_bound; lia. }
  assert (age / 3600000 < 24 <-> age < 86400000) as Hh.
  { split; intros H.
    - apply Z.nle_gt. intros Hge.
      apply (Z.div_le_lower_bound age 3600000 24) in Hge; lia.
    - apply Z.div_lt_upper_bound; lia. }
  assert (age / 86400000 < 7 <-> age < 604800000) as Hd.
  { split; intros H.
    - apply Z.nle_gt. intros Hge.
      apply (Z.div_le_lower_bound age 86400000 7) in Hge; lia.
    - apply Z.div_lt_upper_bound; lia. }
  repeat split.
  - destruct (Z.ltb_spec (age / 60000) 60); [reflexivity | lia].
  - lia.
  - destruct (Z.ltb_spec (age / 60000) 60); [lia|].
    destruct (Z.ltb_spec (age / 3600000) 24); [reflexivity | lia].
  - apply Z.div_le_lower_bound; lia.
  - lia.
  - destruct (Z.ltb_spec (age / 60000) 60); [lia|].
    destruct (Z.ltb_spec (age / 3600000) 24); [lia|].
    destruct (Z.ltb_spec (age / 86400000) 7); [reflexivity | lia].
  - apply Z.div_le_lower_bound; lia.
  - lia.
  - destruct (Z.ltb_spec (age / 60000) 60); [lia|].
    destruct (Z.ltb_spec (age / 3600000) 24); [lia|].
    destruct (Z.ltb_spec (age / 86400000) 7); [lia | reflexivity].
Qed.

End TimeAgoProperties.

Lemma formatTimeAgo_labels_witness :
  formatTimeAgo (toString 10) (fun _ => "") 7200000 (Some 0) = "2小时前".
Proof.
  destruct (formatTimeAgo_labels (toString 10) (fun _ => "") 7200000 0)
    as (_ & H & _).
  destruct H as [H _]; [cbn; lia|]. exact H.
Defined.


(* ================================================================== *)
(** ** Generation and the profile source                               *)
(* ================================================================== *)

Section GenerateFailure.

Variable XIAOMI_CITY_IDS : string -> option string.
Variable parseInt : option value -> outcome (option Z).
Variable round_parseFloat : value -> outcome (option Z).
Variable getXiaomiWeatherDesc : Z -> string.
Variable getXiaomiWeatherEmoji : Z -> string.
Variable getWeatherEmojiFromWttr : option Z -> string.
Variable xiaomi_api : string -> http_result.
Variable wttr_api : string -> http_result.
Variable fetchRealNews : option value -> outcome (list value).
Variable extractSkills : option value -> outcome value.
Variable toLocaleTimeString : string -> string.
Variable github_api : string -> outcome (GitHub.response * GitHub.response).

Let generate := handleGenerate XIAOMI_CITY_IDS parseInt round_parseFloat
  getXiaomiWeatherDesc getXiaomiWeatherEmoji getWeatherEmojiFromWttr
  xiaomi_api wttr_api (GitHub.fetchGitHubData toLocaleTimeString github_api)
  fetchRealNews extractSkills.

(** X26.  An unknown GitHub user is not created.  A first generation for a
    username for which GitHub answers 404, sent without profile data of the
    client's own, is answered 500 with the not-found message naming the
    username as it was typed, and stores nothing: neither the text model
    nor the news and weather upstreams matter. *)
Theorem unknown_github_user_is_not_created
    (clock do_clock : nat -> Z) (fraction : list N) (env : Env)
    (req : value) (ns : namespace) (username : string)
    (userRes reposRes : GitHub.response) :
  member req "username" = Some (JStr username) ->
  username <> "" ->
  truthy (member req "githubData") = false ->
  ns (toLowerCase username) = None ->
  github_api username = Return (userRes, reposRes) ->
  GitHub.status userRes = 404 ->
  generate clock do_clock fraction env "POST" req ns
  = (Return (jsonResponse
               (JObj [("error",
                       JStr ("GitHub 用户 " ++ GitHub.quote ++ username ++
                             GitHub.quote ++ " 不存在"))]) 500),
     ns).
Proof.
  intros Hname Hnonempty Hclient Hns Hapi H404.
  pose proof (fetchGitHubData_missing toLocaleTimeString github_api username
                userRes reposRes Hapi H404) as Hmissing.
  destruct req as [| | | | |o]; try discriminate.
  cbn [member] in Hname, Hclient.
  unfold generate, handleGenerate.
  cbn [negb String.eqb Ascii.eqb Bool.eqb member].
  rewrite Hname. cbn [truthy].
  destruct (String.eqb_spec username "") as [->|_]; [contradiction|].
  cbn [negb]. rewrite Hns.
  unfold github_data.
  destruct (get o "githubData") as [c|]; [rewrite Hclient; cbn [andb]|];
    rewrite Hmissing; reflexivity.
Qed.

End GenerateFailure.

Lemma unknown_github_user_is_not_created_witness :
  handleGenerate no_code no_parse no_float (fun _ => "") (fun _ => "")
    (fun _ => "") unreachable unreachable
    (GitHub.fetchGitHubData (fun _ => "") sample_missing_user)
    sample_news sample_skills (fun _ => 5000) (fun _ => 5000) [10; 11; 12]%N
    sample_env "POST" (JObj [("username", JStr "Nobody")]) sample_namespace
  = (Return (jsonResponse
               (JObj [("error",
                       JStr ("GitHub 用户 " ++ GitHub.quote ++ "Nobody" ++
                             GitHub.quote ++ " 不存在"))]) 500),
     sample_namespace).
Proof.
  apply (unknown_github_user_is_not_created no_code no_parse no_float
           (fun _ => "") (fun _ => "") (fun _ => "") unreachable unreachable
           sample_news sample_skills (fun _ => "") sample_missing_user
           (fun _ => 5000) (fun _ => 5000) [10; 11; 12]%N sample_env
           (JObj [("username", JStr "Nobody")]) sample_namespace "Nobody"
           (GitHub.mkResponse 404 None
              (Return (JObj [("message", JStr "Not Found")])))
           (GitHub.mkResponse 404 None
              (Return (JObj [("message", JStr "Not Found")]))));
    try reflexivity; discriminate.
Defined.


Lemma refresh_and_read_keep_user_fields_witness :
  exists R',
    snd (handleGetUser no_number no_code no_parse no_float
           (fun _ => "") (fun _ => "") (fun _ => "") unreachable unreachable
           sample_news 9000000 (fun _ => 9000000) "/user/octocat-k3x9a1"
           sample_namespace) "octocat" = Some R' /\
    get R' "city" = Some (JStr "Beijing").
Proof.
  destruct (refresh_and_read_keep_user_fields no_number no_code no_parse
              no_float (fun _ => "") (fun _ => "") (fun _ => "") unreachable
              unreachable sample_github sample_news sample_skills
              9000000 (fun _ => 9000000) (fun _ => 9000000) sample_env
              "POST" "/user/octocat-k3x9a1" JNull sample_namespace "city")
    as [_ Hread]; [now left|].
  exact (Hread "octocat" sample_record eq_refl).
Defined.

(* ================================================================== *)
(** ** Setting a stored record again                                   *)
(* ================================================================== *)

Lemma or_default_idempotent (a : option value) (d : value) :
  or_default (Some (or_default a d)) d = or_default a d.
Proof.
  unfold or_default.
  destruct a as [v|];
    [destruct (truthy (Some v)) eqn:E; [now rewrite E|]|];
    now destruct (truthy (Some d)).
Qed.

(** X27.  Set, get, set.  A record that a set stored, read and sent back to
    a set at a later time, is stored as it was: every field keeps its value,
    the defaults included, and so does every timestamp except [created] and
    [updated], which take the later time. *)
Theorem set_of_stored_record (now now' : Z) (req : value) (st st' : storage)
    (R : object) :
  req <> JNull ->
  now <> 0 ->
  snd (setData now req st) = Some R ->
  member (body (getData (Some R))) "data" = Some (JObj R) /\
  exists R' ts ts',
    snd (setData now' (JObj R) st') = Some R' /\
    (forall k, k <> "timestamps" -> get R' k = get R k) /\
    get R "timestamps" = Some (JObj ts) /\
    get R' "timestamps" = Some (JObj ts') /\
    (forall k, k <> "created" -> k <> "updated" -> get ts' k = get ts k) /\
    get ts' "created" = Some (JNum now') /\
    get ts' "updated" = Some (JNum now').
Proof.
  intros Hreq Hnow E. split; [reflexivity|].
  assert (forall a, or_default (Some (or_default a (JNum now))) (JNum now')
                    = or_default a (JNum now)) as Htext.
  { intros a. apply or_default_of_truthy, or_default_truthy.
    cbn. now destruct (Z.eqb_spec now 0). }
  unfold setData in E.
  assert (exists o, forall k, member req k = get o k) as [o Ho].
  { destruct req as [| | | | |o]; try contradiction;
      try (exists []; reflexivity). now exists o. }
  assert (Some
            (field "username" (get o "username") ++
             [("city", or_default (get o "city") (JStr CONFIG.DEFAULT_CITY));
              ("interests", or_default (get o "interests") (JArr []));
              ("userBio", or_default (get o "userBio") (JStr ""))] ++
             field "slug" (get o "slug") ++
             [("github", or_default (get o "github") JNull);
              ("repos", or_default (get o "repos") (JArr []));
              ("aiBio", or_default (get o "aiBio") JNull);
              ("aiProjectDescriptions",
               or_default (get o "aiProjectDescriptions") (JObj []));
              ("aiQuote", or_default (get o "aiQuote") JNull);
              ("aiBackgroundUrl", or_default (get o "aiBackgroundUrl") JNull);
              ("aiCardImageUrl", or_default (get o "aiCardImageUrl") JNull);
              ("skills", or_default (get o "skills") (JArr []));
              ("bookmarks", or_default (get o "bookmarks") (JArr []));
              ("timestamps", JObj
                 [("created", JNum now);
                  ("updated", JNum now);
                  ("textGenerated",
                   or_default (opt_member (get o "timestamps") "textGenerated")
                              (JNum now));
                  ("imageGenerated",
                   or_default (opt_member (get o "timestamps") "imageGenerated")
                              JNull);
                  ("newsUpdated",
                   or_default (opt_member (get o "timestamps") "newsUpdated")
                              JNull);
                  ("weatherUpdated",
                   or_default (opt_member (get o "timestamps") "weatherUpdated")
                              JNull)]);
              ("cachedNews", or_default (get o "cachedNews") JNull);
              ("cachedWeather", or_default (get o "cachedWeather") JNull)])%list
          = Some R) as E'.
  { rewrite <- E. destruct req as [| | | | |o']; try contradiction;
      cbn [snd]; rewrite <- !Ho; reflexivity. }
  clear E Ho Hreq. injection E' as <-.
  destruct (get o "username") as [username|], (get o "slug") as [slug|];
    cbn [field app];
    (eexists; exists
       [("created", JNum now);
        ("updated", JNum now);
        ("textGenerated",
         or_default (opt_member (get o "timestamps") "textGenerated") (JNum now));
        ("imageGenerated",
         or_default (opt_member (get o "timestamps") "imageGenerated") JNull);
        ("newsUpdated",
         or_default (opt_member (get o "timestamps") "newsUpdated") JNull);
        ("weatherUpdated",
         or_default (opt_member (get o "timestamps") "weatherUpdated") JNull)];
     eexists;
     split;
     [unfold setData;
      cbn [snd field app member get opt_member String.eqb Ascii.eqb Bool.eqb];
      rewrite ?or_default_idempotent, ?Htext; reflexivity|]);
    (split; [|split; [reflexivity|split; [reflexivity|split;
                        [|split; reflexivity]]]]);
    intros k; intros; cbn [get];
    repeat match goal with
           | |- context [String.eqb ?a k] =>
               destruct (String.eqb_spec a k); [try reflexivity; congruence|]
           end; reflexivity.
Qed.

Lemma set_of_stored_record_witness :
  exists R',
    snd (setData 2000 (JObj sample_record) None) = Some R' /\
    get R' "aiBio" = Some (JStr "bio") /\
    lookup (JObj R') ["timestamps"; "created"] = Some (JNum 2000).
Proof.
  destruct (set_of_stored_record 1000 2000 sample_body None None sample_record)
    as (_ & R' & ts & ts' & E & Hfields & _ & Hts & _ & Hcreated & _);
    try discriminate; [reflexivity|].
  exists R'. split; [exact E|]. split.
  - rewrite Hfields by discriminate. reflexivity.
  - cbn [lookup]. now rewrite Hts, Hcreated.
Defined.

Lemma bookmarks_written_are_read_witness :
  exists ns',
    handleUpdateBookmarks (fun _ => 9000) "POST" sample_bookmark_request
      sample_namespace
    = (Return (jsonResponse
                 (JObj [("success", JBool true);
                        ("bookmarks", JArr sample_reindexed)]) 200),
       ns') /\
    match fst (handleGetUser no_number no_code no_parse no_float
                 (fun _ => "") (fun _ => "") (fun _ => "") unreachable
                 unreachable sample_news 9500 (fun _ => 9500)
                 ("/user/" ++ "octocat-k3x9a1") ns') with
    | Return r =>
        exists data,
          r = jsonResponse (JObj [("data", JObj data)]) 200 /\
          get data "bookmarks" = Some (JArr sample_reindexed)
    | Throw _ => True
    end.
Proof.
  destruct (bookmarks_written_are_read no_number no_code no_parse no_float
              (fun _ => "") (fun _ => "") (fun _ => "") unreachable
              unreachable sample_news (fun _ => 9000) sample_bookmark_request
              sample_namespace "Octocat"
              [JObj [("name", JStr "Docs"); ("url", JStr "https://docs.github.com")]]
              sample_reindexed sample_record "octocat-k3x9a1"
              sample_namespace_invariant)
    as (ns' & Hwrite & Hread);
    try reflexivity; try discriminate.
  exists ns'. split; [exact Hwrite | apply Hread].
Defined.
